(** * deepee data loading utilities: a shallow embedding of
      [results/dataloader.py] and the properties of its array code.

    The Python module is a collection of dataset adapters and NumPy
    preprocessing functions.  We embed the functions the specification talks
    about: the leave-one-out sensitivity used by the differentially private
    mean/std, the volumetric pipeline (clipping, scaling, rotating, bounding
    box, cropping, bounding-box labels), the colour map of the segmentation
    labels and the [__getitem__] protocol shared by the dataset classes.

    Conventions.
    - Python integers are [Z]; positions inside an array are [nat].
    - A 3D NumPy array is its shape together with its cells as nested lists
      (axis 0 outermost).  The code only reads cells inside the shape.
    - Code that may raise returns a [result]; code that also prints, draws
      random numbers or writes files runs in the state monad [M]. *)

From Stdlib Require Import ZArith QArith Lia List Ascii String Sorted.
From stdpp Require Import base list strings sorting.
Import ListNotations.

Set Default Proof Using "Type".
Local Open Scope nat_scope.

(** ** Exceptions and effects *)

Inductive exn : Type :=
  | TypeError
  | IndexError
  | ValueError
  | AssertionError
  | NotImplementedError
  | RuntimeError.

Inductive result (A : Type) : Type :=
  | Ok (a : A)
  | Raise (e : exn).
Arguments Ok {A} a.
Arguments Raise {A} e.

Definition is_ok {A} (r : result A) : bool :=
  match r with Ok _ => true | Raise _ => false end.

Definition raises {A} (r : result A) : Prop := exists e, r = Raise e.

(** A computation over a state [S] (standard output, random generator,
    files): it returns a value or raises, and leaves a state behind in both
    cases. *)
Definition M (S A : Type) : Type := S -> result A * S.

Definition ret {S A} (a : A) : M S A := fun s => (Ok a, s).
Definition throw {S A} (e : exn) : M S A := fun s => (Raise e, s).
Definition bind {S A B} (m : M S A) (k : A -> M S B) : M S B :=
  fun s => match m s with
           | (Ok a, s') => k a s'
           | (Raise e, s') => (Raise e, s')
           end.
Definition lift {S A} (r : result A) : M S A := fun s => (r, s).

Declare Scope py_scope.
Delimit Scope py_scope with py.
Notation "x <- m ; k" := (bind m (fun x => k))
  (at level 20, m at level 100, k at level 200, only parsing) : py_scope.
Notation "' pat <- m ; k" :=
  (bind m (fun x => match x with pat => k end))
  (at level 20, pat pattern, m at level 100, k at level 200, only parsing)
  : py_scope.

(** [print(...)]: one line appended to standard output. *)
Definition print (line : string) : M (list string) unit :=
  fun out => (Ok tt, out ++ [line]).

(** ** Python slices over a sequence of length [n] *)

(** A slice bound [i] of [a[i:j]]: negative bounds count from the end, and
    every bound is clamped into [0, n]. *)
Definition slice_bound (i : Z) (n : nat) : nat :=
  Z.to_nat (if (i <? 0)%Z then Z.max (i + Z.of_nat n) 0
            else Z.min i (Z.of_nat n)).

Definition slice_start (lo hi : Z) (n : nat) : nat := slice_bound lo n.
Definition slice_len (lo hi : Z) (n : nat) : nat :=
  slice_bound hi n - slice_bound lo n.

(** [l[lo:hi]] *)
Definition py_slice {A} (lo hi : Z) (n : nat) (l : list A) : list A :=
  take (slice_len lo hi n) (drop (slice_start lo hi n) l).

(** Is position [i] selected by [lo:hi]? *)
Definition in_slice (lo hi : Z) (n : nat) (i : nat) : bool :=
  (slice_bound lo n <=? i) && (i <? slice_bound hi n).

(** ** Three-dimensional arrays *)

Record ndarray3 (A : Type) : Type := Ndarray3 {
  dim0 : nat;
  dim1 : nat;
  dim2 : nat;
  cells : list (list (list A))
}.
Arguments Ndarray3 {A} _ _ _ _.
Arguments dim0 {A} _.
Arguments dim1 {A} _.
Arguments dim2 {A} _.
Arguments cells {A} _.

Definition shape3 {A} (a : ndarray3 A) : nat * nat * nat :=
  (dim0 a, dim1 a, dim2 a).

(** The cells fill the shape exactly. *)
Definition wf3 {A} (a : ndarray3 A) : bool :=
  (length (cells a) =? dim0 a) &&
  forallb (fun plane =>
             (length plane =? dim1 a) &&
             forallb (fun row => length row =? dim2 a) plane)
          (cells a).

Definition get3 {A} (a : ndarray3 A) (r c z : nat) : option A :=
  match cells a !! r with
  | Some plane => match plane !! c with
                  | Some row => row !! z
                  | None => None
                  end
  | None => None
  end.

Definition in_shape {A} (a : ndarray3 A) (r c z : nat) : Prop :=
  r < dim0 a /\ c < dim1 a /\ z < dim2 a.

(** [a[r, c, z]] holds [v]. *)
Definition voxel {A} (a : ndarray3 A) (r c z : nat) (v : A) : Prop :=
  in_shape a r c z /\ get3 a r c z = Some v.

(** Build an array from its shape and a cell function. *)
Definition tabulate3 {A} (n0 n1 n2 : nat) (f : nat -> nat -> nat -> A)
  : ndarray3 A :=
  Ndarray3 n0 n1 n2
    (map (fun r => map (fun c => map (fun z => f r c z) (seq 0 n2))
                       (seq 0 n1))
         (seq 0 n0)).

(** ** Bounding box of the foreground: [bbox_dim_3D] *)

Definition truthy (v : Z) : bool := negb (v =? 0)%Z.

Definition cell_truthy (img : ndarray3 Z) (r c z : nat) : bool :=
  match get3 img r c z with
  | Some v => truthy v
  | None => false
  end.

(** [np.nonzero(img)[0]]: the axis-0 coordinate of every nonzero cell, in
    row-major order. *)
Definition nonzero_axis0 (img : ndarray3 Z) : list nat :=
  flat_map (fun r =>
    flat_map (fun c =>
      flat_map (fun z => if cell_truthy img r c z then [r] else [])
               (seq 0 (dim2 img)))
      (seq 0 (dim1 img)))
    (seq 0 (dim0 img)).

(** [np.any(img, axis=(1, 2))], [axis=(0, 2)] and [axis=(0, 1)]. *)
Definition any_axis12 (img : ndarray3 Z) : list bool :=
  map (fun r => existsb (fun c => existsb (fun z => cell_truthy img r c z)
                                          (seq 0 (dim2 img)))
                        (seq 0 (dim1 img)))
      (seq 0 (dim0 img)).
Definition any_axis02 (img : ndarray3 Z) : list bool :=
  map (fun c => existsb (fun r => existsb (fun z => cell_truthy img r c z)
                                          (seq 0 (dim2 img)))
                        (seq 0 (dim0 img)))
      (seq 0 (dim1 img)).
Definition any_axis01 (img : ndarray3 Z) : list bool :=
  map (fun z => existsb (fun r => existsb (fun c => cell_truthy img r c z)
                                          (seq 0 (dim1 img)))
                        (seq 0 (dim0 img)))
      (seq 0 (dim2 img)).

(** [np.where(mask)[0]]: the positions that hold [True], increasing. *)
Fixpoint where_from (i : nat) (mask : list bool) : list nat :=
  match mask with
  | [] => []
  | b :: rest => (if b then [i] else []) ++ where_from (S i) rest
  end.
Definition np_where (mask : list bool) : list nat := where_from 0 mask.

(** [idx[[0, -1]]]: first and last entry; indexing an empty array raises. *)
Definition first_last (idx : list nat) : result (Z * Z) :=
  match idx with
  | [] => Raise IndexError
  | i :: _ => Ok (Z.of_nat i, Z.of_nat (List.last idx i))
  end.

Definition bbox : Type := (Z * Z * Z * Z * Z * Z)%type.

Definition bbox_dim_3D (img : ndarray3 Z) : M (list string) (option bbox) :=
  (if length (nonzero_axis0 img) =? 0 then
     _ <- print "Warning Empty Label Mask";
     ret None
   else
     let r := any_axis12 img in
     let c := any_axis02 img in
     let z := any_axis01 img in
     '(rmin, rmax) <- lift (first_last (np_where r));
     '(cmin, cmax) <- lift (first_last (np_where c));
     '(zmin, zmax) <- lift (first_last (np_where z));
     ret (Some (rmin, rmax, cmin, cmax, zmin, zmax)))%py.

(** A foreground voxel: a cell inside the shape that holds a nonzero
    label. *)
Definition foreground (img : ndarray3 Z) (r c z : nat) : Prop :=
  exists v, voxel img r c z v /\ v <> 0%Z.


(** ** Elementwise helpers *)

Definition map3 {A B} (f : A -> B) (a : ndarray3 A) : ndarray3 B :=
  Ndarray3 (dim0 a) (dim1 a) (dim2 a) (map (map (map f)) (cells a)).

(** [a[mask] = v] for a boolean mask given by position. *)
Definition mask_assign {A} (mask : nat -> nat -> nat -> bool) (v : A)
    (a : ndarray3 A) : ndarray3 A :=
  Ndarray3 (dim0 a) (dim1 a) (dim2 a)
    (imap (fun r plane =>
       imap (fun c row =>
         imap (fun z x => if mask r c z then v else x) row) plane)
       (cells a)).

(** [np.zeros((n0, n1, n2))]; a negative dimension raises. *)
Definition np_zeros3 (n0 n1 n2 : Z) : result (ndarray3 Z) :=
  if ((n0 <? 0) || (n1 <? 0) || (n2 <? 0))%Z then Raise ValueError
  else Ok (tabulate3 (Z.to_nat n0) (Z.to_nat n1) (Z.to_nat n2)
                     (fun _ _ _ => 0%Z)).

(** ** [merge_labels] *)

Definition cell_is (a : ndarray3 Z) (v : Z) (r c z : nat) : bool :=
  match get3 a r c z with
  | Some x => (x =? v)%Z
  | None => false
  end.

Definition merge_labels (label_volume : ndarray3 Z) : ndarray3 Z :=
  let merged_label :=
    tabulate3 (dim0 label_volume) (dim1 label_volume) (dim2 label_volume)
              (fun _ _ _ => 0%Z) in
  let merged_label := mask_assign (cell_is label_volume 1) 1%Z merged_label in
  let merged_label := mask_assign (cell_is label_volume 2) 1%Z merged_label in
  merged_label.

(** ** [create_3D_label] *)

(** [a[r0:r1, c0:c1, z0:z1] = v] *)
Definition assign_slice3 {A} (r0 r1 c0 c1 z0 z1 : Z) (v : A)
    (a : ndarray3 A) : ndarray3 A :=
  mask_assign (fun r c z => in_slice r0 r1 (dim0 a) r &&
                            in_slice c0 c1 (dim1 a) c &&
                            in_slice z0 z1 (dim2 a) z) v a.

Definition create_3D_label (rmin rmax cmin cmax zmin zmax res num_slices : Z)
  : result (ndarray3 Z) :=
  match np_zeros3 res res num_slices with
  | Raise e => Raise e
  | Ok label_volume =>
      Ok (assign_slice3 rmin rmax cmin cmax zmin zmax 1%Z label_volume)
  end.

(** The half-open box a bounding-box tuple selects. *)
Definition in_box (rmin rmax cmin cmax zmin zmax : Z) (r c z : nat) : Prop :=
  (rmin <= Z.of_nat r < rmax)%Z /\ (cmin <= Z.of_nat c < cmax)%Z /\
  (zmin <= Z.of_nat z < zmax)%Z.

(** ** [crop_volume] *)

(** [a[:, :, lo:hi]] *)
Definition slice_axis2 {A} (lo hi : Z) (a : ndarray3 A) : ndarray3 A :=
  Ndarray3 (dim0 a) (dim1 a) (slice_len lo hi (dim2 a))
           (map (map (py_slice lo hi (dim2 a))) (cells a)).

Definition crop_volume {A} (data_volume : ndarray3 A)
    (label_volume : ndarray3 Z) (crop_height : Z)
  : M (list string) (ndarray3 A * ndarray3 Z) :=
  (b <- bbox_dim_3D label_volume;
   match b with
   | None => throw TypeError (* None cannot be unpacked *)
   | Some (rmin, rmax, cmin, cmax, zmin, zmax) =>
       let zmiddle := ((zmin + zmax) / 2)%Z in
       let z_min := (zmiddle - crop_height / 2)%Z in
       let z_min := if (z_min <? 0)%Z then 0%Z else z_min in
       let z_max := (zmiddle + crop_height / 2)%Z in
       let cropped_data_volume := slice_axis2 z_min z_max data_volume in
       let cropped_label_volume := slice_axis2 z_min z_max label_volume in
       ret (cropped_data_volume, cropped_label_volume)
   end)%py.

(** The depth window the docstring of [crop_volume] describes. *)
Definition crop_lo (zmin zmax h : Z) : Z := Z.max 0 ((zmin + zmax) / 2 - h / 2).
Definition crop_hi (zmin zmax h : Z) : Z := ((zmin + zmax) / 2 + h / 2)%Z.

(** ** Rotation and flip *)

(** Swap axes 0 and 1 of nested cells whose planes have [n1] rows. *)
Definition transpose01 {A} (n1 : nat) (planes : list (list (list A)))
  : list (list (list A)) :=
  map (fun j => map (fun plane => nth j plane []) planes) (seq 0 n1).

(** [np.flip(a, 1)], which is also [np.fliplr(a)]. *)
Definition fliplr {A} (a : ndarray3 A) : ndarray3 A :=
  Ndarray3 (dim0 a) (dim1 a) (dim2 a) (map (@reverse _) (cells a)).

(** [np.rot90(a)]: flip axis 1, then swap axes 0 and 1. *)
Definition rot90 {A} (a : ndarray3 A) : ndarray3 A :=
  Ndarray3 (dim1 a) (dim0 a) (dim2 a)
           (transpose01 (dim1 a) (cells (fliplr a))).

Definition rotate_label (label_volume : ndarray3 Z) : ndarray3 Z :=
  let label_volume := rot90 label_volume in
  let label_volume := fliplr label_volume in
  label_volume.

(** ** Intensity clipping and scaling.  Intensities are exact rationals. *)

Definition flatten3 {A} (a : ndarray3 A) : list A := concat (concat (cells a)).

Definition Qmaxb (x y : Q) : Q := if Qle_bool x y then y else x.
Definition Qminb (x y : Q) : Q := if Qle_bool x y then x else y.

(** [array.max()] and [array.min()]; an empty array raises. *)
Definition arr_max (a : ndarray3 Q) : result Q :=
  match flatten3 a with
  | [] => Raise ValueError
  | x :: l => Ok (fold_left Qmaxb l x)
  end.
Definition arr_min (a : ndarray3 Q) : result Q :=
  match flatten3 a with
  | [] => Raise ValueError
  | x :: l => Ok (fold_left Qminb l x)
  end.

(** [np.clip(a, lo, hi)] *)
Definition clip1 (lo hi x : Q) : Q := Qminb (Qmaxb x lo) hi.
Definition np_clip (a : ndarray3 Q) (lo hi : Q) : ndarray3 Q :=
  map3 (clip1 lo hi) a.

Definition scale_array (array : ndarray3 Q) : result (ndarray3 Q) :=
  match arr_max array, arr_min array with
  | Ok mx, Ok mn =>
      if negb (Qle_bool (mx - mn) 0) (* assert max - min > 0 *)
      then Ok (map3 (fun x => (x - mn) / (mx - mn))%Q array)
      else Raise AssertionError
  | Raise e, _ => Raise e
  | _, Raise e => Raise e
  end.

Definition preprocess_scan (scan : ndarray3 Q) : result (ndarray3 Q) :=
  let scan := np_clip scan (-150 # 1) (200 # 1) in
  match scale_array scan with
  | Raise e => Raise e
  | Ok scan =>
      let scan := rot90 scan in
      let scan := fliplr scan in
      Ok scan
  end.

Definition preprocess_and_convert_to_numpy (np_scan : ndarray3 Q)
    (np_label : ndarray3 Z) : result (ndarray3 Q * ndarray3 Z) :=
  match preprocess_scan np_scan with
  | Raise e => Raise e
  | Ok np_scan =>
      let np_label := rotate_label np_label in
      if decide (shape3 np_scan = shape3 np_label)
      then Ok (np_scan, np_label)
      else Raise AssertionError
  end.

(** ** The volumetric dataset [MSD_data] *)

(** [np.moveaxis(a, -1, 0)]: the last axis becomes the first. *)
Definition moveaxis_last_first {A} (a : ndarray3 A) : ndarray3 A :=
  Ndarray3 (dim2 a) (dim0 a) (dim1 a)
    (map (fun k =>
       map (fun plane =>
         flat_map (fun row => match row !! k with
                              | Some x => [x]
                              | None => []
                              end) plane)
         (cells a))
       (seq 0 (dim2 a))).

(** [convert_to_2d] on the one-sample batch [np.expand_dims(a, 0)]:
    concatenating the single sample along the last axis gives [a] back, and
    the slices move to the front. *)
Definition convert_to_2d_single {A} (a : ndarray3 A) : ndarray3 A :=
  moveaxis_last_first a.

(** What [get_item_from_index] hands to [transform]: the resized volume, or
    in mode ["2D"] the stack of its slices, each with one channel (shape
    [(res_z, 1, res, res)], stored without the unit axis). *)
Inductive scan_array : Type :=
  | Volume (a : ndarray3 Q)
  | Slices (a : ndarray3 Q).

Record MSD_data : Type := {
  path_string : string;
  res : nat;
  res_z : nat;
  sample_limit : Z;
  crop_height : Z;
  mode : string;
  label_mode : string;
  mrg_labels : bool;
  scan_names : list string;
  label_names : list string
}.

Definition astype_uint8 (a : ndarray3 Z) : ndarray3 Z :=
  map3 (fun v => (v mod 256)%Z) a.

(** [names[index]] for a Python list. *)
Definition list_getitem {A} (l : list A) (index : Z) : result A :=
  let i := if (index <? 0)%Z then (index + Z.of_nat (length l))%Z else index in
  if (i <? 0)%Z then Raise IndexError
  else match l !! Z.to_nat i with
       | Some x => Ok x
       | None => Raise IndexError
       end.

(** [label_mode == "bbox-seg" or label_mode == "bbox-coord"] *)
Definition is_bbox_mode (label_mode : string) : bool :=
  String.eqb label_mode "bbox-seg" || String.eqb label_mode "bbox-coord".

Section MSD.
(** The libraries the adapter wraps: NIfTI loading ([nib.load] followed by
    [get_fdata]), [skimage.transform.resize] with linear interpolation
    for scans and nearest neighbour for labels, and the user's
    transforms. *)
Context {T U : Type}.
Variable nib_load_scan : string -> result (ndarray3 Q).
Variable nib_load_label : string -> result (ndarray3 Z).
Variable resize_scan : ndarray3 Q -> nat * nat * nat -> ndarray3 Q.
Variable resize_label : ndarray3 Z -> nat * nat * nat -> ndarray3 Z.
Variable transform : scan_array -> T.
Variable target_transform : ndarray3 Z -> U.

(** Lines 512-542 of [get_item_from_index]: from the preprocessed arrays
    to the resized pair. *)
Definition crop_and_resize (self : MSD_data) (scan_id : string)
    (scan : ndarray3 Q) (label : ndarray3 Z)
  : M (list string) (ndarray3 Q * ndarray3 Z) :=
  (let label := if mrg_labels self then merge_labels label else label in
   label <-
     (if is_bbox_mode (label_mode self) then
        b <- bbox_dim_3D label;
        _ <- match b with
             | None =>
                 print (String.append
                   "Couldn't generate a bounding box for the label in scan: "
                   scan_id)
             | Some _ => ret tt
             end;
        match b with
        | None => throw TypeError (* None is not subscriptable *)
        | Some (b0, b1, b2, b3, b4, b5) =>
            lift (create_3D_label b0 b1 b2 b3 b4 b5
                    (Z.of_nat (dim1 label)) (Z.of_nat (dim2 label)))
        end
      else ret label);
   '(cropped_scan, cropped_label) <-
      crop_volume scan label (crop_height self);
   if decide (shape3 cropped_scan = shape3 cropped_label) then
     let scan := resize_scan cropped_scan (res self, res self, res_z self) in
     let label :=
       astype_uint8
         (resize_label cropped_label (res self, res self, res_z self)) in
     ret (scan, label)
   else throw AssertionError)%py.

Definition get_item_from_index (self : MSD_data) (index : Z)
  : M (list string) (T * U) :=
  (scan_id <- lift (list_getitem (scan_names self) index);
   label_id <- lift (list_getitem (label_names self) index);
   scan <- lift (nib_load_scan scan_id);
   label <- lift (nib_load_label label_id);
   '(scan, label) <- lift (preprocess_and_convert_to_numpy scan label);
   '(scan, label) <- crop_and_resize self scan_id scan label;
   if String.eqb (mode self) "2D" then
     let scan := convert_to_2d_single scan in
     let label := convert_to_2d_single label in
     ret (transform (Slices scan), target_transform label)
   else
     ret (transform (Volume scan), target_transform label))%py.
End MSD.

(** ** Leave-one-out sensitivity: [l1_sensitivity] *)

Fixpoint mapM_result {A B} (f : A -> result B) (l : list A)
  : result (list B) :=
  match l with
  | [] => Ok []
  | x :: rest =>
      match f x with
      | Raise e => Raise e
      | Ok y => match mapM_result f rest with
                | Raise e => Raise e
                | Ok ys => Ok (y :: ys)
                end
      end
  end.

(** [LeaveOneOut().split(data)] of scikit-learn: for every sample [i] the
    pair of the other indices (train) and [[i]] (test).  Fewer than two
    samples raise. *)
Definition leave_one_out_split (n : nat)
  : result (list (list nat * list nat)) :=
  if n <=? 1 then Raise ValueError
  else Ok (map (fun i => (List.filter (fun j => negb (j =? i)) (seq 0 n), [i]))
               (seq 0 n)).

Section L1Sensitivity.
(** [D]: the array type of the data set, with its number of samples and
    its indexing by an index array.  [T]: the type of query values, with
    the integer 0 and the comparison [>]. *)
Context {D T : Type}.
Variable n_samples : D -> nat.
Variable take_rows : D -> list nat -> D.
Variable zero : T.
Variable gtb : T -> T -> bool.

Definition l1_sensitivity (query : D -> T) (d : D) : result T :=
  let data := d in
  match leave_one_out_split (n_samples data) with
  | Raise e => Raise e
  | Ok splits =>
      Ok (fold_left
            (fun sensitivity idx =>
               let val := query (take_rows data (fst idx)) in
               if gtb val sensitivity then val else sensitivity)
            splits zero)
  end.
End L1Sensitivity.

(** One-dimensional integer data: [data[idx]] picks the listed samples. *)
Definition take_samples (d : list Z) (idx : list nat) : list Z :=
  flat_map (fun i => match d !! i with Some x => [x] | None => [] end) idx.

Definition l1_sensitivity_Z (query : list Z -> Z) (d : list Z) : result Z :=
  l1_sensitivity (@length Z) take_samples 0%Z Z.gtb query d.

(** The specification's wording: the data set with sample [i] removed, and
    the largest change of the query over all such removals. *)
Definition without_sample (i : nat) (d : list Z) : list Z :=
  take i d ++ drop (S i) d.

Definition leave_one_out_sensitivity_spec (query : list Z -> Z) (d : list Z)
  : Z :=
  fold_right Z.max 0%Z
    (map (fun i => Z.abs (query d - query (without_sample i d)))
         (seq 0 (length d))).

Definition Zsum (l : list Z) : Z := fold_right Z.add 0%Z l.

(** ** Mean and standard deviation: [calc_mean_std] *)

Inductive dataset_kind : Type :=
  | Dataset      (* a [torch.utils.data.Dataset] *)
  | DataLoader   (* a [torch.utils.data.DataLoader] *)
  | OtherIterable.

Definition path_join (folder file : string) : string :=
  match String.rev folder with
  | EmptyString => file
  | String c _ => if Ascii.eqb c "/"%char then String.append folder file
                  else String.append folder (String.append "/" file)
  end.

Section MeanStd.
(** [F]: floating point scalars.  The numerics of torch (mean, std,
    [std_mean], broadcast addition, division, comparison, sampling from a
    Laplace distribution with a generator state [G]) are parameters. *)
Context {F G : Type}.

Record tensor : Type := Tensor {
  tshape : list nat;
  tdata : list F
}.

(** An element produced by iterating the data set: a tensor, or a tuple
    or list whose first entry is looked at. *)
#[warnings="-register-all"] Inductive item : Type :=
  | ITensor (t : tensor)
  | ISeq (l : list item).

Record dataset : Type := {
  kind : dataset_kind;
  items : list item
}.

Record world : Type := World {
  generator : G;
  files : list (string * tensor)
}.

Variable torch_mean : tensor -> F.
Variable torch_std : tensor -> F.
Variable std_mean : tensor -> list nat -> tensor * tensor.
Variable add_scalar : tensor -> F -> tensor.
Variable F_zero : F.
Variable F_gtb : F -> F -> bool.
Variable F_div : F -> F -> F.
Variable F_truthy : F -> bool.
Variable laplace_rsample : F -> G -> F * G.

(** [while type(d) is tuple or type(d) is list: d = d[0]] *)
Fixpoint unwrap (d : item) : result tensor :=
  match d with
  | ITensor t => Ok t
  | ISeq [] => Raise IndexError
  | ISeq (d0 :: _) => unwrap d0
  end.

Definition shape_eqb (s1 s2 : list nat) : bool := bool_decide (s1 = s2).

(** [torch.stack]: a new leading axis; all shapes must agree. *)
Definition stack (ts : list tensor) : result tensor :=
  match ts with
  | [] => Raise RuntimeError
  | t :: rest =>
      if forallb (fun u => shape_eqb (tshape u) (tshape t)) rest
      then Ok (Tensor (length ts :: tshape t) (flat_map tdata ts))
      else Raise RuntimeError
  end.

(** [torch.cat] along axis 0: the trailing shapes must agree. *)
Definition cat (ts : list tensor) : result tensor :=
  match ts with
  | [] => Raise RuntimeError
  | t :: _ =>
      match tshape t with
      | [] => Raise RuntimeError
      | _ :: s =>
          if forallb (fun u => match tshape u with
                               | [] => false
                               | _ :: s' => shape_eqb s' s
                               end) ts
          then Ok (Tensor (fold_right Nat.add 0 (map (fun u => hd 0 (tshape u)) ts)
                           :: s)
                          (flat_map tdata ts))
          else Raise RuntimeError
      end
  end.

(** [len(t)] and [t[idx]] for an index array along axis 0. *)
Definition tensor_len (t : tensor) : nat := hd 0 (tshape t).
Definition tensor_rows (t : tensor) (idx : list nat) : tensor :=
  let row_size := fold_right Nat.mul 1 (tl (tshape t)) in
  Tensor (length idx :: tl (tshape t))
         (flat_map (fun i => take row_size (drop (i * row_size) (tdata t)))
                   idx).

(** The "ugly hack" choosing the reduction axes from the second axis. *)
Definition reduction_dims (shape : list nat) : result (list nat) :=
  match shape !! 1 with
  | None => Raise IndexError
  | Some c =>
      if (c =? 1) || (c =? 3)
      then Ok (0 :: seq 2 (length shape - 2))
      else Ok (seq 0 (length shape))
  end.

Definition option_truthy {A} (truthy : A -> bool) (o : option A) : bool :=
  match o with
  | None => false
  | Some a => truthy a
  end.

Definition string_truthy (s : string) : bool :=
  match s with EmptyString => false | _ => true end.

Definition rsample (scale : F) : M world F :=
  fun w => let '(x, g) := laplace_rsample scale (generator w) in
           (Ok x, World g (files w)).

Definition save (t : tensor) (path : string) : M world unit :=
  fun w => (Ok tt, World (generator w) (files w ++ [(path, t)])).

Definition calc_mean_std (dataset : dataset) (save_folder : option string)
    (epsilon : option F) : M world (tensor * tensor) :=
  (accumulated_data <- lift (mapM_result unwrap (items dataset));
   accumulated_data <-
     match kind dataset with
     | Dataset => lift (stack accumulated_data)
     | DataLoader => lift (cat accumulated_data)
     | OtherIterable => throw NotImplementedError
     end;
   dims <- lift (reduction_dims (tshape accumulated_data));
   '(mean, std) <-
     match epsilon with
     | Some eps =>
         if F_truthy eps then
           mean_sens <- lift (l1_sensitivity tensor_len tensor_rows F_zero
                                F_gtb torch_mean accumulated_data);
           std_sens <- lift (l1_sensitivity tensor_len tensor_rows F_zero
                               F_gtb torch_std accumulated_data);
           let '(std, mean) := std_mean accumulated_data dims in
           noise <- rsample (F_div std_sens eps);
           let std := add_scalar std noise in
           noise <- rsample (F_div mean_sens eps);
           let mean := add_scalar mean noise in
           ret (mean, std)
         else
           let '(std, mean) := std_mean accumulated_data dims in
           ret (mean, std)
     | None =>
         let '(std, mean) := std_mean accumulated_data dims in
         ret (mean, std)
     end;
   _ <- (if option_truthy string_truthy save_folder then
           stacked <- lift (stack [mean; std]);
           save stacked (path_join (default "" save_folder) "mean_std.pt")
         else ret tt);
   ret (mean, std))%py.
End MeanStd.

(** ** The colour map of the segmentation labels *)

Definition rgb : Type := (Z * Z * Z)%type.

Record seg_label : Type := SegLabel {
  label_id : Z;
  label_name : string;
  rgb_values : rgb
}.

Definition SEG_LABELS_LIST : list seg_label := [
  SegLabel 0 "building" (128, 0, 0);
  SegLabel 1 "grass" (0, 128, 0);
  SegLabel 2 "tree" (128, 128, 0);
  SegLabel 3 "cow" (0, 0, 128);
  SegLabel 4 "horse" (128, 0, 128);
  SegLabel 5 "sheep" (0, 128, 128);
  SegLabel 6 "sky" (128, 128, 128);
  SegLabel 7 "mountain" (64, 0, 0);
  SegLabel 8 "airplane" (192, 0, 0);
  SegLabel 9 "water" (64, 128, 0);
  SegLabel 10 "face" (192, 128, 0);
  SegLabel 11 "car" (64, 0, 128);
  SegLabel 12 "bicycle" (192, 0, 128);
  SegLabel 13 "flower" (64, 128, 128);
  SegLabel 14 "sign" (192, 128, 128);
  SegLabel 15 "bird" (0, 64, 0);
  SegLabel 16 "book" (128, 64, 0);
  SegLabel 17 "chair" (0, 192, 0);
  SegLabel 18 "road" (128, 64, 128);
  SegLabel 19 "cat" (0, 192, 128);
  SegLabel 20 "dog" (128, 192, 128);
  SegLabel 21 "body" (64, 64, 0);
  SegLabel 22 "boat" (192, 64, 0)
]%Z.

(** A two-dimensional array of pixels: class ids, or RGB triples for an
    array of shape (height, width, 3). *)
Record image (P : Type) : Type := Image {
  height : nat;
  width : nat;
  pixels : list (list P)
}.
Arguments Image {P} _ _ _.
Arguments height {P} _.
Arguments width {P} _.
Arguments pixels {P} _.

Definition get2 {P} (img : image P) (r c : nat) : option P :=
  match pixels img !! r with
  | Some row => row !! c
  | None => None
  end.

Definition map_image {P P'} (f : P -> P') (img : image P) : image P' :=
  Image (height img) (width img) (map (map f) (pixels img)).

(** [img[mask] = v] *)
Definition mask_assign2 {P} (mask : nat -> nat -> bool) (v : P)
    (img : image P) : image P :=
  Image (height img) (width img)
    (imap (fun r row => imap (fun c px => if mask r c then v else px) row)
          (pixels img)).

Definition all_pixels {P} (v : P) (img : image P) : Prop :=
  Forall (Forall (eq v)) (pixels img).

(** [np.unique]: the sorted distinct values. *)
Definition np_unique (img : image Z) : list Z :=
  merge_sort Z.le (remove_dups (concat (pixels img))).

Definition rgb_uint8 (px : rgb) : rgb :=
  let '(r, g, b) := px in ((r mod 256)%Z, (g mod 256)%Z, (b mod 256)%Z).

Definition label_img_to_rgb (label_img : image Z) : result (image rgb) :=
  (* np.squeeze drops every axis of length one *)
  let squeezed_is_2d :=
    negb ((height label_img =? 1) || (width label_img =? 1)) in
  let labels := np_unique label_img in
  let label_infos :=
    List.filter (fun l => existsb (Z.eqb (label_id l)) labels)
                SEG_LABELS_LIST in
  if squeezed_is_2d then
    let label_img_rgb := map_image (fun v => (v, v, v)) label_img in
    let label_img_rgb :=
      fold_left
        (fun label_img_rgb l =>
           let mask := fun r c => match get2 label_img r c with
                                  | Some v => (v =? label_id l)%Z
                                  | None => false
                                  end in
           mask_assign2 mask (rgb_values l) label_img_rgb)
        label_infos label_img_rgb in
    Ok (map_image rgb_uint8 label_img_rgb)
  else
    (* transpose(1, 2, 0) of an array with fewer than three axes *)
    Raise ValueError.

(** One round of the masking loop of
    [SegmentationData.get_item_from_index] on one pixel.
    [target_labels = target[..., 0]] is a view of [target], so the
    assignment [target_labels[mask] = id] overwrites the first channel of
    the matching pixels of [target] itself. *)
Definition relabel_pixel (label : seg_label) (px : rgb) : rgb :=
  let '(r, g, b) := px in
  if bool_decide (px = rgb_values label) then (label_id label, g, b) else px.

Definition target_labels_of (target : image rgb) : image Z :=
  let target :=
    fold_left (fun target label => map_image (relabel_pixel label) target)
              SEG_LABELS_LIST target in
  map_image (fun px : rgb => fst (fst px)) target.

(** ** Indexing the dataset classes: [__getitem__] *)

Inductive key : Type :=
  | KInt (k : Z)        (* a Python [int] *)
  | KNumpyInt (k : Z)   (* a NumPy integer scalar, not a Python [int] *)
  | KSlice (start stop step : option Z) (* [slice]; each part None or an int *)
  | KOther.             (* any other object *)

(** [slice(start, stop, step).indices(length)] *)
Definition slice_indices (start stop step : option Z) (length : Z)
  : result (Z * Z * Z) :=
  let step := default 1%Z step in
  if (step =? 0)%Z then Raise ValueError
  else
    let step_is_negative := (step <? 0)%Z in
    let lower := if step_is_negative then (-1)%Z else 0%Z in
    let upper := if step_is_negative then (length - 1)%Z else length in
    let clamp := fun i : Z =>
      if (i <? 0)%Z then Z.max (i + length) lower else Z.min i upper in
    let start := match start with
                 | None => if step_is_negative then upper else lower
                 | Some i => clamp i
                 end in
    let stop := match stop with
                | None => if step_is_negative then lower else upper
                | Some i => clamp i
                end in
    Ok (start, stop, step).

(** [range(start, stop, step)] for a step other than 0. *)
Definition range_len (start stop step : Z) : nat :=
  Z.to_nat
    (if (0 <? step)%Z then
       if (start <? stop)%Z then 1 + (stop - 1 - start) / step else 0
     else
       if (stop <? start)%Z then 1 + (start - 1 - stop) / (- step) else 0)%Z.
Definition py_range (start stop step : Z) : list Z :=
  map (fun i => (start + Z.of_nat i * step)%Z)
      (seq 0 (range_len start stop step)).

Fixpoint mapM {S A B} (f : A -> M S B) (l : list A) : M S (list B) :=
  match l with
  | [] => ret []
  | x :: rest => (y <- f x; ys <- mapM f rest; ret (y :: ys))%py
  end.

Section GetItem.
(** The three classes share one [__getitem__]; they differ in [__len__],
  in [get_item_from_index], and in whether a NumPy integer key is first
  converted with [int(key)]. *)
Context {S Sample : Type}.
Variable converts_numpy_integers : bool.
Variable len_self : result Z.
Variable get_item_from_index : Z -> M S Sample.

(** The [elif isinstance(key, int)] branch. *)
Definition getitem_int (key : Z) : M S Sample :=
(key <- (if (key <? 0)%Z then n <- lift len_self; ret (key + n)%Z
         else ret key);
 out_of_range <- (if (key <? 0)%Z then ret true
                  else n <- lift len_self; ret (n <=? key)%Z);
 if out_of_range : bool then throw IndexError
 else get_item_from_index key)%py.

Definition getitem (key : key) : M S (Sample + list Sample) :=
(let key := match key with
            | KNumpyInt k => if converts_numpy_integers then KInt k else key
            | _ => key
            end in
 match key with
 | KSlice start stop step =>
     n <- lift len_self;
     '(start, stop, step) <- lift (slice_indices start stop step n);
     samples <- mapM getitem_int (py_range start stop step);
     ret (inr samples)
 | KInt k =>
     sample <- getitem_int k;
     ret (inl sample)
 | _ => throw TypeError
 end)%py.
End GetItem.

Record MSD_data_images : Type := {
  input_path : string;
  target_path : string;
  images_scan_names : list string;
  images_label_names : list string
}.

Record SegmentationData : Type := {
  root_dir_name : string;
  image_names : list string
}.

Inductive indexed_dataset : Type :=
  | Of_MSD_data (self : MSD_data)
  | Of_MSD_data_images (self : MSD_data_images)
  | Of_SegmentationData (self : SegmentationData).

(** [len(self)]: the class's [__len__]; the built-in rejects a negative
    value. *)
Definition py_len (n : Z) : result Z :=
  if (n <? 0)%Z then Raise ValueError else Ok n.

Definition dataset_len (D : indexed_dataset) : result Z :=
  match D with
  | Of_MSD_data self =>
      py_len (if (sample_limit self =? -1)%Z
              then Z.of_nat (length (scan_names self))
              else sample_limit self)
  | Of_MSD_data_images self =>
      py_len (Z.of_nat (length (images_scan_names self)))
  | Of_SegmentationData self =>
      py_len (Z.of_nat (length (image_names self)))
  end.

(** Only [MSD_data_images.__getitem__] starts with
    [if isinstance(key, np.integer): key = int(key)]. *)
Definition converts_numpy_integer_keys (D : indexed_dataset) : bool :=
  match D with
  | Of_MSD_data_images _ => true
  | _ => false
  end.

Definition dataset_getitem {S Sample}
    (get_item_from_index : indexed_dataset -> Z -> M S Sample)
    (D : indexed_dataset) (key : key) : M S (Sample + list Sample) :=
  getitem (converts_numpy_integer_keys D) (dataset_len D)
          (get_item_from_index D) key.

(** Run the integer branch: decide each comparison, discard the cases the
    arithmetic excludes. *)
Ltac run_getitem_int :=
  unfold bind, lift, ret, throw;
  repeat first
    [ progress cbn beta iota
    | match goal with
      | |- context [(?a <? ?b)%Z] => destruct (Z.ltb_spec a b); try lia
      | |- context [(?a <=? ?b)%Z] => destruct (Z.leb_spec a b); try lia
      end ];
  try reflexivity.

(** ** Concrete inputs on which the theorems below are exercised *)

(** A 2 x 3 x 4 label with three foreground voxels, at (0, 1, 1),
    (0, 1, 2) and (1, 1, 2). *)
Definition demo_label : ndarray3 Z :=
  Ndarray3 2 3 4
    [ [ [0; 0; 0; 0]; [0; 1; 1; 0]; [0; 0; 0; 0] ];
      [ [0; 0; 0; 0]; [0; 0; 2; 0]; [0; 0; 0; 0] ] ]%Z.

Definition demo_scan : ndarray3 Q :=
  Ndarray3 2 3 4
    [ [ [-300 # 1; 0; 10 # 1; 20 # 1]; [30 # 1; 40 # 1; 50 # 1; 60 # 1];
        [70 # 1; 80 # 1; 90 # 1; 100 # 1] ];
      [ [110 # 1; 120 # 1; 130 # 1; 140 # 1];
        [150 # 1; 160 # 1; 170 # 1; 180 # 1];
        [190 # 1; 200 # 1; 500 # 1; 1 # 2] ] ]%Q.

Definition empty_label : ndarray3 Z := tabulate3 2 3 4 (fun _ _ _ => 0%Z).

(** A resize that meets the shape contract of [skimage.transform.resize]:
    nearest neighbour sampling. *)
Definition resize_nearest {A} (d : A) (a : ndarray3 A) (s : nat * nat * nat)
  : ndarray3 A :=
  let '(n0, n1, n2) := s in
  tabulate3 n0 n1 n2
    (fun r c z => default d (get3 a (r * dim0 a / n0) (c * dim1 a / n1)
                                    (z * dim2 a / n2))).

Definition demo_msd : MSD_data := {|
  path_string := "data";
  res := 2;
  res_z := 2;
  sample_limit := 1;
  crop_height := 16;
  mode := "3D";
  label_mode := "bbox-seg";
  mrg_labels := true;
  scan_names := ["pancreas_001.nii.gz"];
  label_names := ["pancreas_001.nii.gz"]
|}.

Definition demo_images : MSD_data_images := {|
  input_path := "./data/inputs/";
  target_path := "./data/labels/";
  images_scan_names := ["0.jpg"; "1.jpg"];
  images_label_names := ["0.jpg"; "1.jpg"]
|}.

Definition demo_segmentation : SegmentationData := {|
  root_dir_name := "datasets";
  image_names := ["1_1_s.bmp"; "1_2_s.bmp"]
|}.

(** A stand-in for loading: the sample of index [i] is [i] itself. *)
Definition demo_get_item (D : indexed_dataset) (i : Z) : M unit Z := ret i.

Definition demo_tensors : list (@tensor Z) :=
  [Tensor [3; 2] [1; 2; 3; 4; 5; 6]%Z; Tensor [3; 2] [7; 8; 9; 10; 11; 12]%Z].

Definition demo_dataset : @dataset Z := {|
  kind := Dataset;
  items := [ ISeq [ITensor (Tensor [3; 2] [1; 2; 3; 4; 5; 6]%Z);
                   ITensor (Tensor [] [0%Z])];
             ITensor (Tensor [3; 2] [7; 8; 9; 10; 11; 12]%Z) ]
|}.

(** A stand-in for [std_mean]: one zero per kept axis entry is enough to
    exercise the control flow. *)
Definition demo_std_mean (t : @tensor Z) (dims : list nat)
  : @tensor Z * @tensor Z :=
  (Tensor [hd 0 (tl (tshape t))] (repeat 0%Z (hd 0 (tl (tshape t)))),
   Tensor [hd 0 (tl (tshape t))] (repeat 1%Z (hd 0 (tl (tshape t))))).

(** ** [create_2D_label] *)

(** [np.zeros((n0, n1))] *)
Definition np_zeros2 (n0 n1 : Z) : result (image Z) :=
  if ((n0 <? 0) || (n1 <? 0))%Z then Raise ValueError
  else Ok (Image (Z.to_nat n0) (Z.to_nat n1)
             (map (fun _ => map (fun _ => 0%Z) (seq 0 (Z.to_nat n1)))
                  (seq 0 (Z.to_nat n0)))).

Definition create_2D_label (rmin rmax cmin cmax res : Z) : result (image Z) :=
  match np_zeros2 res res with
  | Raise e => Raise e
  | Ok label =>
      (* label[rmin:rmax, cmin:cmax] = 1 *)
      Ok (mask_assign2 (fun r c => in_slice rmin rmax (height label) r &&
                                   in_slice cmin cmax (width label) c)
                       1%Z label)
  end.

(** ** Constructing [MSD_data] *)

(** What the constructor reads from the file system: whether the two
    folders exist and what [rglob("*.nii.*")] enumerates in each. *)
Record msd_folders : Type := {
  imagesTr_exists : bool;
  imagesTr_files : list string;
  labelsTr_exists : bool;
  labelsTr_files : list string
}.

(** [[file for i, file in enumerate(files) if i < sample_limit]] *)
Definition enumerate_below {A} (sample_limit : Z) (files : list A) : list A :=
  map snd
      (List.filter (fun entry : nat * A => (Z.of_nat (fst entry) <? sample_limit)%Z)
                   (combine (seq 0 (length files)) files)).

Definition MSD_data_init (folders : msd_folders) (path_string : string)
    (res res_z : nat) (sample_limit crop_height : Z) (mode label_mode : string)
    (mrg_labels : bool) : result MSD_data :=
  if negb (crop_height mod 16 =? 0)%Z then Raise AssertionError
  else if String.eqb label_mode "bbox-coord" then Raise NotImplementedError
  else if negb (imagesTr_exists folders) then Raise AssertionError
  else
    let scan_names := enumerate_below sample_limit (imagesTr_files folders) in
    if negb (labelsTr_exists folders) then Raise AssertionError
    else
      let label_names :=
        enumerate_below sample_limit (labelsTr_files folders) in
      Ok {| path_string := path_string;
            res := res;
            res_z := res_z;
            sample_limit := sample_limit;
            crop_height := crop_height;
            mode := mode;
            label_mode := label_mode;
            mrg_labels := mrg_labels;
            scan_names := scan_names;
            label_names := label_names |}.

(** ** [Subset] and [random_split] *)

Record Subset (D : Type) : Type := {
  subset_dataset : D;
  subset_indices : list Z
}.
Arguments subset_dataset {D} _.
Arguments subset_indices {D} _.

(** [Subset.__getitem__]: [self.dataset[self.indices[idx]]], where
    [dataset_getitem] is the indexing of the wrapped data set. *)
Definition Subset_getitem {S D Sample}
    (dataset_getitem : D -> Z -> M S Sample) (self : Subset D) (idx : Z)
  : M S Sample :=
  (i <- lift (list_getitem (subset_indices self) idx);
   dataset_getitem (subset_dataset self) i)%py.

Definition Subset_len {D} (self : Subset D) : Z :=
  Z.of_nat (length (subset_indices self)).

(** [torch._utils._accumulate]: the running sums. *)
Fixpoint accumulate_from (total : Z) (lengths : list Z) : list Z :=
  match lengths with
  | [] => []
  | x :: rest => (total + x)%Z :: accumulate_from (total + x) rest
  end.
Definition accumulate (lengths : list Z) : list Z := accumulate_from 0 lengths.

Section RandomSplit.
(** [randperm(n, generator=generator).tolist()] is a parameter; [G] is the
    state of the generator. *)
Context {G D : Type}.
Variable randperm : Z -> G -> list Z * G.

Definition random_split (dataset : D) (len_dataset : Z) (lengths : list Z)
  : M G (list (Subset D)) :=
  if negb (Zsum lengths =? len_dataset)%Z then throw ValueError
  else
    fun generator =>
      let '(indices, generator) := randperm (Zsum lengths) generator in
      (Ok (map (fun '(offset, length) =>
                  {| subset_dataset := dataset;
                     subset_indices :=
                       py_slice (offset - length) offset
                                (List.length indices) indices |})
               (combine (accumulate lengths) lengths)),
       generator).
End RandomSplit.

(** ** [LabelMNIST] *)

(** [array[mask]] for a boolean mask over the first axis; the mask must be
    as long as the array. *)
Fixpoint mask_select {A} (l : list A) (mask : list bool) : list A :=
  match l, mask with
  | x :: l', b :: mask' =>
      if b then x :: mask_select l' mask' else mask_select l' mask'
  | _, _ => []
  end.

Definition bool_index {A} (l : list A) (mask : list bool) : result (list A) :=
  if length l =? length mask then Ok (mask_select l mask)
  else Raise IndexError.

(** The filtering done after the parent constructor has loaded [data] and
    [targets]: [np.isin(self.targets, labels)] selects the kept samples. *)
Definition LabelMNIST_init {A} (labels : list Z) (data : list A)
    (targets : list Z) : result (list A * list Z) :=
  let indices := map (fun t => existsb (Z.eqb t) labels) targets in
  match bool_index data indices with
  | Raise e => Raise e
  | Ok data =>
      match bool_index targets indices with
      | Raise e => Raise e
      | Ok targets => Ok (data, targets)
      end
  end.

(** ** Helpers for statements about [get_item_from_index] *)

(** The label after the optional merging step. *)
Definition staged_label (self : MSD_data) (label : ndarray3 Z) : ndarray3 Z :=
  if mrg_labels self then merge_labels label else label.

(** The foreground lies in a single row, a single column or a single
    slice. *)
Definition thin_foreground (label : ndarray3 Z) : Prop :=
  (exists r0, forall r c z, foreground label r c z -> r = r0) \/
  (exists c0, forall r c z, foreground label r c z -> c = c0) \/
  (exists z0, forall r c z, foreground label r c z -> z = z0).

(** [MSD_data.__getitem__] with the class's own [get_item_from_index]. *)
Definition MSD_data_getitem {T U}
    (nib_load_scan : string -> result (ndarray3 Q))
    (nib_load_label : string -> result (ndarray3 Z))
    (resize_scan : ndarray3 Q -> nat * nat * nat -> ndarray3 Q)
    (resize_label : ndarray3 Z -> nat * nat * nat -> ndarray3 Z)
    (transform : scan_array -> T) (target_transform : ndarray3 Z -> U)
    (self : MSD_data) (key : key)
  : M (list string) ((T * U) + list (T * U)) :=
  getitem false (dataset_len (Of_MSD_data self))
          (get_item_from_index nib_load_scan nib_load_label resize_scan
                               resize_label transform target_transform self)
          key.

(** ** Helpers for statements about the colour map *)

(** A function of position and value applied to every pixel. *)
Definition imap2 {P P'} (f : nat -> nat -> P -> P') (pix : list (list P))
  : list (list P') :=
  imap (fun r row => imap (fun c px => f r c px) row) pix.

(** What the table does to one class id and to one colour when every entry
    is tried in order. *)
Definition id_to_rgb (v : Z) : rgb :=
  rgb_uint8
    (fold_left (fun px l => if (v =? label_id l)%Z then rgb_values l else px)
               SEG_LABELS_LIST (v, v, v)).

Definition rgb_to_id (px : rgb) : Z :=
  fst (fst (fold_left (fun p l => relabel_pixel l p) SEG_LABELS_LIST px)).

(** The id, or the colour, occurs in the table. *)
Definition known_id (v : Z) : Prop :=
  exists l, In l SEG_LABELS_LIST /\ label_id l = v.
Definition known_rgb (px : rgb) : Prop :=
  exists l, In l SEG_LABELS_LIST /\ rgb_values l = px.

(** ** Further concrete inputs *)

(** A scan of air only: every intensity lies below the clipping window. *)
Definition demo_flat_scan : ndarray3 Q :=
  Ndarray3 1 1 2 [ [ [-200 # 1; -1000 # 1] ] ]%Q.

(** A label whose foreground is two voxels thick on every axis, with a scan
    of the same shape. *)
Definition demo_thick_label : ndarray3 Z :=
  Ndarray3 2 2 2 [ [ [1; 1]; [1; 2] ]; [ [2; 1]; [1; 1] ] ]%Z.

Definition demo_cube_scan : ndarray3 Q :=
  Ndarray3 2 2 2
    [ [ [-300 # 1; 0]; [10 # 1; 20 # 1] ];
      [ [30 # 1; 40 # 1]; [50 # 1; 300 # 1] ] ]%Q.

Definition demo_msd_seg : MSD_data := {|
  path_string := "data";
  res := 2;
  res_z := 2;
  sample_limit := 1;
  crop_height := 16;
  mode := "2D";
  label_mode := "seg";
  mrg_labels := true;
  scan_names := ["pancreas_001.nii.gz"];
  label_names := ["pancreas_001.nii.gz"]
|}.

Definition demo_msd_negative : MSD_data := {|
  path_string := "data";
  res := 2;
  res_z := 2;
  sample_limit := -2;
  crop_height := 16;
  mode := "3D";
  label_mode := "seg";
  mrg_labels := true;
  scan_names := [];
  label_names := []
|}.

Definition demo_folders : msd_folders := {|
  imagesTr_exists := true;
  imagesTr_files := ["pancreas_001.nii.gz"; "pancreas_004.nii.gz"];
  labelsTr_exists := true;
  labelsTr_files := ["pancreas_001.nii.gz"; "pancreas_004.nii.gz"]
|}.



Definition demo_id_img : image Z := Image 2 2 [ [0; 1]; [22; 300] ]%Z.

Definition demo_known_id_img : image Z := Image 2 3 [ [0; 1; 2]; [22; 5; 0] ]%Z.

Definition demo_rgb_img : image rgb :=
  Image 2 2 [ [(128, 0, 0); (0, 128, 0)]; [(192, 64, 0); (128, 0, 0)] ]%Z.

(** A stand-in for [randperm]: the indices in decreasing order; the
    generator counts the draws. *)
Definition demo_randperm (n : Z) (g : nat) : list Z * nat :=
  (rev (map Z.of_nat (seq 0 (Z.to_nat n))), S g).

Definition demo_subset : Subset indexed_dataset := {|
  subset_dataset := Of_SegmentationData demo_segmentation;
  subset_indices := [1; 0]%Z
|}.

(** ** The embedding on small inputs *)

Example bbox_dim_3D_demo :
  bbox_dim_3D demo_label [] = (Ok (Some (0, 1, 1, 1, 1, 2)%Z), []).
Proof. reflexivity. Qed.

Example bbox_dim_3D_empty_demo :
  bbox_dim_3D empty_label [] = (Ok None, ["Warning Empty Label Mask"]).
Proof. reflexivity. Qed.

(** Box depth 1..2, middle 1, height 2: slices 0 and 1 are kept. *)
Example crop_volume_demo :
  fst (crop_volume demo_label demo_label 2 []) =
    Ok (Ndarray3 2 3 2 [ [ [0; 0]; [0; 1]; [0; 0] ];
                         [ [0; 0]; [0; 0]; [0; 0] ] ]%Z,
        Ndarray3 2 3 2 [ [ [0; 0]; [0; 1]; [0; 0] ];
                         [ [0; 0]; [0; 0]; [0; 0] ] ]%Z).
Proof. reflexivity. Qed.

Example py_slice_demo :
  py_slice (-3) 100 5 [10; 11; 12; 13; 14] = [12; 13; 14] /\
  py_slice 1 (-1) 5 [10; 11; 12; 13; 14] = [11; 12; 13] /\
  py_slice 4 2 5 [10; 11; 12; 13; 14] = [].
Proof. repeat split; reflexivity. Qed.

(** [np.rot90] of [[1, 2], [3, 4]] is [[2, 4], [1, 3]]; flipping that
    left to right gives [[4, 2], [3, 1]]. *)
Example rot90_demo :
  cells (rot90 (Ndarray3 2 2 1 [ [[1]; [2]]; [[3]; [4]] ]))
    = [ [[2]; [4]]; [[1]; [3]] ] /\
  cells (fliplr (rot90 (Ndarray3 2 2 1 [ [[1]; [2]]; [[3]; [4]] ])))
    = [ [[4]; [2]]; [[3]; [1]] ].
Proof. split; reflexivity. Qed.

Example merge_labels_demo :
  cells (merge_labels demo_label) =
    [ [ [0; 0; 0; 0]; [0; 1; 1; 0]; [0; 0; 0; 0] ];
      [ [0; 0; 0; 0]; [0; 0; 1; 0]; [0; 0; 0; 0] ] ]%Z.
Proof. reflexivity. Qed.

Example label_img_to_rgb_demo :
  label_img_to_rgb (Image 2 2 [[0; 1]; [40; 22]]%Z) =
    Ok (Image 2 2 [ [(128, 0, 0); (0, 128, 0)];
                    [(40, 40, 40); (192, 64, 0)] ]%Z).
Proof. reflexivity. Qed.

Example target_labels_of_demo :
  target_labels_of
    (Image 2 2 [ [(128, 0, 0); (0, 128, 0)];
                 [(7, 7, 7); (192, 64, 0)] ]%Z)
    = Image 2 2 [[0; 1]; [7; 22]]%Z.
Proof. reflexivity. Qed.

Example slice_indices_demo :
  slice_indices None None (Some (-1)%Z) 3 = Ok (2, -1, -1)%Z /\
  py_range 2 (-1) (-1) = [2; 1; 0]%Z /\
  slice_indices (Some (-100)%Z) (Some 100%Z) (Some 2%Z) 5 = Ok (0, 5, 2)%Z /\
  py_range 0 5 2 = [0; 2; 4]%Z /\
  slice_indices None None (Some 0%Z) 3 = Raise ValueError.
Proof. repeat split; reflexivity. Qed.

Example getitem_slice_demo :
  dataset_getitem demo_get_item (Of_MSD_data_images demo_images)
                  (KSlice None None (Some (-1)%Z)) tt
    = (Ok (inr [1; 0]%Z), tt).
Proof. reflexivity. Qed.

(** ** Facts about [np_where], [first_last] and the axis reductions *)

Lemma where_from_In (mask : list bool) : forall k i,
  In i (where_from k mask) <-> k <= i /\ mask !! (i - k) = Some true.
Proof.
  induction mask as [|b rest IH]; intros k i; simpl.
  - split; [tauto | intros [_ H]; discriminate].
  - rewrite in_app_iff, IH. split.
    + intros [Hhd | [Hle Hlk]].
      * destruct b; simpl in Hhd; [|tauto].
        destruct Hhd as [<- | []]. split; [lia|].
        replace (k - k) with 0 by lia. reflexivity.
      * split; [lia|]. replace (i - k) with (S (i - S k)) by lia. exact Hlk.
    + intros [Hle Hlk]. destruct (i - k) as [|j] eqn:Hj.
      * left. simpl in Hlk. injection Hlk as ->. left. lia.
      * right. split; [lia|]. simpl in Hlk.
        replace (i - S k) with j by lia. exact Hlk.
Qed.

Lemma where_from_sorted (mask : list bool) : forall k,
  StronglySorted lt (where_from k mask).
Proof.
  induction mask as [|b rest IH]; intros k; simpl; [constructor|].
  destruct b; simpl; [|apply IH].
  constructor; [apply IH|].
  apply List.Forall_forall. intros i Hi. apply where_from_In in Hi. lia.
Qed.

Lemma sorted_last_max (l : list nat) : forall d i,
  StronglySorted lt l -> In i l -> i <= List.last l d.
Proof.
  induction l as [|x l IH]; intros d i Hs Hi; [destruct Hi|].
  inversion Hs as [|? ? Hs' Hall]; subst.
  destruct l as [|y l'].
  - destruct Hi as [<- | []]. simpl. lia.
  - change (List.last (x :: y :: l') d) with (List.last (y :: l') d).
    destruct Hi as [<- | Hi].
    + rewrite List.Forall_forall in Hall.
      specialize (Hall y (or_introl eq_refl)).
      specialize (IH d y Hs' (or_introl eq_refl)). lia.
    + apply IH; assumption.
Qed.

Lemma last_In (l : list nat) : forall d, l <> [] -> In (List.last l d) l.
Proof.
  induction l as [|x l IH]; intros d Hne; [congruence|].
  destruct l as [|y l']; [left; reflexivity|].
  right. apply (IH d). discriminate.
Qed.

(** The first and last [True] of a mask: both are set, and every set
    position lies between them. *)
Lemma first_last_where (mask : list bool) (j : nat) :
  mask !! j = Some true ->
  exists lo hi,
    first_last (np_where mask) = Ok (Z.of_nat lo, Z.of_nat hi) /\
    mask !! lo = Some true /\ mask !! hi = Some true /\
    (forall i, mask !! i = Some true -> lo <= i <= hi).
Proof.
  intros Hj. unfold np_where.
  assert (Hin : In j (where_from 0 mask)).
  { apply where_from_In. split; [lia|]. now replace (j - 0) with j by lia. }
  pose proof (where_from_sorted mask 0) as Hs.
  assert (Hmem : forall i, In i (where_from 0 mask) <-> mask !! i = Some true).
  { intros i. rewrite where_from_In. replace (i - 0) with i by lia.
    split; [tauto | split; [lia | assumption]]. }
  destruct (where_from 0 mask) as [|x l] eqn:Hw; [destruct Hin|].
  exists x, (List.last (x :: l) x). split; [reflexivity|].
  split; [apply Hmem; left; reflexivity|].
  split; [apply Hmem, last_In; discriminate|].
  intros i Hi. apply Hmem in Hi. split.
  - destruct Hi as [<- | Hi]; [lia|].
    inversion Hs as [|? ? _ Hall]; subst.
    rewrite List.Forall_forall in Hall. specialize (Hall i Hi). lia.
  - apply sorted_last_max; assumption.
Qed.

Lemma existsb_seq (f : nat -> bool) (n : nat) :
  existsb f (seq 0 n) = true <-> exists i, i < n /\ f i = true.
Proof.
  rewrite existsb_exists. split; intros [i [H1 H2]]; exists i.
  - apply in_seq in H1. split; [lia | assumption].
  - split; [apply in_seq; lia | assumption].
Qed.

Lemma lookup_map_seq {A} (f : nat -> A) (n i : nat) :
  map f (seq 0 n) !! i = if i <? n then Some (f i) else None.
Proof.
  change (map f (seq 0 n)) with (f <$> seq 0 n).
  rewrite list_lookup_fmap.
  destruct (Nat.ltb_spec i n) as [Hlt | Hge].
  - rewrite lookup_seq_lt by assumption. reflexivity.
  - rewrite lookup_seq_ge by assumption. reflexivity.
Qed.

Lemma foreground_truthy (img : ndarray3 Z) (r c z : nat) :
  foreground img r c z <-> in_shape img r c z /\ cell_truthy img r c z = true.
Proof.
  unfold foreground, voxel, cell_truthy, truthy. split.
  - intros [v [[Hsh Hget] Hv]]. split; [assumption|]. rewrite Hget.
    apply negb_true_iff, Z.eqb_neq. assumption.
  - intros [Hsh Ht]. destruct (get3 img r c z) as [v|]; [|discriminate].
    exists v. split; [split; [assumption | reflexivity]|].
    apply negb_true_iff, Z.eqb_neq in Ht. assumption.
Qed.

Lemma any_axis12_lookup (img : ndarray3 Z) (r : nat) :
  any_axis12 img !! r = Some true <-> exists c z, foreground img r c z.
Proof.
  unfold any_axis12. rewrite lookup_map_seq. split.
  - destruct (Nat.ltb_spec r (dim0 img)); [|discriminate].
    intros H0. injection H0 as H0. apply existsb_seq in H0 as [c [Hc H0]].
    apply existsb_seq in H0 as [z [Hz H0]]. exists c, z.
    apply foreground_truthy. unfold in_shape. tauto.
  - intros [c [z H0]]. apply foreground_truthy in H0 as [[Hr [Hc Hz]] Ht].
    destruct (Nat.ltb_spec r (dim0 img)); [|lia]. f_equal.
    apply existsb_seq. exists c. split; [assumption|].
    apply existsb_seq. exists z. tauto.
Qed.

Lemma any_axis02_lookup (img : ndarray3 Z) (c : nat) :
  any_axis02 img !! c = Some true <-> exists r z, foreground img r c z.
Proof.
  unfold any_axis02. rewrite lookup_map_seq. split.
  - destruct (Nat.ltb_spec c (dim1 img)); [|discriminate].
    intros H0. injection H0 as H0. apply existsb_seq in H0 as [r [Hr H0]].
    apply existsb_seq in H0 as [z [Hz H0]]. exists r, z.
    apply foreground_truthy. unfold in_shape. tauto.
  - intros [r [z H0]]. apply foreground_truthy in H0 as [[Hr [Hc Hz]] Ht].
    destruct (Nat.ltb_spec c (dim1 img)); [|lia]. f_equal.
    apply existsb_seq. exists r. split; [assumption|].
    apply existsb_seq. exists z. tauto.
Qed.

Lemma any_axis01_lookup (img : ndarray3 Z) (z : nat) :
  any_axis01 img !! z = Some true <-> exists r c, foreground img r c z.
Proof.
  unfold any_axis01. rewrite lookup_map_seq. split.
  - destruct (Nat.ltb_spec z (dim2 img)); [|discriminate].
    intros H0. injection H0 as H0. apply existsb_seq in H0 as [r [Hr H0]].
    apply existsb_seq in H0 as [c [Hc H0]]. exists r, c.
    apply foreground_truthy. unfold in_shape. tauto.
  - intros [r [c H0]]. apply foreground_truthy in H0 as [[Hr [Hc Hz]] Ht].
    destruct (Nat.ltb_spec z (dim2 img)); [|lia]. f_equal.
    apply existsb_seq. exists r. split; [assumption|].
    apply existsb_seq. exists c. tauto.
Qed.

Lemma nonzero_axis0_In (img : ndarray3 Z) (r : nat) :
  In r (nonzero_axis0 img) <-> exists c z, foreground img r c z.
Proof.
  unfold nonzero_axis0. rewrite in_flat_map. split.
  - intros [r' [Hr H0]]. apply in_flat_map in H0 as [c [Hc H0]].
    apply in_flat_map in H0 as [z [Hz H0]].
    destruct (cell_truthy img r' c z) eqn:Ht; [|destruct H0].
    destruct H0 as [<- | []]. exists c, z. apply foreground_truthy.
    apply in_seq in Hr, Hc, Hz. unfold in_shape. split; [lia | assumption].
  - intros [c [z H0]]. apply foreground_truthy in H0 as [[Hr [Hc Hz]] Ht].
    exists r. split; [apply in_seq; lia|].
    apply in_flat_map. exists c. split; [apply in_seq; lia|].
    apply in_flat_map. exists z. split; [apply in_seq; lia|].
    rewrite Ht. left. reflexivity.
Qed.

Lemma nonzero_axis0_empty (img : ndarray3 Z) :
  nonzero_axis0 img = [] <-> (forall r c z, ~ foreground img r c z).
Proof.
  split.
  - intros He r c z Hf.
    assert (Hin : In r (nonzero_axis0 img)) by (apply nonzero_axis0_In; eauto).
    rewrite He in Hin. destruct Hin.
  - intros Hno. destruct (nonzero_axis0 img) as [|r l] eqn:Hn; [reflexivity|].
    assert (Hin : In r (nonzero_axis0 img)) by (rewrite Hn; left; reflexivity).
    apply nonzero_axis0_In in Hin as [c [z Hf]]. destruct (Hno r c z Hf).
Qed.

Lemma bbox_dim_3D_run (img : ndarray3 Z) (out : list string) (r c z : nat) :
  foreground img r c z ->
  exists rmin rmax cmin cmax zmin zmax,
    bbox_dim_3D img out =
      (Ok (Some (Z.of_nat rmin, Z.of_nat rmax, Z.of_nat cmin, Z.of_nat cmax,
                 Z.of_nat zmin, Z.of_nat zmax)), out) /\
    (any_axis12 img !! rmin = Some true /\ any_axis12 img !! rmax = Some true /\
     forall i, any_axis12 img !! i = Some true -> rmin <= i <= rmax) /\
    (any_axis02 img !! cmin = Some true /\ any_axis02 img !! cmax = Some true /\
     forall i, any_axis02 img !! i = Some true -> cmin <= i <= cmax) /\
    (any_axis01 img !! zmin = Some true /\ any_axis01 img !! zmax = Some true /\
     forall i, any_axis01 img !! i = Some true -> zmin <= i <= zmax).
Proof.
  intros Hf.
  assert (Hr : any_axis12 img !! r = Some true)
    by (apply any_axis12_lookup; eauto).
  assert (Hc : any_axis02 img !! c = Some true)
    by (apply any_axis02_lookup; eauto).
  assert (Hz : any_axis01 img !! z = Some true)
    by (apply any_axis01_lookup; eauto).
  destruct (first_last_where _ _ Hr) as [rmin [rmax [Er Pr]]].
  destruct (first_last_where _ _ Hc) as [cmin [cmax [Ec Pc]]].
  destruct (first_last_where _ _ Hz) as [zmin [zmax [Ez Pz]]].
  exists rmin, rmax, cmin, cmax, zmin, zmax.
  split; [|tauto].
  unfold bbox_dim_3D.
  destruct (nonzero_axis0 img) as [|x l] eqn:Hn.
  - exfalso. eapply nonzero_axis0_empty; eauto.
  - simpl length. cbn [Nat.eqb]. unfold bind, lift, ret.
    rewrite Er, Ec, Ez. reflexivity.
Qed.

Lemma bbox_dim_3D_minimal_box_aux (img : ndarray3 Z) (out : list string)
    (r c z : nat) :
  foreground img r c z ->
  exists rmin rmax cmin cmax zmin zmax : nat,
    bbox_dim_3D img out =
      (Ok (Some (Z.of_nat rmin, Z.of_nat rmax, Z.of_nat cmin, Z.of_nat cmax,
                 Z.of_nat zmin, Z.of_nat zmax)), out) /\
    zmin <= zmax < dim2 img.
Proof.
  intros Hf.
  destruct (bbox_dim_3D_run img out r c z Hf)
    as (rmin & rmax & cmin & cmax & zmin & zmax & Hrun & _ & _ &
        (Hz0 & Hz & Hzb)).
  exists rmin, rmax, cmin, cmax, zmin, zmax. split; [exact Hrun|].
  split; [apply (Hzb zmin Hz0)|].
  apply any_axis01_lookup in Hz as (r' & c' & Hf').
  destruct Hf' as [v [[(_ & _ & Hz) _] _]]. exact Hz.
Qed.

(** C2. On a label volume with at least one nonzero voxel, [bbox_dim_3D]
    returns six indices; every nonzero voxel lies between the minimum and
    the maximum on each axis, and each of the six bounds is the coordinate
    of some nonzero voxel, so the box cannot be shrunk on any side. *)
Theorem bbox_dim_3D_minimal_enclosing (img : ndarray3 Z) (out : list string) :
  (exists r c z, foreground img r c z) ->
  exists rmin rmax cmin cmax zmin zmax : nat,
    bbox_dim_3D img out =
      (Ok (Some (Z.of_nat rmin, Z.of_nat rmax, Z.of_nat cmin, Z.of_nat cmax,
                 Z.of_nat zmin, Z.of_nat zmax)), out) /\
    (forall r c z, foreground img r c z ->
       rmin <= r <= rmax /\ cmin <= c <= cmax /\ zmin <= z <= zmax) /\
    (exists c z, foreground img rmin c z) /\
    (exists c z, foreground img rmax c z) /\
    (exists r z, foreground img r cmin z) /\
    (exists r z, foreground img r cmax z) /\
    (exists r c, foreground img r c zmin) /\
    (exists r c, foreground img r c zmax).
Proof.
  intros [r [c [z Hf]]].
  destruct (bbox_dim_3D_run img out r c z Hf)
    as (rmin & rmax & cmin & cmax & zmin & zmax & Hrun &
        (Hr1 & Hr2 & Hr3) & (Hc1 & Hc2 & Hc3) & (Hz1 & Hz2 & Hz3)).
  exists rmin, rmax, cmin, cmax, zmin, zmax.
  split; [exact Hrun|]. split.
  - intros r' c' z' Hf'. repeat split.
    1,2: apply Hr3, any_axis12_lookup; eauto.
    1,2: apply Hc3, any_axis02_lookup; eauto.
    1,2: apply Hz3, any_axis01_lookup; eauto.
  - repeat split.
    1,2: apply any_axis12_lookup; assumption.
    1,2: apply any_axis02_lookup; assumption.
    1,2: apply any_axis01_lookup; assumption.
Qed.

(** ** Reading cells of constructed arrays *)

Lemma get3_tabulate3 {A} (n0 n1 n2 : nat) (f : nat -> nat -> nat -> A)
    (r c z : nat) :
  get3 (tabulate3 n0 n1 n2 f) r c z =
    if (r <? n0) && (c <? n1) && (z <? n2) then Some (f r c z) else None.
Proof.
  unfold get3, tabulate3. cbn [cells]. rewrite lookup_map_seq.
  destruct (r <? n0); [|reflexivity]. rewrite lookup_map_seq.
  destruct (c <? n1); [|reflexivity]. rewrite lookup_map_seq.
  destruct (z <? n2); reflexivity.
Qed.

Lemma get3_mask_assign {A} (mask : nat -> nat -> nat -> bool) (v : A)
    (a : ndarray3 A) (r c z : nat) :
  get3 (mask_assign mask v a) r c z =
    (fun x => if mask r c z then v else x) <$> get3 a r c z.
Proof.
  unfold get3, mask_assign. cbn [cells]. rewrite list_lookup_imap.
  destruct (cells a !! r) as [plane|]; [|reflexivity]. cbn.
  rewrite list_lookup_imap.
  destruct (plane !! c) as [row|]; [|reflexivity]. cbn.
  rewrite list_lookup_imap. reflexivity.
Qed.

Lemma get3_map3 {A B} (f : A -> B) (a : ndarray3 A) (r c z : nat) :
  get3 (map3 f a) r c z = f <$> get3 a r c z.
Proof.
  unfold get3, map3. cbn [cells].
  change (map (map (map f)) (cells a)) with (map (map f) <$> cells a).
  rewrite list_lookup_fmap.
  destruct (cells a !! r) as [plane|]; [|reflexivity]. cbn.
  change (map (map f) plane) with (map f <$> plane).
  rewrite list_lookup_fmap.
  destruct (plane !! c) as [row|]; [|reflexivity]. cbn.
  change (map f row) with (f <$> row). apply list_lookup_fmap.
Qed.

Lemma get3_slice_axis2 {A} (lo hi : Z) (a : ndarray3 A) (r c k : nat) :
  get3 (slice_axis2 lo hi a) r c k =
    if k <? slice_len lo hi (dim2 a)
    then get3 a r c (slice_start lo hi (dim2 a) + k)
    else None.
Proof.
  unfold get3, slice_axis2. cbn [cells].
  change (map (map (py_slice lo hi (dim2 a))) (cells a))
    with (map (py_slice lo hi (dim2 a)) <$> cells a).
  rewrite list_lookup_fmap.
  destruct (Nat.ltb_spec k (slice_len lo hi (dim2 a))) as [Hk | Hk];
    (destruct (cells a !! r) as [plane|]; [|reflexivity]); cbn [fmap option_fmap option_map];
    change (map (py_slice lo hi (dim2 a)) plane)
      with (py_slice lo hi (dim2 a) <$> plane);
    rewrite list_lookup_fmap;
    (destruct (plane !! c) as [row|]; [|reflexivity]); cbn [fmap option_fmap option_map];
    unfold py_slice.
  - rewrite lookup_take_lt by assumption. apply lookup_drop.
  - apply lookup_take_ge. assumption.
Qed.

Lemma slice_bound_nonneg (i : Z) (n : nat) :
  (0 <= i)%Z -> slice_bound i n = Z.to_nat (Z.min i (Z.of_nat n)).
Proof.
  intros Hi. unfold slice_bound.
  destruct (Z.ltb_spec i 0); [lia | reflexivity].
Qed.

Lemma in_slice_nonneg (lo hi : Z) (n i : nat) :
  (0 <= lo <= Z.of_nat n)%Z -> (0 <= hi <= Z.of_nat n)%Z ->
  in_slice lo hi n i = true <-> (lo <= Z.of_nat i < hi)%Z.
Proof.
  intros Hlo Hhi. unfold in_slice.
  rewrite !slice_bound_nonneg by lia.
  rewrite andb_true_iff, Nat.leb_le, Nat.ltb_lt. lia.
Qed.

(** ** The bounding-box label *)

(** C10. With all bounds inside the array, [create_3D_label] returns an
    array of shape (res, res, num_slices) that is 1 exactly on the half-open
    box [rmin, rmax) x [cmin, cmax) x [zmin, zmax) and 0 elsewhere; a cell
    whose coordinate equals rmax, cmax or zmax is therefore 0. *)
Theorem create_3D_label_half_open_box
    (rmin rmax cmin cmax zmin zmax res num_slices : Z) :
  (0 <= rmin <= res)%Z -> (0 <= rmax <= res)%Z ->
  (0 <= cmin <= res)%Z -> (0 <= cmax <= res)%Z ->
  (0 <= zmin <= num_slices)%Z -> (0 <= zmax <= num_slices)%Z ->
  exists label : ndarray3 Z,
    create_3D_label rmin rmax cmin cmax zmin zmax res num_slices = Ok label /\
    wf3 label = true /\
    (Z.of_nat (dim0 label), Z.of_nat (dim1 label), Z.of_nat (dim2 label))
      = (res, res, num_slices) /\
    (forall r c z, in_shape label r c z ->
       (in_box rmin rmax cmin cmax zmin zmax r c z ->
        get3 label r c z = Some 1%Z) /\
       (~ in_box rmin rmax cmin cmax zmin zmax r c z ->
        get3 label r c z = Some 0%Z)) /\
    (forall r c z, in_shape label r c z ->
       Z.of_nat r = rmax \/ Z.of_nat c = cmax \/ Z.of_nat z = zmax ->
       get3 label r c z = Some 0%Z).
Proof.
  intros Hr0 Hr1 Hc0 Hc1 Hz0 Hz1.
  unfold create_3D_label, np_zeros3.
  destruct (Z.ltb_spec res 0); [lia|].
  destruct (Z.ltb_spec num_slices 0); [lia|]. cbn [orb].
  eexists. split; [reflexivity|].
  assert (Hcells : forall r c z,
    r < Z.to_nat res -> c < Z.to_nat res -> z < Z.to_nat num_slices ->
    get3 (assign_slice3 rmin rmax cmin cmax zmin zmax 1%Z
            (tabulate3 (Z.to_nat res) (Z.to_nat res) (Z.to_nat num_slices)
                       (fun _ _ _ => 0%Z))) r c z =
    Some (if in_slice rmin rmax (Z.to_nat res) r &&
             in_slice cmin cmax (Z.to_nat res) c &&
             in_slice zmin zmax (Z.to_nat num_slices) z
          then 1%Z else 0%Z)).
  { intros r c z Hr Hc Hz. unfold assign_slice3.
    rewrite get3_mask_assign, get3_tabulate3. cbn [dim0 dim1 dim2 tabulate3].
    apply Nat.ltb_lt in Hr, Hc, Hz. rewrite Hr, Hc, Hz. reflexivity. }
  assert (Hbox : forall r c z,
    in_slice rmin rmax (Z.to_nat res) r &&
    in_slice cmin cmax (Z.to_nat res) c &&
    in_slice zmin zmax (Z.to_nat num_slices) z = true <->
    in_box rmin rmax cmin cmax zmin zmax r c z).
  { intros r c z. unfold in_box. rewrite !andb_true_iff.
    rewrite !in_slice_nonneg by lia. tauto. }
  split; [|split; [|split]].
  - unfold wf3, assign_slice3, mask_assign, tabulate3. cbn [cells dim0 dim1 dim2].
    rewrite length_imap, length_map, length_seq, Nat.eqb_refl. cbn [andb].
    apply forallb_forall. intros plane Hin.
    apply list_elem_of_In, list_elem_of_lookup in Hin as [i Hi].
    rewrite list_lookup_imap in Hi.
    destruct (_ !! i) as [p|] eqn:Hp; [|discriminate]. cbn in Hi.
    injection Hi as <-. rewrite lookup_map_seq in Hp.
    destruct (i <? Z.to_nat res); [|discriminate]. injection Hp as <-.
    rewrite length_imap, length_map, length_seq, Nat.eqb_refl. cbn [andb].
    apply forallb_forall. intros row Hin.
    apply list_elem_of_In, list_elem_of_lookup in Hin as [j Hj].
    rewrite list_lookup_imap, lookup_map_seq in Hj.
    destruct (j <? Z.to_nat res); [|discriminate]. cbn in Hj.
    injection Hj as <-.
    rewrite length_imap, length_map, length_seq. apply Nat.eqb_refl.
  - cbn [assign_slice3 mask_assign tabulate3 dim0 dim1 dim2].
    rewrite !Z2Nat.id by lia. reflexivity.
  - intros r c z (Hr & Hc & Hz).
    cbn [assign_slice3 mask_assign tabulate3 dim0 dim1 dim2] in Hr, Hc, Hz.
    rewrite Hcells by assumption. split; intros Hb.
    + apply Hbox in Hb. rewrite Hb. reflexivity.
    + destruct (_ && _ && _) eqn:Hm; [|reflexivity].
      apply Hbox in Hm. contradiction.
  - intros r c z (Hr & Hc & Hz) Hedge.
    cbn [assign_slice3 mask_assign tabulate3 dim0 dim1 dim2] in Hr, Hc, Hz.
    rewrite Hcells by assumption.
    destruct (_ && _ && _) eqn:Hm; [|reflexivity].
    apply Hbox in Hm. unfold in_box in Hm. lia.
Qed.

(** ** Cropping around the label *)

Lemma bbox_dim_3D_empty (img : ndarray3 Z) (out : list string) :
  (forall r c z, ~ foreground img r c z) ->
  bbox_dim_3D img out = (Ok None, out ++ ["Warning Empty Label Mask"]).
Proof.
  intros Hno. apply nonzero_axis0_empty in Hno.
  unfold bbox_dim_3D. rewrite Hno. reflexivity.
Qed.

Lemma foreground_in_shape (img : ndarray3 Z) (r c z : nat) :
  foreground img r c z -> in_shape img r c z.
Proof. intros [v [[Hs _] _]]. exact Hs. Qed.

Lemma midpoint_between (a b : Z) :
  (a <= b)%Z -> (a <= (a + b) / 2 <= b)%Z.
Proof.
  intros Hab. split.
  - apply Z.div_le_lower_bound; lia.
  - apply Z.div_le_upper_bound; lia.
Qed.

(** What [crop_volume] computes once the bounding box is known. *)
Lemma crop_volume_run {A} (data : ndarray3 A) (label : ndarray3 Z) (h : Z)
    (out : list string) (rmin rmax cmin cmax zmin zmax : Z) :
  bbox_dim_3D label out =
    (Ok (Some (rmin, rmax, cmin, cmax, zmin, zmax)), out) ->
  (0 <= zmin <= zmax)%Z -> (zmax < Z.of_nat (dim2 label))%Z -> (0 <= h)%Z ->
  dim2 data = dim2 label ->
  let lo := crop_lo zmin zmax h in
  let hi := crop_hi zmin zmax h in
  crop_volume data label h out =
    (Ok (slice_axis2 lo hi data, slice_axis2 lo hi label), out) /\
  slice_start lo hi (dim2 label) = Z.to_nat lo /\
  slice_len lo hi (dim2 label) =
    Z.to_nat (Z.min hi (Z.of_nat (dim2 label)) - lo).
Proof.
  intros Hb Hzmin Hzmax Hh Hd lo hi. split; [|split].
  - unfold crop_volume, bind. rewrite Hb. unfold ret. subst lo hi.
    unfold crop_lo, crop_hi.
    destruct (Z.ltb_spec ((zmin + zmax) / 2 - h / 2) 0).
    + rewrite Z.max_l by lia. reflexivity.
    + rewrite Z.max_r by lia. reflexivity.
  - subst lo hi. unfold slice_start, crop_lo, crop_hi.
    rewrite slice_bound_nonneg by lia.
    pose proof (midpoint_between zmin zmax ltac:(lia)) as Hmid.
    assert (0 <= h / 2)%Z by (apply Z.div_pos; lia). lia.
  - subst lo hi. unfold slice_len, crop_lo, crop_hi.
    pose proof (midpoint_between zmin zmax ltac:(lia)) as Hmid.
    assert (0 <= h / 2)%Z by (apply Z.div_pos; lia).
    rewrite !slice_bound_nonneg by lia. lia.
Qed.

(** C4. For a data volume and a label volume of the same shape whose label
    has foreground, and a crop height h >= 0, [crop_volume] returns both
    volumes restricted to the depth slices lo <= z < hi, where
    zmiddle = (zmin + zmax) // 2 comes from the label's bounding box,
    lo = max(0, zmiddle - h // 2) and hi = zmiddle + h // 2: the first two
    axes keep their size, slice k of each result is slice lo + k of the
    input, and the result has one slice for every input slice in the
    window. *)
Theorem crop_volume_depth_window {A} (data : ndarray3 A) (label : ndarray3 Z)
    (h : Z) (out : list string) :
  shape3 data = shape3 label ->
  (exists r c z, foreground label r c z) ->
  (0 <= h)%Z ->
  exists (rmin rmax cmin cmax zmin zmax : nat)
         (cropped_data : ndarray3 A) (cropped_label : ndarray3 Z),
    bbox_dim_3D label out =
      (Ok (Some (Z.of_nat rmin, Z.of_nat rmax, Z.of_nat cmin, Z.of_nat cmax,
                 Z.of_nat zmin, Z.of_nat zmax)), out) /\
    crop_volume data label h out = (Ok (cropped_data, cropped_label), out) /\
    let zmiddle := ((Z.of_nat zmin + Z.of_nat zmax) / 2)%Z in
    let lo := Z.max 0 (zmiddle - h / 2) in
    let hi := (zmiddle + h / 2)%Z in
    let depth := Z.to_nat (Z.min hi (Z.of_nat (dim2 data)) - lo) in
    shape3 cropped_data = (dim0 data, dim1 data, depth) /\
    shape3 cropped_label = (dim0 label, dim1 label, depth) /\
    (forall r c k, k < depth ->
       get3 cropped_data r c k = get3 data r c (Z.to_nat lo + k) /\
       get3 cropped_label r c k = get3 label r c (Z.to_nat lo + k)) /\
    (forall r c k, depth <= k ->
       get3 cropped_data r c k = None /\ get3 cropped_label r c k = None).
Proof.
  intros Hshape [r [c [z Hf]]] Hh.
  destruct (bbox_dim_3D_minimal_box_aux label out r c z Hf)
    as (rmin & rmax & cmin & cmax & zmin & zmax & Hrun & Hzmax).
  assert (Hd : dim2 data = dim2 label) by (unfold shape3 in Hshape; congruence).
  destruct (crop_volume_run data label h out _ _ _ _ _ _ Hrun
              ltac:(lia) ltac:(lia) Hh Hd) as (Hcrop & Hstart & Hlen).
  exists rmin, rmax, cmin, cmax, zmin, zmax. do 2 eexists.
  split; [exact Hrun|]. split; [exact Hcrop|].
  unfold crop_lo, crop_hi in *. cbv zeta. rewrite Hd.
  split; [|split; [|split]].
  - unfold shape3, slice_axis2. cbn [dim0 dim1 dim2]. rewrite Hd, Hlen.
    reflexivity.
  - unfold shape3, slice_axis2. cbn [dim0 dim1 dim2]. rewrite Hlen.
    reflexivity.
  - intros r' c' k Hk. rewrite !get3_slice_axis2, Hd, Hlen, Hstart.
    apply Nat.ltb_lt in Hk. rewrite Hk. split; reflexivity.
  - intros r' c' k Hk. rewrite !get3_slice_axis2, Hd, Hlen.
    apply Nat.ltb_ge in Hk. rewrite Hk. split; reflexivity.
Qed.

Lemma crop_volume_empty {A} (data : ndarray3 A) (label : ndarray3 Z) (h : Z)
    (out : list string) :
  (forall r c z, ~ foreground label r c z) ->
  crop_volume data label h out =
    (Raise TypeError, out ++ ["Warning Empty Label Mask"]).
Proof.
  intros Hno. unfold crop_volume, bind.
  rewrite (bbox_dim_3D_empty label out Hno). reflexivity.
Qed.

Lemma get3_merge_labels (label : ndarray3 Z) (r c z : nat) :
  in_shape label r c z ->
  get3 (merge_labels label) r c z =
    Some (if cell_is label 2 r c z then 1%Z
          else if cell_is label 1 r c z then 1%Z else 0%Z).
Proof.
  intros (Hr & Hc & Hz). unfold merge_labels.
  rewrite !get3_mask_assign, get3_tabulate3.
  apply Nat.ltb_lt in Hr, Hc, Hz. rewrite Hr, Hc, Hz. reflexivity.
Qed.

Lemma shape3_merge_labels (label : ndarray3 Z) :
  shape3 (merge_labels label) = shape3 label.
Proof. reflexivity. Qed.

(** Merging can only remove foreground: a merged voxel is set only where
    the label held 1 or 2. *)
Lemma merge_labels_foreground (label : ndarray3 Z) (r c z : nat) :
  foreground (merge_labels label) r c z -> foreground label r c z.
Proof.
  intros [v [[Hs Hget] Hv]].
  assert (Hs' : in_shape label r c z) by exact Hs.
  rewrite (get3_merge_labels label r c z Hs') in Hget.
  unfold cell_is in Hget.
  destruct (get3 label r c z) as [x|] eqn:Hx.
  - exists x. split; [split; assumption|].
    destruct (Z.eqb_spec x 2); [lia|].
    destruct (Z.eqb_spec x 1); [lia|]. congruence.
  - congruence.
Qed.

Lemma crop_and_resize_empty_label
    (resize_scan : ndarray3 Q -> nat * nat * nat -> ndarray3 Q)
    (resize_label : ndarray3 Z -> nat * nat * nat -> ndarray3 Z)
    (self : MSD_data) (scan_id : string)
    (scan : ndarray3 Q) (label : ndarray3 Z) (out : list string) :
  (forall r c z, ~ foreground label r c z) ->
  label_mode self = "bbox-seg" ->
  crop_and_resize resize_scan resize_label self scan_id scan label out =
    (Raise TypeError,
     out ++ ["Warning Empty Label Mask";
             String.append
               "Couldn't generate a bounding box for the label in scan: "
               scan_id]).
Proof.
  intros Hno Hmode. unfold crop_and_resize. rewrite Hmode.
  change (is_bbox_mode "bbox-seg") with true. cbv iota.
  set (staged := if mrg_labels self then merge_labels label else label).
  assert (Hno' : forall r c z, ~ foreground staged r c z).
  { intros r c z Hf. subst staged. destruct (mrg_labels self).
    - apply merge_labels_foreground in Hf. exact (Hno r c z Hf).
    - exact (Hno r c z Hf). }
  unfold bind at 1. unfold bind at 1.
  rewrite (bbox_dim_3D_empty staged out Hno').
  unfold bind, print, throw. cbn. rewrite <- app_assoc. reflexivity.
Qed.

(** The whole item fails with it: once the files are loaded and
    preprocessed, an empty label in mode "bbox-seg" ends
    [get_item_from_index] with TypeError. *)
Lemma get_item_from_index_empty_label {T U}
    (nib_load_scan : string -> result (ndarray3 Q))
    (nib_load_label : string -> result (ndarray3 Z))
    (resize_scan : ndarray3 Q -> nat * nat * nat -> ndarray3 Q)
    (resize_label : ndarray3 Z -> nat * nat * nat -> ndarray3 Z)
    (transform : scan_array -> T) (target_transform : ndarray3 Z -> U)
    (self : MSD_data) (index : Z) (scan_id label_file : string)
    (raw_scan scan : ndarray3 Q) (raw_label label : ndarray3 Z)
    (out : list string) :
  list_getitem (scan_names self) index = Ok scan_id ->
  list_getitem (label_names self) index = Ok label_file ->
  nib_load_scan scan_id = Ok raw_scan ->
  nib_load_label label_file = Ok raw_label ->
  preprocess_and_convert_to_numpy raw_scan raw_label = Ok (scan, label) ->
  (forall r c z, ~ foreground label r c z) ->
  label_mode self = "bbox-seg" ->
  fst (get_item_from_index nib_load_scan nib_load_label resize_scan
         resize_label transform target_transform self index out)
    = Raise TypeError.
Proof.
  intros Hs Hl Hls Hll Hpre Hno Hmode.
  unfold get_item_from_index, bind, lift.
  rewrite Hs, Hl, Hls, Hll, Hpre.
  rewrite (crop_and_resize_empty_label _ _ _ _ _ _ _ Hno Hmode).
  reflexivity.
Qed.

(** C5. A label volume without foreground has no bounding box:
    [bbox_dim_3D] prints its warning and returns None; [crop_volume] then
    raises when it unpacks the missing box; and in label mode "bbox-seg"
    the item pipeline prints a second message and raises when it
    subscripts the missing box, whether or not labels are merged first.
    No sample is produced. *)
Theorem empty_label_has_no_box_and_raises {A}
    (resize_scan : ndarray3 Q -> nat * nat * nat -> ndarray3 Q)
    (resize_label : ndarray3 Z -> nat * nat * nat -> ndarray3 Z)
    (self : MSD_data) (scan_id : string) (data : ndarray3 A)
    (scan : ndarray3 Q) (label : ndarray3 Z) (h : Z) (out : list string) :
  (forall r c z, ~ foreground label r c z) ->
  bbox_dim_3D label out = (Ok None, out ++ ["Warning Empty Label Mask"]) /\
  crop_volume data label h out =
    (Raise TypeError, out ++ ["Warning Empty Label Mask"]) /\
  (label_mode self = "bbox-seg" ->
   crop_and_resize resize_scan resize_label self scan_id scan label out =
     (Raise TypeError,
      out ++ ["Warning Empty Label Mask";
              String.append
                "Couldn't generate a bounding box for the label in scan: "
                scan_id])).
Proof.
  intros Hno. split; [|split].
  - apply bbox_dim_3D_empty, Hno.
  - apply crop_volume_empty, Hno.
  - apply crop_and_resize_empty_label, Hno.
Qed.

(** ** Shapes through cropping and resizing *)

Lemma crop_volume_some {A} (data : ndarray3 A) (label : ndarray3 Z) (h : Z)
    (out : list string) (b : bbox) :
  bbox_dim_3D label out = (Ok (Some b), out) ->
  exists lo hi,
    crop_volume data label h out =
      (Ok (slice_axis2 lo hi data, slice_axis2 lo hi label), out).
Proof.
  intros Hb. unfold crop_volume, bind. rewrite Hb.
  destruct b as [[[[[rmin rmax] cmin] cmax] zmin] zmax].
  unfold ret. eauto.
Qed.

Lemma crop_volume_equal_shapes {A} (data : ndarray3 A) (label : ndarray3 Z)
    (h : Z) (out : list string) :
  shape3 data = shape3 label ->
  (exists r c z, foreground label r c z) ->
  exists cropped_data cropped_label,
    crop_volume data label h out = (Ok (cropped_data, cropped_label), out) /\
    shape3 cropped_data = shape3 cropped_label.
Proof.
  intros Hshape [r [c [z Hf]]].
  destruct (bbox_dim_3D_minimal_box_aux label out r c z Hf)
    as (rmin & rmax & cmin & cmax & zmin & zmax & Hrun & _).
  destruct (crop_volume_some data label h out _ Hrun) as (lo & hi & Hcrop).
  do 2 eexists. split; [exact Hcrop|].
  unfold shape3 in Hshape. injection Hshape as H0 H1 H2.
  unfold shape3, slice_axis2. cbn [dim0 dim1 dim2]. congruence.
Qed.

Section ResizeContract.
(** The contract of [skimage.transform.resize]: the output has the
    requested shape. *)
Variable resize_scan : ndarray3 Q -> nat * nat * nat -> ndarray3 Q.
Variable resize_label : ndarray3 Z -> nat * nat * nat -> ndarray3 Z.
Hypothesis resize_scan_shape : forall a s, shape3 (resize_scan a s) = s.
Hypothesis resize_label_shape : forall a s, shape3 (resize_label a s) = s.

(** C6. For a scan and a label of equal shape whose label has foreground,
    [crop_volume] returns two volumes of equal shape, and the two resized
    arrays of [get_item_from_index] both have shape (res, res, res_z). *)
Theorem crop_then_resize_shapes_agree (self : MSD_data)
    (scan : ndarray3 Q) (label : ndarray3 Z) (out : list string) :
  shape3 scan = shape3 label ->
  (exists r c z, foreground label r c z) ->
  exists cropped_scan cropped_label,
    crop_volume scan label (crop_height self) out =
      (Ok (cropped_scan, cropped_label), out) /\
    shape3 cropped_scan = shape3 cropped_label /\
    shape3 (resize_scan cropped_scan (res self, res self, res_z self))
      = (res self, res self, res_z self) /\
    shape3 (astype_uint8
              (resize_label cropped_label (res self, res self, res_z self)))
      = (res self, res self, res_z self).
Proof using resize_scan_shape resize_label_shape.
  intros Hshape Hfg.
  destruct (crop_volume_equal_shapes scan label (crop_height self) out
              Hshape Hfg) as (cs & cl & Hcrop & Heq).
  exists cs, cl. split; [exact Hcrop|]. split; [exact Heq|]. split.
  - apply resize_scan_shape.
  - unfold astype_uint8, map3, shape3. cbn [dim0 dim1 dim2].
    apply (resize_label_shape cl).
Qed.

(** In a segmentation label mode without merging, the whole stage runs
    through: the shape assertion holds and both outputs have the target
    shape. *)
Lemma crop_and_resize_seg (self : MSD_data) (scan_id : string)
    (scan : ndarray3 Q) (label : ndarray3 Z) (out : list string) :
  label_mode self = "seg" -> mrg_labels self = false ->
  shape3 scan = shape3 label ->
  (exists r c z, foreground label r c z) ->
  exists scan' label',
    crop_and_resize resize_scan resize_label self scan_id scan label out =
      (Ok (scan', label'), out) /\
    shape3 scan' = (res self, res self, res_z self) /\
    shape3 label' = (res self, res self, res_z self).
Proof using resize_scan_shape resize_label_shape.
  intros Hmode Hmrg Hshape Hfg.
  destruct (crop_volume_equal_shapes scan label (crop_height self) out
              Hshape Hfg) as (cs & cl & Hcrop & Heq).
  unfold crop_and_resize. rewrite Hmode, Hmrg.
  change (is_bbox_mode "seg") with false. cbv iota.
  unfold bind at 1. unfold ret at 1. unfold bind. rewrite Hcrop.
  destruct (decide (shape3 cs = shape3 cl)); [|contradiction].
  unfold ret. do 2 eexists. split; [reflexivity|]. split.
  - apply resize_scan_shape.
  - unfold astype_uint8, map3, shape3. cbn [dim0 dim1 dim2].
    apply (resize_label_shape cl).
Qed.
End ResizeContract.

(** ** Well-formed arrays, flattening, rotation *)

Lemma wf3_planes {A} (a : ndarray3 A) :
  wf3 a = true ->
  length (cells a) = dim0 a /\
  forall r plane, cells a !! r = Some plane ->
    length plane = dim1 a /\
    forall c row, plane !! c = Some row -> length row = dim2 a.
Proof.
  unfold wf3. rewrite andb_true_iff, Nat.eqb_eq, forallb_forall.
  intros [H0 Hp]. split; [exact H0|]. intros r plane Hr.
  assert (Hin : In plane (cells a))
    by (apply list_elem_of_In, list_elem_of_lookup; eauto).
  specialize (Hp plane Hin).
  rewrite andb_true_iff, Nat.eqb_eq, forallb_forall in Hp.
  destruct Hp as [H1 Hrows]. split; [exact H1|]. intros c row Hc.
  apply Nat.eqb_eq, Hrows, list_elem_of_In, list_elem_of_lookup. eauto.
Qed.

Lemma wf3_get3_in_shape {A} (a : ndarray3 A) (r c z : nat) :
  wf3 a = true -> (is_Some (get3 a r c z) <-> in_shape a r c z).
Proof.
  intros Hwf. destruct (wf3_planes a Hwf) as [H0 Hp].
  unfold get3, in_shape. split.
  - intros [x Hx].
    destruct (cells a !! r) as [plane|] eqn:Hr; [|discriminate].
    destruct (plane !! c) as [row|] eqn:Hc; [|discriminate].
    destruct (Hp r plane Hr) as [H1 Hrows].
    specialize (Hrows c row Hc).
    apply lookup_lt_Some in Hr, Hc, Hx. lia.
  - intros (Hr & Hc & Hz).
    destruct (lookup_lt_is_Some_2 (cells a) r ltac:(lia)) as [plane Hplane].
    rewrite Hplane. destruct (Hp r plane Hplane) as [H1 Hrows].
    destruct (lookup_lt_is_Some_2 plane c ltac:(lia)) as [row Hrow].
    rewrite Hrow. specialize (Hrows c row Hrow).
    apply lookup_lt_is_Some_2. lia.
Qed.

Lemma In_flatten3 {A} (a : ndarray3 A) (x : A) :
  In x (flatten3 a) <-> exists r c z, get3 a r c z = Some x.
Proof.
  unfold flatten3, get3. rewrite in_concat. split.
  - intros [row [Hrow Hx]]. apply in_concat in Hrow as [plane [Hplane Hrow]].
    apply list_elem_of_In, list_elem_of_lookup in Hplane as [r Hr].
    apply list_elem_of_In, list_elem_of_lookup in Hrow as [c Hc].
    apply list_elem_of_In, list_elem_of_lookup in Hx as [z Hz].
    exists r, c, z. rewrite Hr, Hc. exact Hz.
  - intros (r & c & z & H).
    destruct (cells a !! r) as [plane|] eqn:Hr; [|discriminate].
    destruct (plane !! c) as [row|] eqn:Hc; [|discriminate].
    exists row. split.
    + apply in_concat. exists plane.
      split; apply list_elem_of_In, list_elem_of_lookup; eauto.
    + apply list_elem_of_In, list_elem_of_lookup. eauto.
Qed.

Lemma get3_fliplr {A} (a : ndarray3 A) (r c z : nat) (plane : list (list A)) :
  cells a !! r = Some plane -> c < length plane ->
  get3 (fliplr a) r c z = get3 a r (length plane - S c) z.
Proof.
  intros Hr Hc. unfold get3, fliplr. cbn [cells].
  change (map reverse (cells a)) with (reverse <$> cells a).
  rewrite list_lookup_fmap, Hr. cbn [fmap option_fmap option_map].
  rewrite reverse_lookup by assumption. reflexivity.
Qed.

Lemma get3_rot90 {A} (a : ndarray3 A) (i j k : nat) :
  i < dim1 a -> get3 (rot90 a) i j k = get3 (fliplr a) j i k.
Proof.
  intros Hi. unfold get3 at 1, rot90, transpose01. cbn [cells].
  rewrite lookup_map_seq. apply Nat.ltb_lt in Hi. rewrite Hi.
  change (map ?f ?l) with (f <$> l). rewrite list_lookup_fmap.
  unfold get3.
  destruct (cells (fliplr a) !! j) as [plane|]; [|reflexivity].
  cbn [fmap option_fmap option_map]. rewrite nth_lookup.
  destruct (plane !! i) as [row|]; reflexivity.
Qed.

Lemma rot90_plane_length {A} (a : ndarray3 A) (i : nat)
    (plane : list (list A)) :
  cells (rot90 a) !! i = Some plane -> length plane = length (cells a).
Proof.
  unfold rot90, transpose01, fliplr. cbn [cells]. rewrite lookup_map_seq.
  destruct (i <? dim1 a); [|discriminate]. intros H. injection H as <-.
  rewrite !length_map. reflexivity.
Qed.

(** The rotation and flip of the preprocessing move the cell at
    [(r, c, z)] to [(dim1 - 1 - c, dim0 - 1 - r, z)]. *)
Lemma get3_fliplr_rot90 {A} (a : ndarray3 A) (i j k : nat) :
  wf3 a = true -> i < dim1 a -> j < dim0 a ->
  get3 (fliplr (rot90 a)) i j k = get3 a (dim0 a - S j) (dim1 a - S i) k.
Proof.
  intros Hwf Hi Hj. destruct (wf3_planes a Hwf) as [H0 Hp].
  assert (Hpl : is_Some (cells (rot90 a) !! i)).
  { unfold rot90, transpose01. cbn [cells]. rewrite lookup_map_seq.
    apply Nat.ltb_lt in Hi. rewrite Hi. eauto. }
  destruct Hpl as [plane Hplane].
  pose proof (rot90_plane_length a i plane Hplane) as Hlen.
  rewrite (get3_fliplr (rot90 a) i j k plane Hplane) by lia.
  rewrite get3_rot90 by assumption. rewrite Hlen, H0.
  destruct (lookup_lt_is_Some_2 (cells a) (dim0 a - S j) ltac:(lia))
    as [p Hpr].
  destruct (Hp _ _ Hpr) as [H1 _].
  rewrite (get3_fliplr a _ i k p Hpr) by lia. rewrite H1. reflexivity.
Qed.

(** ** Clipping and min-max scaling *)

Lemma Qmaxb_spec (x y : Q) :
  (Qmaxb x y = x \/ Qmaxb x y = y) /\ (x <= Qmaxb x y)%Q /\ (y <= Qmaxb x y)%Q.
Proof.
  unfold Qmaxb. destruct (Qle_bool x y) eqn:H.
  - apply Qle_bool_iff in H. repeat split; auto. apply Qle_refl.
  - assert (~ (x <= y)%Q) by (rewrite <- Qle_bool_iff; congruence).
    repeat split; auto; [apply Qle_refl|].
    apply Qlt_le_weak, Qnot_le_lt. assumption.
Qed.

Lemma Qminb_spec (x y : Q) :
  (Qminb x y = x \/ Qminb x y = y) /\ (Qminb x y <= x)%Q /\ (Qminb x y <= y)%Q.
Proof.
  unfold Qminb. destruct (Qle_bool x y) eqn:H.
  - apply Qle_bool_iff in H. repeat split; auto. apply Qle_refl.
  - assert (~ (x <= y)%Q) by (rewrite <- Qle_bool_iff; congruence).
    repeat split; auto; [|apply Qle_refl].
    apply Qlt_le_weak, Qnot_le_lt. assumption.
Qed.

Lemma fold_Qmaxb (l : list Q) : forall x,
  In (fold_left Qmaxb l x) (x :: l) /\
  forall y, In y (x :: l) -> (y <= fold_left Qmaxb l x)%Q.
Proof.
  induction l as [|a l IH]; intros x; cbn [fold_left].
  - split; [left; reflexivity|]. intros y [<- | []]. apply Qle_refl.
  - destruct (IH (Qmaxb x a)) as [Hin Hub].
    destruct (Qmaxb_spec x a) as (Hsel & Hx & Ha). split.
    + destruct Hin as [Heq | Hin]; [|right; right; exact Hin].
      rewrite <- Heq. destruct Hsel as [-> | ->];
        [left | right; left]; reflexivity.
    + intros y [<- | [<- | Hy]].
      * eapply Qle_trans; [exact Hx | apply Hub; left; reflexivity].
      * eapply Qle_trans; [exact Ha | apply Hub; left; reflexivity].
      * apply Hub. right. exact Hy.
Qed.

Lemma fold_Qminb (l : list Q) : forall x,
  In (fold_left Qminb l x) (x :: l) /\
  forall y, In y (x :: l) -> (fold_left Qminb l x <= y)%Q.
Proof.
  induction l as [|a l IH]; intros x; cbn [fold_left].
  - split; [left; reflexivity|]. intros y [<- | []]. apply Qle_refl.
  - destruct (IH (Qminb x a)) as [Hin Hlb].
    destruct (Qminb_spec x a) as (Hsel & Hx & Ha). split.
    + destruct Hin as [Heq | Hin]; [|right; right; exact Hin].
      rewrite <- Heq. destruct Hsel as [-> | ->];
        [left | right; left]; reflexivity.
    + intros y [<- | [<- | Hy]].
      * eapply Qle_trans; [apply Hlb; left; reflexivity | exact Hx].
      * eapply Qle_trans; [apply Hlb; left; reflexivity | exact Ha].
      * apply Hlb. right. exact Hy.
Qed.

Lemma arr_max_spec (a : ndarray3 Q) (x : Q) :
  In x (flatten3 a) ->
  exists mx, arr_max a = Ok mx /\ In mx (flatten3 a) /\
             forall y, In y (flatten3 a) -> (y <= mx)%Q.
Proof.
  intros Hx. unfold arr_max.
  destruct (flatten3 a) as [|x0 l]; [destruct Hx|].
  destruct (fold_Qmaxb l x0) as [Hin Hub]. eauto.
Qed.

Lemma arr_min_spec (a : ndarray3 Q) (x : Q) :
  In x (flatten3 a) ->
  exists mn, arr_min a = Ok mn /\ In mn (flatten3 a) /\
             forall y, In y (flatten3 a) -> (mn <= y)%Q.
Proof.
  intros Hx. unfold arr_min.
  destruct (flatten3 a) as [|x0 l]; [destruct Hx|].
  destruct (fold_Qminb l x0) as [Hin Hlb]. eauto.
Qed.

Lemma clip1_range (lo hi x : Q) :
  (lo <= hi)%Q -> (lo <= clip1 lo hi x <= hi)%Q.
Proof.
  intros Hlh. unfold clip1.
  destruct (Qmaxb_spec x lo) as (_ & _ & Hlo).
  destruct (Qminb_spec (Qmaxb x lo) hi) as (Hsel & _ & Hhi).
  split; [|exact Hhi].
  destruct Hsel as [-> | ->]; assumption.
Qed.

(** Min-max scaling sends [mn, mx] onto [0, 1]. *)
Lemma scaled_in_unit (mn mx x : Q) :
  (mn < mx)%Q -> (mn <= x <= mx)%Q ->
  (0 <= (x - mn) / (mx - mn) <= 1)%Q /\
  (x == mn -> (x - mn) / (mx - mn) == 0)%Q /\
  (x == mx -> (x - mn) / (mx - mn) == 1)%Q.
Proof.
  intros Hlt [Hlo Hhi].
  assert (Hpos : (0 < mx - mn)%Q)
    by (rewrite <- (Qplus_opp_r mn); apply Qplus_lt_l; exact Hlt).
  split; [split|split].
  - apply Qle_shift_div_l; [exact Hpos|]. rewrite Qmult_0_l.
    rewrite <- (Qplus_opp_r mn). apply Qplus_le_l. exact Hlo.
  - apply Qle_shift_div_r; [exact Hpos|]. rewrite Qmult_1_l.
    apply Qplus_le_l. exact Hhi.
  - intros ->. unfold Qminus. rewrite Qplus_opp_r.
    unfold Qdiv. apply Qmult_0_l.
  - intros ->. unfold Qdiv. apply Qmult_inv_r.
    intros H0. rewrite H0 in Hpos. exact (Qlt_irrefl _ Hpos).
Qed.

Lemma scale_array_run (a : ndarray3 Q) (mx mn : Q) :
  arr_max a = Ok mx -> arr_min a = Ok mn ->
  ((mn < mx)%Q ->
   scale_array a = Ok (map3 (fun x => (x - mn) / (mx - mn))%Q a)) /\
  (~ (mn < mx)%Q -> scale_array a = Raise AssertionError).
Proof.
  intros Hmx Hmn. unfold scale_array. rewrite Hmx, Hmn.
  destruct (Qle_bool (mx - mn) 0) eqn:Hle; cbn [negb].
  - apply Qle_bool_iff in Hle. split; [|reflexivity].
    intros Hlt. exfalso. apply (Qlt_not_le _ _ Hlt).
    apply Qplus_le_l with (z := (- mn)%Q). rewrite Qplus_opp_r. exact Hle.
  - split; [reflexivity|]. intros Hn. exfalso. apply Hn.
    apply Qnot_le_lt. intros Hc.
    assert (Hle' : (mx - mn <= 0)%Q).
    { rewrite <- (Qplus_opp_r mn). apply Qplus_le_l. exact Hc. }
    apply Qle_bool_iff in Hle'. congruence.
Qed.

Lemma wf3_map3 {A B} (f : A -> B) (a : ndarray3 A) :
  wf3 a = true -> wf3 (map3 f a) = true.
Proof.
  intros Hwf. destruct (wf3_planes a Hwf) as [H0 Hp].
  unfold wf3, map3. cbn [cells dim0 dim1 dim2].
  rewrite length_map, H0, Nat.eqb_refl. cbn [andb].
  apply forallb_forall. intros plane Hin.
  apply list_elem_of_In, list_elem_of_lookup in Hin as [r Hr].
  change (map ?g ?l) with (g <$> l) in Hr. rewrite list_lookup_fmap in Hr.
  destruct (cells a !! r) as [p|] eqn:Hpr; [|discriminate].
  injection Hr as <-. destruct (Hp r p Hpr) as [H1 Hrows].
  rewrite length_map, H1, Nat.eqb_refl. cbn [andb].
  apply forallb_forall. intros row Hin.
  apply list_elem_of_In, list_elem_of_lookup in Hin as [c Hc].
  change (map ?g ?l) with (g <$> l) in Hc. rewrite list_lookup_fmap in Hc.
  destruct (p !! c) as [rw|] eqn:Hrw; [|discriminate].
  injection Hc as <-. rewrite length_map. apply Nat.eqb_eq. eauto.
Qed.

Lemma In_flatten3_np_clip (scan : ndarray3 Q) (lo hi v : Q) :
  In v (flatten3 (np_clip scan lo hi)) <->
  exists x, In x (flatten3 scan) /\ v = clip1 lo hi x.
Proof.
  rewrite In_flatten3. unfold np_clip. split.
  - intros (r & c & z & H). rewrite get3_map3 in H.
    destruct (get3 scan r c z) as [x|] eqn:Hx; [|discriminate].
    injection H as <-. exists x. split; [|reflexivity].
    apply In_flatten3. eauto.
  - intros (x & Hx & ->). apply In_flatten3 in Hx as (r & c & z & Hx).
    exists r, c, z. rewrite get3_map3, Hx. reflexivity.
Qed.

(** C8. On a volume that is not constant after clipping, [preprocess_scan]
    clips every value to [-150, 200], then maps a clipped value x to
    (x - mn) / (mx - mn), where mn and mx are the least and greatest clipped
    values (and mn < mx): every value of the result lies in [0, 1], the
    minimum goes to 0 and the maximum to 1, and both are attained.  The
    result is the scaled volume rotated and flipped.  [scale_array] returns
    exactly when the maximum exceeds the minimum and fails its assertion
    otherwise. *)
Theorem preprocess_scan_clips_and_normalizes (scan : ndarray3 Q) :
  wf3 scan = true ->
  (exists x y, In x (flatten3 scan) /\ In y (flatten3 scan) /\
               ~ (clip1 (-150 # 1) (200 # 1) x
                    == clip1 (-150 # 1) (200 # 1) y)%Q) ->
  let clip := clip1 (-150 # 1) (200 # 1) in
  exists (out : ndarray3 Q) (mn mx : Q),
    arr_min (np_clip scan (-150 # 1) (200 # 1)) = Ok mn /\
    arr_max (np_clip scan (-150 # 1) (200 # 1)) = Ok mx /\
    (mn < mx)%Q /\
    (forall x, In x (flatten3 scan) ->
       (-150 # 1 <= clip x <= 200 # 1)%Q /\ (mn <= clip x <= mx)%Q) /\
    preprocess_scan scan = Ok out /\
    shape3 out = (dim1 scan, dim0 scan, dim2 scan) /\
    (forall i j k, in_shape out i j k ->
       exists x,
         get3 scan (dim0 scan - S j) (dim1 scan - S i) k = Some x /\
         get3 out i j k = Some ((clip x - mn) / (mx - mn))%Q /\
         (0 <= (clip x - mn) / (mx - mn) <= 1)%Q /\
         (clip x == mn -> (clip x - mn) / (mx - mn) == 0)%Q /\
         (clip x == mx -> (clip x - mn) / (mx - mn) == 1)%Q) /\
    (exists i j k v, voxel out i j k v /\ (v == 0)%Q) /\
    (exists i j k v, voxel out i j k v /\ (v == 1)%Q) /\
    (forall (a : ndarray3 Q) (amx amn : Q),
       arr_max a = Ok amx -> arr_min a = Ok amn ->
       ((amn < amx)%Q -> is_ok (scale_array a) = true) /\
       (~ (amn < amx)%Q -> scale_array a = Raise AssertionError)).
Proof.
  intros Hwf (x0 & y0 & Hx0 & Hy0 & Hne) clip.
  set (lo := (-150 # 1)%Q) in *. set (hi := (200 # 1)%Q) in *.
  set (clipped := np_clip scan lo hi).
  assert (Hlohi : (lo <= hi)%Q) by (subst lo hi; discriminate).
  assert (Hcx0 : In (clip x0) (flatten3 clipped))
    by (apply In_flatten3_np_clip; eauto).
  destruct (arr_max_spec clipped _ Hcx0) as (mx & Hmx & Hmx_in & Hmx_ub).
  destruct (arr_min_spec clipped _ Hcx0) as (mn & Hmn & Hmn_in & Hmn_lb).
  assert (Hbetween : forall x, In x (flatten3 scan) ->
            (mn <= clip x <= mx)%Q).
  { intros x Hx.
    assert (In (clip x) (flatten3 clipped))
      by (apply In_flatten3_np_clip; eauto).
    split; [apply Hmn_lb | apply Hmx_ub]; assumption. }
  assert (Hlt : (mn < mx)%Q).
  { apply Qnot_le_lt. intros Hle. apply Hne.
    destruct (Hbetween x0 Hx0) as [Hx_lo Hx_hi].
    destruct (Hbetween y0 Hy0) as [Hy_lo Hy_hi].
    apply Qle_antisym.
    - eapply Qle_trans; [exact Hx_hi|]. eapply Qle_trans; eassumption.
    - eapply Qle_trans; [exact Hy_hi|]. eapply Qle_trans; eassumption. }
  set (f := (fun x => (x - mn) / (mx - mn))%Q).
  set (scaled := map3 f clipped).
  assert (Hscale : scale_array clipped = Ok scaled)
    by (apply (scale_array_run clipped mx mn Hmx Hmn); exact Hlt).
  assert (Hwfs : wf3 scaled = true) by (apply wf3_map3, wf3_map3, Hwf).
  assert (Hget : forall i j k, i < dim1 scan -> j < dim0 scan ->
            get3 (fliplr (rot90 scaled)) i j k =
            f <$> (clip <$> get3 scan (dim0 scan - S j) (dim1 scan - S i) k)).
  { intros i j k Hi Hj.
    rewrite (get3_fliplr_rot90 scaled i j k Hwfs Hi Hj).
    subst scaled clipped. unfold np_clip. rewrite !get3_map3. reflexivity. }
  exists (fliplr (rot90 scaled)), mn, mx.
  split; [exact Hmn|]. split; [exact Hmx|]. split; [exact Hlt|].
  split; [|split; [|split; [|split; [|split; [|split]]]]].
  - intros x Hx. split; [apply clip1_range, Hlohi | apply Hbetween, Hx].
  - unfold preprocess_scan. fold lo hi clipped. rewrite Hscale. reflexivity.
  - reflexivity.
  - intros i j k (Hi & Hj & Hk). cbn [fliplr rot90 dim0 dim1 dim2] in Hi, Hj, Hk.
    change (dim1 scaled) with (dim1 scan) in Hi.
    change (dim0 scaled) with (dim0 scan) in Hj.
    change (dim2 scaled) with (dim2 scan) in Hk.
    destruct (proj2 (wf3_get3_in_shape scan (dim0 scan - S j)
                       (dim1 scan - S i) k Hwf)) as [x Hx].
    { unfold in_shape. lia. }
    exists x. split; [exact Hx|]. split.
    + rewrite Hget by assumption. rewrite Hx. reflexivity.
    + apply scaled_in_unit; [exact Hlt|]. apply Hbetween.
      apply In_flatten3. eauto.
  - apply In_flatten3_np_clip in Hmn_in as (x & Hx & Hmn_eq).
    apply In_flatten3 in Hx as (r & c & z & Hx).
    destruct (proj1 (wf3_get3_in_shape scan r c z Hwf) ltac:(eauto))
      as (Hr & Hc & Hz).
    exists (dim1 scan - S c), (dim0 scan - S r), z, (f (clip x)).
    split; [split|].
    + unfold in_shape. cbn [fliplr rot90 dim0 dim1 dim2].
      change (dim1 scaled) with (dim1 scan).
      change (dim0 scaled) with (dim0 scan).
      change (dim2 scaled) with (dim2 scan). lia.
    + rewrite Hget by lia.
      replace (dim0 scan - S (dim0 scan - S r)) with r by lia.
      replace (dim1 scan - S (dim1 scan - S c)) with c by lia.
      rewrite Hx. reflexivity.
    + apply scaled_in_unit; [exact Hlt | apply Hbetween, In_flatten3; eauto|].
      fold (clip x) in Hmn_eq. rewrite <- Hmn_eq. reflexivity.
  - apply In_flatten3_np_clip in Hmx_in as (x & Hx & Hmx_eq).
    apply In_flatten3 in Hx as (r & c & z & Hx).
    destruct (proj1 (wf3_get3_in_shape scan r c z Hwf) ltac:(eauto))
      as (Hr & Hc & Hz).
    exists (dim1 scan - S c), (dim0 scan - S r), z, (f (clip x)).
    split; [split|].
    + unfold in_shape. cbn [fliplr rot90 dim0 dim1 dim2].
      change (dim1 scaled) with (dim1 scan).
      change (dim0 scaled) with (dim0 scan).
      change (dim2 scaled) with (dim2 scan). lia.
    + rewrite Hget by lia.
      replace (dim0 scan - S (dim0 scan - S r)) with r by lia.
      replace (dim1 scan - S (dim1 scan - S c)) with c by lia.
      rewrite Hx. reflexivity.
    + apply scaled_in_unit; [exact Hlt | apply Hbetween, In_flatten3; eauto|].
      fold (clip x) in Hmx_eq. rewrite <- Hmx_eq. reflexivity.
  - intros a amx amn Ha1 Ha2.
    destruct (scale_array_run a amx amn Ha1 Ha2) as [Hok Hfail].
    split; [|exact Hfail]. intros H. rewrite (Hok H). reflexivity.
Qed.

(** ** What [l1_sensitivity] computes *)

Lemma take_samples_seq (d : list Z) : forall k a,
  a + k <= length d -> take_samples d (seq a k) = take k (drop a d).
Proof.
  induction k as [|k IH]; intros a Hle; [reflexivity|].
  cbn [seq]. unfold take_samples in *. cbn [flat_map].
  destruct (lookup_lt_is_Some_2 d a ltac:(lia)) as [x Hx].
  rewrite Hx, (drop_S d x a Hx). cbn [app take]. f_equal.
  apply IH. lia.
Qed.

Lemma filter_seq_ne (i a k : nat) :
  (i < a \/ a + k <= i) ->
  List.filter (fun j => negb (j =? i)) (seq a k) = seq a k.
Proof.
  revert a. induction k as [|k IH]; intros a Hi; [reflexivity|].
  cbn [seq List.filter]. destruct (Nat.eqb_spec a i); [lia|].
  cbn [negb]. f_equal. apply IH. lia.
Qed.

(** Indexing with the training indices of split [i] removes sample [i]. *)
Lemma take_samples_train (d : list Z) (i : nat) :
  i < length d ->
  take_samples d (List.filter (fun j => negb (j =? i)) (seq 0 (length d)))
    = without_sample i d.
Proof.
  intros Hi.
  replace (length d) with (i + S (length d - S i)) at 1 by lia.
  rewrite seq_app. change (0 + i) with i. cbn [seq].
  rewrite List.filter_app. cbn [List.filter].
  rewrite Nat.eqb_refl. cbn [negb].
  rewrite !filter_seq_ne by lia.
  unfold take_samples. rewrite flat_map_app.
  fold (take_samples d (seq 0 i)).
  fold (take_samples d (seq (S i) (length d - S i))).
  rewrite !take_samples_seq by lia. unfold without_sample.
  rewrite drop_0. f_equal. apply take_ge. rewrite length_drop. lia.
Qed.

Lemma fold_right_max_shift (l : list Z) (a b : Z) :
  fold_right Z.max (Z.max a b) l = Z.max b (fold_right Z.max a l).
Proof. induction l as [|x l IH]; cbn [fold_right]; lia. Qed.

Lemma fold_left_max_values {X} (g : X -> Z) (l : list X) : forall a,
  fold_left (fun s x => if (g x >? s)%Z then g x else s) l a
    = fold_right Z.max a (map g l).
Proof.
  induction l as [|x l IH]; intros a; [reflexivity|].
  cbn [fold_left map fold_right]. rewrite IH.
  destruct (Z.gtb_spec (g x) a).
  - rewrite <- (Z.max_r a (g x)) at 1 by lia. apply fold_right_max_shift.
  - rewrite <- (Z.max_l a (g x)) at 1 by lia. apply fold_right_max_shift.
Qed.

(** On integer data the function returns the largest query value over the
    leave-one-out subsets (or 0 when all are negative): the query on the
    full data never enters. *)
Lemma l1_sensitivity_Z_value (query : list Z -> Z) (d : list Z) :
  2 <= length d ->
  l1_sensitivity_Z query d =
    Ok (fold_right Z.max 0%Z
          (map (fun i => query (without_sample i d)) (seq 0 (length d)))).
Proof.
  intros Hlen. unfold l1_sensitivity_Z, l1_sensitivity, leave_one_out_split.
  destruct (Nat.leb_spec (length d) 1); [lia|]. f_equal.
  rewrite (fold_left_max_values
             (fun idx => query (take_samples d (fst idx)))).
  f_equal. rewrite map_map. apply map_ext_in. intros i Hi. cbn [fst].
  rewrite take_samples_train; [reflexivity|]. apply in_seq in Hi. lia.
Qed.

(** C1 (the code differs).  With the query "sum" on the data 1, 2, 3 the
    three leave-one-out sums are 5, 4 and 3 and the full sum is 6: the
    largest change is 3, but [l1_sensitivity] returns 5, the largest
    leave-one-out value.  On constant data 7, 7 with the query "maximum"
    removing a sample changes nothing, yet 7 is returned. *)
Theorem l1_sensitivity_returns_largest_value_not_change :
  l1_sensitivity_Z Zsum [1; 2; 3]%Z = Ok 5%Z /\
  leave_one_out_sensitivity_spec Zsum [1; 2; 3]%Z = 3%Z /\
  l1_sensitivity_Z (fold_right Z.max 0%Z) [7; 7]%Z = Ok 7%Z /\
  leave_one_out_sensitivity_spec (fold_right Z.max 0%Z) [7; 7]%Z = 0%Z.
Proof. repeat split; reflexivity. Qed.

(** ** Mean and standard deviation without a privacy budget *)

Section MeanStdFacts.
Context {F G : Type}.
Variable torch_mean : @tensor F -> F.
Variable torch_std : @tensor F -> F.
Variable std_mean : @tensor F -> list nat -> @tensor F * @tensor F.
Variable add_scalar : @tensor F -> F -> @tensor F.
Variable F_zero : F.
Variable F_gtb : F -> F -> bool.
Variable F_div : F -> F -> F.
Variable F_truthy : F -> bool.
Variable laplace_rsample : F -> G -> F * G.

Lemma stack_same_shape (ts : list (@tensor F)) (s : list nat) :
ts <> [] -> Forall (fun t => tshape t = s) ts ->
stack ts = Ok (Tensor (length ts :: s) (flat_map tdata ts)).
Proof.
intros Hne Hall. destruct ts as [|t rest]; [congruence|].
unfold stack. inversion Hall as [|? ? Ht Hrest]; subst.
replace (forallb (fun u => shape_eqb (tshape u) (tshape t)) rest) with true;
  [reflexivity|].
symmetry. apply forallb_forall. intros u Hu.
rewrite List.Forall_forall in Hrest. unfold shape_eqb.
apply bool_decide_eq_true. apply Hrest. exact Hu.
Qed.

Lemma reduction_dims_stacked (n : nat) (s : list nat) :
s <> [] ->
exists dims,
  reduction_dims (n :: s) = Ok dims /\
  (hd 0 s = 1 \/ hd 0 s = 3 -> dims = 0 :: seq 2 (length s - 1)) /\
  (hd 0 s <> 1 -> hd 0 s <> 3 -> dims = seq 0 (S (length s))).
Proof.
intros Hs. destruct s as [|c s']; [congruence|].
unfold reduction_dims. cbn [lookup list_lookup hd length].
destruct (Nat.eqb_spec c 1) as [-> | H1]; cbn [orb].
- eexists. split; [reflexivity|]. split; [|congruence].
  intros _. repeat f_equal; lia.
- destruct (Nat.eqb_spec c 3) as [-> | H3].
  + eexists. split; [reflexivity|]. split; [|congruence].
    intros _. repeat f_equal; lia.
  + eexists. split; [reflexivity|]. split; [lia | reflexivity].
Qed.

(** C7. For a data set whose samples are tensors of one common shape with
  a channel axis, [calc_mean_std] without a privacy budget stacks the
  samples and returns the mean and the standard deviation that
  [std_mean] gives over the reduction axes chosen from the shape (all
  axes but the channel axis when there are 1 or 3 channels, all axes
  otherwise).  No random number is drawn and nothing is added to the
  statistics; without a save folder the world is left as it was, and
  with one the same pair is returned and only a file is written. *)
Theorem calc_mean_std_without_epsilon_is_plain
  (ds : @dataset F) (ts : list (@tensor F)) (s : list nat)
  (w : @world F G) :
kind ds = Dataset ->
mapM_result unwrap (items ds) = Ok ts ->
ts <> [] -> Forall (fun t => tshape t = s) ts -> s <> [] ->
exists accumulated dims,
  stack ts = Ok accumulated /\
  tshape accumulated = length ts :: s /\
  tdata accumulated = flat_map tdata ts /\
  reduction_dims (tshape accumulated) = Ok dims /\
  (hd 0 s = 1 \/ hd 0 s = 3 -> dims = 0 :: seq 2 (length s - 1)) /\
  (hd 0 s <> 1 -> hd 0 s <> 3 -> dims = seq 0 (S (length s))) /\
  let std := fst (std_mean accumulated dims) in
  let mean := snd (std_mean accumulated dims) in
  calc_mean_std torch_mean torch_std std_mean add_scalar F_zero F_gtb
    F_div F_truthy laplace_rsample ds None None w
    = (Ok (mean, std), w) /\
  forall folder,
    tshape mean = tshape std ->
    exists w',
      calc_mean_std torch_mean torch_std std_mean add_scalar F_zero F_gtb
        F_div F_truthy laplace_rsample ds (Some folder) None w
        = (Ok (mean, std), w') /\
      generator w' = generator w.
Proof.
intros Hkind Hitems Hne Hall Hs.
pose proof (stack_same_shape ts s Hne Hall) as Hstack.
destruct (reduction_dims_stacked (length ts) s Hs) as (dims & Hdims & Hd1 & Hd2).
exists (Tensor (length ts :: s) (flat_map tdata ts)), dims.
split; [exact Hstack|]. split; [reflexivity|]. split; [reflexivity|].
split; [exact Hdims|]. split; [exact Hd1|]. split; [exact Hd2|].
cbv zeta. split.
- unfold calc_mean_std, bind, lift, ret.
  rewrite Hitems, Hkind, Hstack. cbn [tshape]. rewrite Hdims.
  destruct (std_mean _ dims) as [std mean]. reflexivity.
- intros folder Hshape. unfold calc_mean_std, bind, lift, ret.
  rewrite Hitems, Hkind, Hstack. cbn [tshape]. rewrite Hdims.
  destruct (std_mean _ dims) as [std mean]. cbn [fst snd] in *.
  cbn [option_truthy].
  destruct (string_truthy folder); [|eexists; split; reflexivity].
  unfold stack. cbn [forallb]. unfold shape_eqb.
  rewrite bool_decide_eq_true_2 by (symmetry; exact Hshape).
  cbn [andb]. unfold save. eexists. split; reflexivity.
Qed.
End MeanStdFacts.

(** ** The colour map *)

Lemma np_unique_In (img : image Z) (v : Z) :
  In v (np_unique img) <-> In v (concat (pixels img)).
Proof.
  unfold np_unique. rewrite <- !list_elem_of_In.
  rewrite merge_sort_Permutation. apply elem_of_remove_dups.
Qed.

Lemma all_pixels_concat {P} (v : P) (img : image P) (x : P) :
  all_pixels v img -> In x (concat (pixels img)) -> x = v.
Proof.
  unfold all_pixels. intros Hall Hx. apply in_concat in Hx as [row [Hrow Hx]].
  rewrite List.Forall_forall in Hall. specialize (Hall row Hrow).
  rewrite List.Forall_forall in Hall. symmetry. apply Hall, Hx.
Qed.

(** Ids and colours identify the entries of the table. *)
Lemma SEG_LABELS_LIST_ids_unique :
  List.Forall
    (fun l => List.filter (fun e => (label_id e =? label_id l)%Z)
                          SEG_LABELS_LIST = [l])
    SEG_LABELS_LIST.
Proof. repeat constructor. Qed.

Lemma SEG_LABELS_LIST_rgb_are_bytes :
  List.Forall (fun l => rgb_uint8 (rgb_values l) = rgb_values l)
              SEG_LABELS_LIST.
Proof. repeat constructor. Qed.

Lemma SEG_LABELS_LIST_relabel :
  List.Forall
    (fun l => fst (fst (fold_left (fun px e => relabel_pixel e px)
                                  SEG_LABELS_LIST (rgb_values l)))
              = label_id l)
    SEG_LABELS_LIST.
Proof. repeat constructor. Qed.

Lemma fold_left_map_image {P E} (f : E -> P -> P) (es : list E) :
  forall img : image P,
    fold_left (fun t e => map_image (f e) t) es img
      = map_image (fun px => fold_left (fun p e => f e p) es px) img.
Proof.
  induction es as [|e es IH]; intros img; cbn [fold_left].
  - unfold map_image. destruct img as [h w px]. cbn. f_equal.
    rewrite <- (map_id px) at 1. apply map_ext. intros row.
    symmetry. apply map_id.
  - rewrite IH. unfold map_image. cbn. f_equal.
    rewrite map_map. apply map_ext. intros row. apply map_map.
Qed.

Lemma all_pixels_map_image {P P'} (f : P -> P') (v : P) (img : image P) :
  all_pixels v img -> all_pixels (f v) (map_image f img).
Proof.
  unfold all_pixels, map_image. cbn [pixels]. intros Hall.
  apply List.Forall_forall. intros row Hrow.
  apply in_map_iff in Hrow as [row0 [<- Hrow0]].
  rewrite List.Forall_forall in Hall. specialize (Hall row0 Hrow0).
  apply List.Forall_forall. intros x Hx.
  apply in_map_iff in Hx as [x0 [<- Hx0]].
  rewrite List.Forall_forall in Hall. f_equal. apply Hall, Hx0.
Qed.

(** Assigning under a mask that holds at every pixel of the image. *)
Lemma all_pixels_mask_assign2 {P} (mask : nat -> nat -> bool) (v : P)
    (img : image P) :
  (forall r c, is_Some (get2 img r c) -> mask r c = true) ->
  all_pixels v (mask_assign2 mask v img).
Proof.
  intros Hmask. unfold all_pixels, mask_assign2. cbn [pixels].
  apply List.Forall_forall. intros row Hrow.
  apply list_elem_of_In, list_elem_of_lookup in Hrow as [r Hr].
  rewrite list_lookup_imap in Hr.
  destruct (pixels img !! r) as [row0|] eqn:Hrow0; [|discriminate].
  injection Hr as <-.
  apply List.Forall_forall. intros x Hx.
  apply list_elem_of_In, list_elem_of_lookup in Hx as [c Hc].
  rewrite list_lookup_imap in Hc.
  destruct (row0 !! c) as [px|] eqn:Hpx; [|discriminate].
  injection Hc as <-. rewrite Hmask; [reflexivity|].
  unfold get2. rewrite Hrow0, Hpx. eauto.
Qed.

Lemma label_img_to_rgb_constant (l : seg_label) (label_img : image Z) :
  In l SEG_LABELS_LIST ->
  height label_img <> 1 -> width label_img <> 1 ->
  all_pixels (label_id l) label_img ->
  exists out,
    label_img_to_rgb label_img = Ok out /\
    height out = height label_img /\ width out = width label_img /\
    length (pixels out) = length (pixels label_img) /\
    all_pixels (rgb_values l) out.
Proof.
  intros Hl Hh Hw Hall. unfold label_img_to_rgb.
  destruct (Nat.eqb_spec (height label_img) 1); [contradiction|].
  destruct (Nat.eqb_spec (width label_img) 1); [contradiction|].
  cbn [orb negb].
  pose proof SEG_LABELS_LIST_ids_unique as Huniq.
  pose proof SEG_LABELS_LIST_rgb_are_bytes as Hbytes.
  rewrite List.Forall_forall in Huniq, Hbytes.
  eexists. split; [reflexivity|].
  destruct (concat (pixels label_img)) as [|v0 rest] eqn:Hpix.
  - (* no pixel at all: no label is present and nothing is assigned *)
    assert (Hlabels : np_unique label_img = []).
    { destruct (np_unique label_img) as [|v t] eqn:Hu; [reflexivity|].
      assert (Hin : In v (np_unique label_img)) by (rewrite Hu; left; reflexivity).
      apply np_unique_In in Hin. rewrite Hpix in Hin. destruct Hin. }
    rewrite Hlabels.
    replace (List.filter (fun l0 => existsb (Z.eqb (label_id l0)) []) SEG_LABELS_LIST)
      with (@nil seg_label)
      by reflexivity.
    cbn [fold_left map_image height width pixels].
    rewrite !length_map. repeat split.
    unfold all_pixels, map_image. cbn [pixels]. rewrite map_map.
    apply List.Forall_forall. intros row Hrow.
    apply in_map_iff in Hrow as [row0 [<- Hrow0]].
    assert (row0 = []) as ->.
    { destruct row0 as [|x row0]; [reflexivity|].
      assert (Hin : In x (concat (pixels label_img)))
        by (apply in_concat; exists (x :: row0); split;
            [assumption | left; reflexivity]).
      rewrite Hpix in Hin. destruct Hin. }
    constructor.
  - (* the only label present is the one of the entry *)
    assert (Hfilter :
      List.filter (fun l0 => existsb (Z.eqb (label_id l0)) (np_unique label_img))
                  SEG_LABELS_LIST = [l]).
    { rewrite <- (Huniq l Hl). apply List.filter_ext. intros e.
      destruct (Z.eqb_spec (label_id e) (label_id l)) as [He | He].
      - apply existsb_exists. exists v0. split.
        + apply np_unique_In. rewrite Hpix. left. reflexivity.
        + apply Z.eqb_eq. rewrite He. symmetry.
          apply (all_pixels_concat _ label_img); [exact Hall|].
          rewrite Hpix. left. reflexivity.
      - apply not_true_is_false. intros Hex.
        apply existsb_exists in Hex as [v [Hv Heq]].
        apply np_unique_In in Hv.
        apply (all_pixels_concat _ label_img _ Hall) in Hv.
        apply Z.eqb_eq in Heq. congruence. }
    rewrite Hfilter. cbn [fold_left].
    split; [reflexivity|]. split; [reflexivity|]. split.
    { cbn [map_image mask_assign2 height width pixels].
      rewrite length_map, length_imap, length_map. reflexivity. }
    match goal with
    | |- all_pixels _ (map_image rgb_uint8 ?img) =>
        pose proof (all_pixels_map_image rgb_uint8 (rgb_values l) img) as Hu8
    end.
    rewrite (Hbytes l Hl) in Hu8. apply Hu8.
    apply all_pixels_mask_assign2. intros r c [px Hpx].
    unfold get2, map_image in Hpx. cbn [pixels] in Hpx.
    change (map ?g ?x) with (g <$> x) in Hpx.
    rewrite list_lookup_fmap in Hpx. unfold get2.
    destruct (pixels label_img !! r) as [row|] eqn:Hrow; [|discriminate].
    cbn [fmap option_fmap option_map] in Hpx.
    change (map ?g ?x) with (g <$> x) in Hpx.
    rewrite list_lookup_fmap in Hpx.
    destruct (row !! c) as [v|] eqn:Hv; [|discriminate].
    apply Z.eqb_eq.
    apply (all_pixels_concat _ label_img _ Hall).
    apply in_concat. exists row.
    split; apply list_elem_of_In, list_elem_of_lookup; eauto.
Qed.

Lemma target_labels_of_constant (l : seg_label) (target : image rgb) :
  In l SEG_LABELS_LIST ->
  all_pixels (rgb_values l) target ->
  height (target_labels_of target) = height target /\
  width (target_labels_of target) = width target /\
  length (pixels (target_labels_of target)) = length (pixels target) /\
  all_pixels (label_id l) (target_labels_of target).
Proof.
  intros Hl Hall. unfold target_labels_of.
  rewrite (fold_left_map_image relabel_pixel).
  cbn [map_image height width pixels]. rewrite !length_map.
  repeat split.
  pose proof SEG_LABELS_LIST_relabel as Hrel.
  rewrite List.Forall_forall in Hrel. rewrite <- (Hrel l Hl).
  apply (all_pixels_map_image (fun px : rgb => fst (fst px))
           (fold_left (fun p e => relabel_pixel e p) SEG_LABELS_LIST
                      (rgb_values l))
           (map_image _ target)).
  apply (all_pixels_map_image
           (fun px => fold_left (fun p e => relabel_pixel e p)
                                SEG_LABELS_LIST px)).
  exact Hall.
Qed.

(** C3 (amended).  For every entry (id, rgb) of the table: an id image
    whose pixels all equal id, and whose height and width both differ
    from 1, is converted by [label_img_to_rgb] to an image of the same size
    whose pixels all equal rgb; and the masking loop turns an RGB image
    whose pixels all equal rgb into an id image of the same size whose
    pixels all equal id. *)
Theorem seg_label_mappings_inverse (l : seg_label) :
  In l SEG_LABELS_LIST ->
  (forall label_img : image Z,
     height label_img <> 1 -> width label_img <> 1 ->
     all_pixels (label_id l) label_img ->
     exists out,
       label_img_to_rgb label_img = Ok out /\
       height out = height label_img /\ width out = width label_img /\
       length (pixels out) = length (pixels label_img) /\
       all_pixels (rgb_values l) out) /\
  (forall target : image rgb,
     all_pixels (rgb_values l) target ->
     height (target_labels_of target) = height target /\
     width (target_labels_of target) = width target /\
     length (pixels (target_labels_of target)) = length (pixels target) /\
     all_pixels (label_id l) (target_labels_of target)).
Proof.
  intros Hl. split.
  - intros label_img. apply label_img_to_rgb_constant. exact Hl.
  - intros target. apply target_labels_of_constant. exact Hl.
Qed.

(** ** The indexing protocol *)

Lemma slice_indices_bounds (start stop step : option Z) (n : Z) :
  (0 <= n)%Z -> step <> Some 0%Z ->
  exists a b c,
    slice_indices start stop step n = Ok (a, b, c) /\
    c = default 1%Z step /\ c <> 0%Z /\
    ((0 < c)%Z -> (0 <= a <= n)%Z /\ (0 <= b <= n)%Z) /\
    ((c < 0)%Z -> (-1 <= a <= n - 1)%Z /\ (-1 <= b <= n - 1)%Z).
Proof.
  intros Hn Hstep. unfold slice_indices.
  assert (Hc : default 1%Z step <> 0%Z).
  { destruct step as [c|]; cbn; [congruence | lia]. }
  destruct (Z.eqb_spec (default 1%Z step) 0); [contradiction|].
  do 3 eexists. split; [reflexivity|]. split; [reflexivity|].
  split; [exact Hc|].
  set (c := default 1%Z step) in *.
  split; intros Hsign.
  - destruct (Z.ltb_spec c 0); [lia|].
    split; [destruct start as [i|] | destruct stop as [i|]];
      try (destruct (Z.ltb_spec i 0)); lia.
  - destruct (Z.ltb_spec c 0); [|lia].
    split; [destruct start as [i|] | destruct stop as [i|]];
      try (destruct (Z.ltb_spec i 0)); lia.
Qed.

Lemma py_range_bounds (a b c n : Z) :
  ((0 < c)%Z -> (0 <= a <= n)%Z /\ (0 <= b <= n)%Z) ->
  ((c < 0)%Z -> (-1 <= a <= n - 1)%Z /\ (-1 <= b <= n - 1)%Z) ->
  c <> 0%Z ->
  Forall (fun i => (0 <= i < n)%Z) (py_range a b c).
Proof.
  intros Hpos Hneg Hc. unfold py_range. apply List.Forall_forall.
  intros i Hi. apply in_map_iff in Hi as [k [<- Hk]].
  apply in_seq in Hk. unfold range_len in Hk.
  destruct (Z.ltb_spec 0 c) as [Hc0 | Hc0].
  - destruct (Hpos Hc0) as [Ha Hb].
    destruct (Z.ltb_spec a b) as [Hab | Hab]; [|cbn in Hk; lia].
    assert (Hk' : (Z.of_nat k <= (b - 1 - a) / c)%Z) by lia.
    pose proof (Z.mul_div_le (b - 1 - a) c Hc0) as Hdiv.
    assert ((Z.of_nat k * c <= b - 1 - a)%Z) by nia. nia.
  - assert (Hc1 : (c < 0)%Z) by lia. destruct (Hneg Hc1) as [Ha Hb].
    destruct (Z.ltb_spec b a) as [Hab | Hab]; [|cbn in Hk; lia].
    assert (Hk' : (Z.of_nat k <= (a - 1 - b) / (- c))%Z) by lia.
    pose proof (Z.mul_div_le (a - 1 - b) (- c) ltac:(lia)) as Hdiv.
    assert ((Z.of_nat k * (- c) <= a - 1 - b)%Z) by nia. nia.
Qed.

Section GetItemFacts.
Context {S Sample : Type}.
Variable converts_numpy_integers : bool.
Variable len_self : result Z.
Variable get_item_from_index : Z -> M S Sample.
Variable n : Z.
Hypothesis len_is_n : len_self = Ok n.
Hypothesis n_nonneg : (0 <= n)%Z.

Lemma getitem_int_in_range (k : Z) (s : S) :
(0 <= k < n)%Z ->
getitem_int len_self get_item_from_index k s = get_item_from_index k s.
Proof using len_is_n.
intros Hk. unfold getitem_int. rewrite len_is_n. run_getitem_int.
Qed.

Lemma getitem_int_negative (k : Z) (s : S) :
(- n <= k < 0)%Z ->
getitem_int len_self get_item_from_index k s
  = get_item_from_index (k + n)%Z s.
Proof using len_is_n.
intros Hk. unfold getitem_int. rewrite len_is_n. run_getitem_int.
Qed.

Lemma getitem_int_out_of_range (k : Z) (s : S) :
(n <= k \/ k < - n)%Z ->
getitem_int len_self get_item_from_index k s = (Raise IndexError, s).
Proof using len_is_n n_nonneg.
intros Hk. unfold getitem_int. rewrite len_is_n. run_getitem_int.
Qed.

Lemma mapM_ext_in {A B} (f g : A -> M S B) (l : list A) :
(forall x s, In x l -> f x s = g x s) ->
forall s, mapM f l s = mapM g l s.
Proof using Type.
induction l as [|x l IH]; intros Hfg s; [reflexivity|].
cbn [mapM]. unfold bind. rewrite (Hfg x s (or_introl eq_refl)).
destruct (g x s) as [[y|e] s']; [|reflexivity].
rewrite IH; [reflexivity|]. intros x' s'' Hx'. apply Hfg. right. exact Hx'.
Qed.

Lemma getitem_slice (start stop step : option Z) (s : S) :
step <> Some 0%Z ->
exists a b c,
  slice_indices start stop step n = Ok (a, b, c) /\
  Forall (fun i => (0 <= i < n)%Z) (py_range a b c) /\
  getitem converts_numpy_integers len_self get_item_from_index
          (KSlice start stop step) s
    = bind (mapM get_item_from_index (py_range a b c))
           (fun samples => ret (inr samples)) s.
Proof using len_is_n n_nonneg.
intros Hstep.
destruct (slice_indices_bounds start stop step n n_nonneg Hstep)
  as (a & b & c & Hidx & _ & Hc & Hpos & Hneg).
pose proof (py_range_bounds a b c n Hpos Hneg Hc) as Hrange.
exists a, b, c. split; [exact Hidx|]. split; [exact Hrange|].
unfold getitem. unfold bind at 1, lift at 1. rewrite len_is_n.
unfold bind at 1, lift at 1. rewrite Hidx.
unfold bind. rewrite (mapM_ext_in _ get_item_from_index); [reflexivity|].
intros i s' Hi. rewrite <- len_is_n. apply getitem_int_in_range.
rewrite List.Forall_forall in Hrange. apply Hrange, Hi.
Qed.
End GetItemFacts.

(** C9 (amended).  For a dataset of any of the three classes with length
    n: an int key k with -n <= k < 0 gives what k + n gives; an int key
    with k >= n or k < -n raises IndexError; an int key in range gives the
    sample of that index; a slice (with a step other than 0) gives the list
    of the samples at the indices of [slice.indices(n)], all of which lie
    in range; [MSD_data_images] treats a NumPy integer key as the int of
    the same value; and a key that is not an int, a NumPy integer or a
    slice raises TypeError. *)
Theorem dataset_getitem_protocol {S Sample}
    (get_item_from_index : indexed_dataset -> Z -> M S Sample)
    (D : indexed_dataset) (n : Z) :
  dataset_len D = Ok n ->
  let getitem := dataset_getitem get_item_from_index D in
  (0 <= n)%Z /\
  (forall k s, (- n <= k < 0)%Z ->
     getitem (KInt k) s = getitem (KInt (k + n)%Z) s) /\
  (forall k s, (n <= k \/ k < - n)%Z ->
     getitem (KInt k) s = (Raise IndexError, s)) /\
  (forall k s, (0 <= k < n)%Z ->
     getitem (KInt k) s =
       bind (get_item_from_index D k) (fun sample => ret (inl sample)) s) /\
  (forall start stop step s, step <> Some 0%Z ->
     exists a b c,
       slice_indices start stop step n = Ok (a, b, c) /\
       Forall (fun i => (0 <= i < n)%Z) (py_range a b c) /\
       getitem (KSlice start stop step) s =
         bind (mapM (get_item_from_index D) (py_range a b c))
              (fun samples => ret (inr samples)) s) /\
  (forall k, converts_numpy_integer_keys D = true ->
     getitem (KNumpyInt k) = getitem (KInt k)) /\
  (forall s, getitem KOther s = (Raise TypeError, s)).
Proof.
  intros Hlen getitem0.
  assert (Hn : (0 <= n)%Z).
  { destruct D; cbn [dataset_len] in Hlen; unfold py_len in Hlen;
      match type of Hlen with
      | (if (?x <? 0)%Z then _ else _) = _ =>
          destruct (Z.ltb_spec x 0); [discriminate | injection Hlen as <-; lia]
      end. }
  subst getitem0. unfold dataset_getitem.
  split; [exact Hn|]. split; [|split; [|split; [|split; [|split]]]].
  - intros k s Hk. unfold getitem, bind.
    rewrite (getitem_int_negative _ _ n Hlen k s Hk).
    rewrite (getitem_int_in_range _ _ n Hlen (k + n)%Z s) by lia.
    reflexivity.
  - intros k s Hk. unfold getitem, bind.
    rewrite (getitem_int_out_of_range _ _ n Hlen Hn k s Hk). reflexivity.
  - intros k s Hk. unfold getitem, bind.
    rewrite (getitem_int_in_range _ _ n Hlen k s Hk). reflexivity.
  - intros start stop step s Hstep.
    apply (getitem_slice _ _ _ n Hlen Hn start stop step s Hstep).
  - intros k Hconv. unfold getitem. rewrite Hconv. reflexivity.
  - intros s. reflexivity.
Qed.

(** ** The theorems at concrete inputs *)

Lemma demo_label_foreground : foreground demo_label 0 1 1.
Proof.
  exists 1%Z. split; [split; [|reflexivity]|discriminate].
  unfold in_shape. cbn. lia.
Defined.

Lemma empty_label_no_foreground :
  forall r c z, ~ foreground empty_label r c z.
Proof.
  intros r c z [v [[_ Hget] Hv]]. unfold empty_label in Hget.
  rewrite get3_tabulate3 in Hget.
  destruct (_ && _ && _); [|discriminate]. congruence.
Defined.

Lemma resize_nearest_shape {A} (d : A) (a : ndarray3 A) (s : nat * nat * nat) :
  shape3 (resize_nearest d a s) = s.
Proof. destruct s as [[n0 n1] n2]. reflexivity. Defined.

(** The bounding box of [demo_label]. *)
Lemma bbox_dim_3D_minimal_enclosing_witness :
  (exists r c z, foreground demo_label r c z) /\
  exists rmin rmax cmin cmax zmin zmax : nat,
    bbox_dim_3D demo_label [] =
      (Ok (Some (Z.of_nat rmin, Z.of_nat rmax, Z.of_nat cmin, Z.of_nat cmax,
                 Z.of_nat zmin, Z.of_nat zmax)), []) /\
    (forall r c z, foreground demo_label r c z ->
       rmin <= r <= rmax /\ cmin <= c <= cmax /\ zmin <= z <= zmax) /\
    (exists c z, foreground demo_label rmin c z) /\
    (exists c z, foreground demo_label rmax c z) /\
    (exists r z, foreground demo_label r cmin z) /\
    (exists r z, foreground demo_label r cmax z) /\
    (exists r c, foreground demo_label r c zmin) /\
    (exists r c, foreground demo_label r c zmax).
Proof.
  assert (H : exists r c z, foreground demo_label r c z)
    by (exists 0, 1, 1; exact demo_label_foreground).
  split; [exact H|].
  exact (bbox_dim_3D_minimal_enclosing demo_label [] H).
Defined.

(** Cropping [demo_scan] around [demo_label] with height 2. *)
Lemma crop_volume_depth_window_witness :
  shape3 demo_scan = shape3 demo_label /\
  (exists r c z, foreground demo_label r c z) /\
  (0 <= 2)%Z /\
  exists (cropped_data : ndarray3 Q) (cropped_label : ndarray3 Z),
    crop_volume demo_scan demo_label 2 [] =
      (Ok (cropped_data, cropped_label), []) /\
    shape3 cropped_data = shape3 cropped_label.
Proof.
  assert (H : exists r c z, foreground demo_label r c z)
    by (exists 0, 1, 1; exact demo_label_foreground).
  split; [reflexivity|]. split; [exact H|]. split; [lia|].
  destruct (crop_volume_depth_window demo_scan demo_label 2 []
              eq_refl H ltac:(lia))
    as (rmin & rmax & cmin & cmax & zmin & zmax & cd & cl & _ & Hcrop &
        Hsd & Hsl & _).
  exists cd, cl. split; [exact Hcrop|]. rewrite Hsd, Hsl. reflexivity.
Defined.

(** No box for [empty_label]. *)
Lemma empty_label_has_no_box_and_raises_witness :
  (forall r c z, ~ foreground empty_label r c z) /\
  bbox_dim_3D empty_label [] = (Ok None, ["Warning Empty Label Mask"]) /\
  crop_volume demo_scan empty_label 16 [] =
    (Raise TypeError, ["Warning Empty Label Mask"]) /\
  crop_and_resize (resize_nearest 0%Q) (resize_nearest 0%Z) demo_msd
                  "pancreas_001.nii.gz" demo_scan empty_label [] =
    (Raise TypeError,
     ["Warning Empty Label Mask";
      "Couldn't generate a bounding box for the label in scan: pancreas_001.nii.gz"]).
Proof.
  destruct (empty_label_has_no_box_and_raises
              (resize_nearest 0%Q) (resize_nearest 0%Z) demo_msd
              "pancreas_001.nii.gz" demo_scan demo_scan empty_label 16 []
              empty_label_no_foreground) as (Hb & Hc & Hitem).
  split; [exact empty_label_no_foreground|].
  split; [exact Hb|]. split; [exact Hc|]. exact (Hitem eq_refl).
Defined.

(** Cropping and resizing the demo pair. *)
Lemma crop_then_resize_shapes_agree_witness :
  (forall (a : ndarray3 Q) s, shape3 (resize_nearest 0%Q a s) = s) /\
  (forall (a : ndarray3 Z) s, shape3 (resize_nearest 0%Z a s) = s) /\
  shape3 demo_scan = shape3 demo_label /\
  (exists r c z, foreground demo_label r c z) /\
  exists cropped_scan cropped_label,
    crop_volume demo_scan demo_label (crop_height demo_msd) [] =
      (Ok (cropped_scan, cropped_label), []) /\
    shape3 cropped_scan = shape3 cropped_label /\
    shape3 (resize_nearest 0%Q cropped_scan
              (res demo_msd, res demo_msd, res_z demo_msd))
      = (res demo_msd, res demo_msd, res_z demo_msd) /\
    shape3 (astype_uint8
              (resize_nearest 0%Z cropped_label
                 (res demo_msd, res demo_msd, res_z demo_msd)))
      = (res demo_msd, res demo_msd, res_z demo_msd).
Proof.
  assert (H : exists r c z, foreground demo_label r c z)
    by (exists 0, 1, 1; exact demo_label_foreground).
  split; [exact (resize_nearest_shape 0%Q)|].
  split; [exact (resize_nearest_shape 0%Z)|].
  split; [reflexivity|]. split; [exact H|].
  exact (crop_then_resize_shapes_agree
           (resize_nearest 0%Q) (resize_nearest 0%Z)
           (resize_nearest_shape 0%Q) (resize_nearest_shape 0%Z)
           demo_msd demo_scan demo_label [] eq_refl H).
Defined.

(** The label for the box 0:1, 1:2, 1:3 in a 3 x 3 x 4 volume. *)
Lemma create_3D_label_half_open_box_witness :
  exists label : ndarray3 Z,
    create_3D_label 0 1 1 2 1 3 3 4 = Ok label /\
    wf3 label = true /\
    get3 label 0 1 1 = Some 1%Z /\ get3 label 0 1 2 = Some 1%Z /\
    get3 label 1 1 1 = Some 0%Z /\ get3 label 0 2 1 = Some 0%Z /\
    get3 label 0 1 3 = Some 0%Z.
Proof.
  destruct (create_3D_label_half_open_box 0 1 1 2 1 3 3 4
              ltac:(lia) ltac:(lia) ltac:(lia) ltac:(lia) ltac:(lia)
              ltac:(lia)) as (label & Hrun & Hwf & _).
  exists label. split; [exact Hrun|]. split; [exact Hwf|].
  injection Hrun as <-. repeat split; reflexivity.
Defined.

(** The entry "cow" in both directions, on 2 x 2 images. *)
Lemma seg_label_mappings_inverse_witness :
  In (SegLabel 3 "cow" (0, 0, 128)%Z) SEG_LABELS_LIST /\
  (exists out,
     label_img_to_rgb (Image 2 2 [[3; 3]; [3; 3]]%Z) = Ok out /\
     all_pixels (0, 0, 128)%Z out) /\
  all_pixels 3%Z
    (target_labels_of
       (Image 2 2 [[(0, 0, 128); (0, 0, 128)]; [(0, 0, 128); (0, 0, 128)]]%Z)).
Proof.
  assert (Hin : In (SegLabel 3 "cow" (0, 0, 128)%Z) SEG_LABELS_LIST)
    by (do 3 right; left; reflexivity).
  destruct (seg_label_mappings_inverse _ Hin) as [Hto Hfrom].
  split; [exact Hin|]. split.
  - destruct (Hto (Image 2 2 [[3; 3]; [3; 3]]%Z))
      as (out & Hrun & _ & _ & _ & Hall).
    + cbn. lia.
    + cbn. lia.
    + repeat constructor.
    + exists out. split; [exact Hrun | exact Hall].
  - apply Hfrom. repeat constructor.
Defined.

(** C3 as stated fails: the 1 x 1 image holding id 0 has all its pixels
    equal to the id of "building", but squeezing leaves no axes and the
    conversion raises instead of returning an image. *)
Lemma label_img_to_rgb_fails_on_single_pixel :
  In (SegLabel 0 "building" (128, 0, 0)%Z) SEG_LABELS_LIST /\
  all_pixels 0%Z (Image 1 1 [[0%Z]]) /\
  label_img_to_rgb (Image 1 1 [[0%Z]]) = Raise ValueError /\
  ~ (forall l, In l SEG_LABELS_LIST ->
     forall label_img : image Z,
       all_pixels (label_id l) label_img ->
       exists out, label_img_to_rgb label_img = Ok out /\
                   all_pixels (rgb_values l) out).
Proof.
  assert (Hin : In (SegLabel 0 "building" (128, 0, 0)%Z) SEG_LABELS_LIST)
    by (left; reflexivity).
  assert (Hall : all_pixels 0%Z (Image 1 1 [[0%Z]])) by (repeat constructor).
  split; [exact Hin|]. split; [exact Hall|]. split; [reflexivity|].
  intros Hclaim.
  destruct (Hclaim _ Hin (Image 1 1 [[0%Z]]) Hall) as (out & Hrun & _).
  discriminate Hrun.
Qed.

(** Statistics of [demo_dataset] without a privacy budget. *)
Lemma calc_mean_std_without_epsilon_is_plain_witness :
  kind demo_dataset = Dataset /\
  mapM_result unwrap (items demo_dataset) = Ok demo_tensors /\
  demo_tensors <> [] /\
  Forall (fun t => tshape t = [3; 2]) demo_tensors /\
  [3; 2] <> [] /\
  exists accumulated dims,
    stack demo_tensors = Ok accumulated /\
    reduction_dims (tshape accumulated) = Ok dims /\
    calc_mean_std (fun _ => 0%Z) (fun _ => 0%Z) demo_std_mean
      (fun t _ => t) 0%Z Z.gtb Z.div (fun x => negb (x =? 0)%Z)
      (fun scale (g : nat) => (scale, S g)) demo_dataset None None
      (World 0 [])
    = (Ok (snd (demo_std_mean accumulated dims),
           fst (demo_std_mean accumulated dims)), World 0 []).
Proof.
  assert (Hall : Forall (fun t : @tensor Z => tshape t = [3; 2]) demo_tensors)
    by (repeat constructor).
  assert (Hne : demo_tensors <> []) by discriminate.
  assert (Hs : [3; 2] <> @nil nat) by discriminate.
  split; [reflexivity|]. split; [reflexivity|]. split; [exact Hne|].
  split; [exact Hall|]. split; [exact Hs|].
  destruct (calc_mean_std_without_epsilon_is_plain
              (fun _ => 0%Z) (fun _ => 0%Z) demo_std_mean
              (fun t _ => t) 0%Z Z.gtb Z.div (fun x => negb (x =? 0)%Z)
              (fun scale (g : nat) => (scale, S g))
              demo_dataset demo_tensors [3; 2] (World 0 [])
              eq_refl eq_refl Hne Hall Hs)
    as (acc & dims & Hstack & _ & _ & Hdims & _ & _ & Hrun & _).
  exists acc, dims. split; [exact Hstack|]. split; [exact Hdims|]. exact Hrun.
Defined.

(** Preprocessing [demo_scan]. *)
Lemma preprocess_scan_clips_and_normalizes_witness :
  wf3 demo_scan = true /\
  exists out : ndarray3 Q,
    preprocess_scan demo_scan = Ok out /\
    shape3 out = (3, 2, 4) /\
    (exists i j k v, voxel out i j k v /\ (v == 0)%Q) /\
    (exists i j k v, voxel out i j k v /\ (v == 1)%Q).
Proof.
  split; [reflexivity|].
  assert (Hne : exists x y, In x (flatten3 demo_scan) /\
                            In y (flatten3 demo_scan) /\
                            ~ (clip1 (-150 # 1) (200 # 1) x
                                 == clip1 (-150 # 1) (200 # 1) y)%Q).
  { exists (-300 # 1)%Q, 0%Q. split; [left; reflexivity|].
    split; [right; left; reflexivity|]. intros H. discriminate H. }
  destruct (preprocess_scan_clips_and_normalizes demo_scan eq_refl Hne)
    as (out & mn & mx & _ & _ & _ & _ & Hrun & Hshape & _ & H0 & H1 & _).
  exists out. split; [exact Hrun|]. split; [exact Hshape|].
  split; [exact H0 | exact H1].
Defined.

(** Indexing a two-image dataset. *)
Lemma dataset_getitem_protocol_witness :
  dataset_len (Of_MSD_data_images demo_images) = Ok 2%Z /\
  dataset_getitem demo_get_item (Of_MSD_data_images demo_images)
                  (KInt (-1)) tt = (Ok (inl 1%Z), tt) /\
  dataset_getitem demo_get_item (Of_MSD_data_images demo_images)
                  (KInt 2) tt = (Raise IndexError, tt) /\
  dataset_getitem demo_get_item (Of_MSD_data_images demo_images)
                  KOther tt = (Raise TypeError, tt).
Proof.
  destruct (dataset_getitem_protocol demo_get_item
              (Of_MSD_data_images demo_images) 2 eq_refl)
    as (_ & Hneg & Hout & Hin & _ & _ & Hother).
  split; [reflexivity|]. split; [|split].
  - rewrite (Hneg (-1)%Z tt ltac:(lia)). rewrite (Hin (-1 + 2)%Z tt ltac:(lia)).
    reflexivity.
  - apply Hout. lia.
  - apply Hother.
Defined.

(** C9 as stated fails on NumPy integer keys, whichever way they are
    counted.  [MSD_data_images] converts such a key and returns the sample,
    so a key that is neither an int nor a slice does not always raise
    TypeError; [MSD_data] and [SegmentationData] raise TypeError on the
    same key, so an integer valued key in range does not always give a
    sample. *)
Lemma numpy_integer_keys_divide_the_classes :
  dataset_len (Of_MSD_data_images demo_images) = Ok 2%Z /\
  dataset_len (Of_SegmentationData demo_segmentation) = Ok 2%Z /\
  dataset_len (Of_MSD_data demo_msd) = Ok 1%Z /\
  dataset_getitem demo_get_item (Of_MSD_data_images demo_images)
                  (KNumpyInt 0) tt = (Ok (inl 0%Z), tt) /\
  dataset_getitem demo_get_item (Of_SegmentationData demo_segmentation)
                  (KNumpyInt 0) tt = (Raise TypeError, tt) /\
  dataset_getitem demo_get_item (Of_MSD_data demo_msd)
                  (KNumpyInt 0) tt = (Raise TypeError, tt) /\
  ~ (forall (D : indexed_dataset) (key : key) (s : unit),
       (forall k, key <> KInt k) ->
       (forall start stop step, key <> KSlice start stop step) ->
       dataset_getitem demo_get_item D key s = (Raise TypeError, s)).
Proof.
  repeat (split; [reflexivity|]).
  intros Hclaim.
  specialize (Hclaim (Of_MSD_data_images demo_images) (KNumpyInt 0) tt).
  discriminate Hclaim; intros; discriminate.
Qed.

(** * Further properties of the code *)

(** ** Well-formedness and equality of arrays *)

Lemma wf3_iff {A} (a : ndarray3 A) :
  wf3 a = true <->
  length (cells a) = dim0 a /\
  Forall (fun plane => length plane = dim1 a /\
                       Forall (fun row => length row = dim2 a) plane)
         (cells a).
Proof.
  unfold wf3. rewrite andb_true_iff, Nat.eqb_eq, forallb_forall.
  rewrite List.Forall_forall. split; intros [H0 Hp]; (split; [exact H0|]);
    intros plane Hin; specialize (Hp plane Hin).
  - rewrite andb_true_iff, Nat.eqb_eq, forallb_forall in Hp.
    destruct Hp as [H1 Hr]. split; [exact H1|].
    apply List.Forall_forall. intros row Hrow. apply Nat.eqb_eq, Hr, Hrow.
  - destruct Hp as [H1 Hr]. rewrite List.Forall_forall in Hr.
    rewrite andb_true_iff, Nat.eqb_eq, forallb_forall. split; [exact H1|].
    intros row Hrow. apply Nat.eqb_eq, Hr, Hrow.
Qed.

Lemma wf3_of_lookups {A} (a : ndarray3 A) :
  length (cells a) = dim0 a ->
  (forall r plane, cells a !! r = Some plane ->
     length plane = dim1 a /\
     forall c row, plane !! c = Some row -> length row = dim2 a) ->
  wf3 a = true.
Proof.
  intros H0 Hp. apply wf3_iff. split; [exact H0|].
  apply List.Forall_forall. intros plane Hin.
  apply list_elem_of_In, list_elem_of_lookup in Hin as [r Hr].
  destruct (Hp r plane Hr) as [H1 Hrows]. split; [exact H1|].
  apply List.Forall_forall. intros row Hin.
  apply list_elem_of_In, list_elem_of_lookup in Hin as [c Hc]. eauto.
Qed.

Lemma wf3_tabulate3 {A} (n0 n1 n2 : nat) (f : nat -> nat -> nat -> A) :
  wf3 (tabulate3 n0 n1 n2 f) = true.
Proof.
  apply wf3_of_lookups; unfold tabulate3; cbn [cells dim0 dim1 dim2].
  - rewrite length_map. apply length_seq.
  - intros r plane Hr. rewrite lookup_map_seq in Hr.
    destruct (r <? n0); [|discriminate]. injection Hr as <-.
    split; [rewrite length_map; apply length_seq|].
    intros c row Hc. rewrite lookup_map_seq in Hc.
    destruct (c <? n1); [|discriminate]. injection Hc as <-.
    rewrite length_map. apply length_seq.
Qed.

Lemma wf3_mask_assign {A} (mask : nat -> nat -> nat -> bool) (v : A)
    (a : ndarray3 A) :
  wf3 a = true -> wf3 (mask_assign mask v a) = true.
Proof.
  intros Hwf. destruct (wf3_planes a Hwf) as [H0 Hp].
  apply wf3_of_lookups; unfold mask_assign; cbn [cells dim0 dim1 dim2].
  - rewrite length_imap. exact H0.
  - intros r plane Hr. rewrite list_lookup_imap in Hr.
    destruct (cells a !! r) as [p|] eqn:Hpr; [|discriminate].
    injection Hr as <-. destruct (Hp r p Hpr) as [H1 Hrows].
    split; [rewrite length_imap; exact H1|].
    intros c row Hc. rewrite list_lookup_imap in Hc.
    destruct (p !! c) as [rw|] eqn:Hrw; [|discriminate].
    injection Hc as <-. rewrite length_imap. eauto.
Qed.

(** Two well-formed arrays of one shape with the same cells are equal. *)
Lemma ndarray3_ext {A} (a b : ndarray3 A) :
  wf3 a = true -> wf3 b = true -> shape3 a = shape3 b ->
  (forall r c z, in_shape a r c z -> get3 a r c z = get3 b r c z) ->
  a = b.
Proof.
  intros Ha Hb Hshape Hget.
  destruct (wf3_planes a Ha) as [Ha0 Hap].
  destruct (wf3_planes b Hb) as [Hb0 Hbp].
  destruct a as [a0 a1 a2 ca], b as [b0 b1 b2 cb].
  unfold shape3 in Hshape. cbn [dim0 dim1 dim2 cells] in *.
  injection Hshape as -> -> ->. f_equal.
  apply list_eq. intros r.
  destruct (ca !! r) as [pa|] eqn:Hpa.
  - assert (Hr : r < b0) by (apply lookup_lt_Some in Hpa; lia).
    destruct (lookup_lt_is_Some_2 cb r ltac:(lia)) as [pb Hpb].
    rewrite Hpb. f_equal. destruct (Hap r pa Hpa) as [Hla Hra].
    destruct (Hbp r pb Hpb) as [Hlb Hrb].
    apply list_eq. intros c.
    destruct (pa !! c) as [ra|] eqn:Hrowa.
    + assert (Hc : c < b1) by (apply lookup_lt_Some in Hrowa; lia).
      destruct (lookup_lt_is_Some_2 pb c ltac:(lia)) as [rb Hrowb].
      rewrite Hrowb. f_equal. apply list_eq. intros z.
      destruct (Nat.lt_ge_cases z b2) as [Hz | Hz].
      * specialize (Hget r c z (conj Hr (conj Hc Hz))).
        unfold get3 in Hget. cbn [cells] in Hget.
        rewrite Hpa, Hpb, Hrowa, Hrowb in Hget. exact Hget.
      * rewrite !lookup_ge_None_2; [reflexivity| |].
        -- rewrite (Hrb c rb Hrowb). exact Hz.
        -- rewrite (Hra c ra Hrowa). exact Hz.
    + symmetry. apply lookup_ge_None_2. apply lookup_ge_None_1 in Hrowa. lia.
  - symmetry. apply lookup_ge_None_2. apply lookup_ge_None_1 in Hpa. lia.
Qed.

(** ** [merge_labels] *)

Lemma wf3_merge_labels (label : ndarray3 Z) : wf3 (merge_labels label) = true.
Proof.
  unfold merge_labels. apply wf3_mask_assign, wf3_mask_assign, wf3_tabulate3.
Qed.

(** X1. [merge_labels] returns a well-formed array of the shape of its
    input that holds 1 exactly where the input holds 1 or 2 and 0 at every
    other voxel, whatever other label value was there. *)
Theorem merge_labels_is_indicator_of_1_and_2 (label : ndarray3 Z) :
  wf3 label = true ->
  wf3 (merge_labels label) = true /\
  shape3 (merge_labels label) = shape3 label /\
  forall r c z, in_shape label r c z ->
    exists v,
      get3 label r c z = Some v /\
      ((v = 1%Z \/ v = 2%Z) -> get3 (merge_labels label) r c z = Some 1%Z) /\
      (v <> 1%Z -> v <> 2%Z -> get3 (merge_labels label) r c z = Some 0%Z).
Proof.
  intros Hwf. split; [apply wf3_merge_labels|]. split; [reflexivity|].
  intros r c z Hs.
  destruct (proj2 (wf3_get3_in_shape label r c z Hwf) Hs) as [v Hv].
  exists v. split; [exact Hv|].
  rewrite (get3_merge_labels label r c z Hs). unfold cell_is. rewrite Hv.
  split.
  - intros [-> | ->]; reflexivity.
  - intros H1 H2. destruct (Z.eqb_spec v 2); [contradiction|].
    destruct (Z.eqb_spec v 1); [contradiction|]. reflexivity.
Qed.

(** X2. Merging twice is merging once. *)
Theorem merge_labels_idempotent (label : ndarray3 Z) :
  merge_labels (merge_labels label) = merge_labels label.
Proof.
  apply ndarray3_ext; try apply wf3_merge_labels; [reflexivity|].
  intros r c z Hs.
  assert (Hs' : in_shape label r c z) by exact Hs.
  assert (Hs'' : in_shape (merge_labels label) r c z) by exact Hs.
  rewrite (get3_merge_labels (merge_labels label) r c z Hs'').
  unfold cell_is at 1 2. rewrite (get3_merge_labels label r c z Hs').
  destruct (cell_is label 2 r c z); [reflexivity|].
  destruct (cell_is label 1 r c z); reflexivity.
Qed.

(** ** Rotation and flip of labels *)






(** ** Preprocessing a scan together with its label *)

Lemma preprocess_scan_run (scan : ndarray3 Q) :
  (exists x y, In x (flatten3 scan) /\ In y (flatten3 scan) /\
               ~ (clip1 (-150 # 1) (200 # 1) x
                    == clip1 (-150 # 1) (200 # 1) y)%Q) ->
  exists mn mx,
    arr_min (np_clip scan (-150 # 1) (200 # 1)) = Ok mn /\
    arr_max (np_clip scan (-150 # 1) (200 # 1)) = Ok mx /\
    (mn < mx)%Q /\
    preprocess_scan scan =
      Ok (fliplr (rot90 (map3 (fun x => (x - mn) / (mx - mn))%Q
                              (np_clip scan (-150 # 1) (200 # 1))))).
Proof.
  intros (x0 & y0 & Hx0 & Hy0 & Hne).
  set (clipped := np_clip scan (-150 # 1) (200 # 1)).
  assert (Hcx : In (clip1 (-150 # 1) (200 # 1) x0) (flatten3 clipped))
    by (apply In_flatten3_np_clip; eauto).
  assert (Hcy : In (clip1 (-150 # 1) (200 # 1) y0) (flatten3 clipped))
    by (apply In_flatten3_np_clip; eauto).
  destruct (arr_max_spec clipped _ Hcx) as (mx & Hmx & _ & Hub).
  destruct (arr_min_spec clipped _ Hcx) as (mn & Hmn & _ & Hlb).
  assert (Hlt : (mn < mx)%Q).
  { apply Qnot_le_lt. intros Hle. apply Hne. apply Qle_antisym.
    - eapply Qle_trans; [apply Hub, Hcx|].
      eapply Qle_trans; [exact Hle | apply Hlb, Hcy].
    - eapply Qle_trans; [apply Hub, Hcy|].
      eapply Qle_trans; [exact Hle | apply Hlb, Hcx]. }
  exists mn, mx. split; [exact Hmn|]. split; [exact Hmx|].
  split; [exact Hlt|]. unfold preprocess_scan. fold clipped.
  rewrite (proj1 (scale_array_run clipped mx mn Hmx Hmn) Hlt). reflexivity.
Qed.


(** When the shapes differ the assertion after preprocessing fails. *)
Lemma preprocess_and_convert_shape_mismatch (np_scan : ndarray3 Q)
    (np_label : ndarray3 Z) :
  shape3 np_scan <> shape3 np_label ->
  (exists x y, In x (flatten3 np_scan) /\ In y (flatten3 np_scan) /\
               ~ (clip1 (-150 # 1) (200 # 1) x
                    == clip1 (-150 # 1) (200 # 1) y)%Q) ->
  preprocess_and_convert_to_numpy np_scan np_label = Raise AssertionError.
Proof.
  intros Hshape Hne.
  destruct (preprocess_scan_run np_scan Hne) as (mn & mx & _ & _ & _ & Hrun).
  unfold preprocess_and_convert_to_numpy. rewrite Hrun.
  destruct (decide _) as [He | _]; [|reflexivity].
  exfalso. apply Hshape. unfold shape3, rotate_label in *.
  cbn [fliplr rot90 dim0 dim1 dim2 map3 np_clip] in He. congruence.
Qed.

Lemma clip1_low (x : Q) :
  (x <= -150 # 1)%Q -> clip1 (-150 # 1) (200 # 1) x = (-150 # 1)%Q.
Proof.
  intros Hx. unfold clip1, Qmaxb.
  apply Qle_bool_iff in Hx. rewrite Hx. reflexivity.
Qed.

Lemma clip1_high (x : Q) :
  (200 # 1 <= x)%Q -> (clip1 (-150 # 1) (200 # 1) x == 200 # 1)%Q.
Proof.
  intros Hx. unfold clip1, Qmaxb, Qminb.
  destruct (Qle_bool x (-150 # 1)) eqn:Hlo.
  - apply Qle_bool_iff in Hlo. exfalso.
    assert (H : (200 # 1 <= -150 # 1)%Q) by (eapply Qle_trans; eassumption).
    unfold Qle in H. cbn in H. lia.
  - destruct (Qle_bool x (200 # 1)) eqn:Hhi; [|reflexivity].
    apply Qle_bool_iff in Hhi. apply Qle_antisym; assumption.
Qed.

Lemma preprocess_scan_constant (scan : ndarray3 Q) :
  flatten3 scan <> [] ->
  (forall x y, In x (flatten3 scan) -> In y (flatten3 scan) ->
     (clip1 (-150 # 1) (200 # 1) x == clip1 (-150 # 1) (200 # 1) y)%Q) ->
  preprocess_scan scan = Raise AssertionError.
Proof.
  intros Hne Hconst.
  destruct (flatten3 scan) as [|x0 rest] eqn:Hflat; [congruence|].
  set (clipped := np_clip scan (-150 # 1) (200 # 1)).
  assert (Hcx : In (clip1 (-150 # 1) (200 # 1) x0) (flatten3 clipped)).
  { apply In_flatten3_np_clip. exists x0. rewrite Hflat.
    split; [left|]; reflexivity. }
  destruct (arr_max_spec clipped _ Hcx) as (mx & Hmx & Hmx_in & _).
  destruct (arr_min_spec clipped _ Hcx) as (mn & Hmn & Hmn_in & _).
  apply In_flatten3_np_clip in Hmx_in as (a & Ha & ->).
  apply In_flatten3_np_clip in Hmn_in as (b & Hb & ->).
  unfold preprocess_scan. fold clipped.
  rewrite (proj2 (scale_array_run clipped _ _ Hmx Hmn)); [reflexivity|].
  intros Hlt. rewrite Hflat in Ha, Hb.
  rewrite (Hconst b a Hb Ha) in Hlt. exact (Qlt_irrefl _ Hlt).
Qed.

(** X6. A non-empty scan that is flat after clipping is rejected by the
    assertion of [scale_array]: this is so when every intensity is at most
    -150, when every intensity is at least 200, and whenever all clipped
    values agree. *)
Theorem preprocess_scan_rejects_flat_scans (scan : ndarray3 Q) :
  flatten3 scan <> [] ->
  (forall x, In x (flatten3 scan) -> (x <= -150 # 1)%Q) \/
  (forall x, In x (flatten3 scan) -> (200 # 1 <= x)%Q) \/
  (forall x y, In x (flatten3 scan) -> In y (flatten3 scan) ->
     (clip1 (-150 # 1) (200 # 1) x == clip1 (-150 # 1) (200 # 1) y)%Q) ->
  preprocess_scan scan = Raise AssertionError.
Proof.
  intros Hne [Hlow | [Hhigh | Hconst]];
    apply preprocess_scan_constant; try assumption; intros x y Hx Hy.
  - rewrite (clip1_low x (Hlow x Hx)), (clip1_low y (Hlow y Hy)).
    reflexivity.
  - rewrite (clip1_high x (Hhigh x Hx)), (clip1_high y (Hhigh y Hy)).
    reflexivity.
Qed.

(** ** Labels made from a bounding box *)

Lemma get2_mask_assign2 {P} (mask : nat -> nat -> bool) (v : P)
    (img : image P) (r c : nat) :
  get2 (mask_assign2 mask v img) r c =
    (fun px => if mask r c then v else px) <$> get2 img r c.
Proof.
  unfold get2, mask_assign2. cbn [pixels]. rewrite list_lookup_imap.
  destruct (pixels img !! r) as [row|]; [|reflexivity]. cbn.
  apply list_lookup_imap.
Qed.

(** X7. With all bounds inside the image, [create_2D_label] returns a
    res x res image that is 1 exactly on the half-open box
    [rmin, rmax) x [cmin, cmax) and 0 elsewhere. *)
Theorem create_2D_label_half_open_box (rmin rmax cmin cmax res : Z) :
  (0 <= rmin <= res)%Z -> (0 <= rmax <= res)%Z ->
  (0 <= cmin <= res)%Z -> (0 <= cmax <= res)%Z ->
  exists label : image Z,
    create_2D_label rmin rmax cmin cmax res = Ok label /\
    (Z.of_nat (height label), Z.of_nat (width label)) = (res, res) /\
    length (pixels label) = height label /\
    Forall (fun row => length row = width label) (pixels label) /\
    forall r c, r < height label -> c < width label ->
      ((rmin <= Z.of_nat r < rmax)%Z /\ (cmin <= Z.of_nat c < cmax)%Z ->
       get2 label r c = Some 1%Z) /\
      (~ ((rmin <= Z.of_nat r < rmax)%Z /\ (cmin <= Z.of_nat c < cmax)%Z) ->
       get2 label r c = Some 0%Z).
Proof.
  intros Hr0 Hr1 Hc0 Hc1. unfold create_2D_label, np_zeros2.
  destruct (Z.ltb_spec res 0); [lia|]. cbn [orb].
  set (zeros := Image (Z.to_nat res) (Z.to_nat res)
                  (map (fun _ => map (fun _ => 0%Z) (seq 0 (Z.to_nat res)))
                       (seq 0 (Z.to_nat res)))).
  set (mask := fun r c => in_slice rmin rmax (height zeros) r &&
                          in_slice cmin cmax (width zeros) c).
  exists (mask_assign2 mask 1%Z zeros). split; [reflexivity|].
  split; [cbn; rewrite !Z2Nat.id by lia; reflexivity|].
  split; [cbn; rewrite length_imap, length_map; apply length_seq|]. split.
  - apply List.Forall_forall. intros row Hin.
    apply list_elem_of_In, list_elem_of_lookup in Hin as [i Hi].
    cbn [mask_assign2 pixels zeros] in Hi.
    rewrite list_lookup_imap, lookup_map_seq in Hi.
    destruct (i <? Z.to_nat res); [|discriminate]. cbn in Hi.
    injection Hi as <-. rewrite length_imap, length_map. apply length_seq.
  - intros r c Hr Hc. cbn [mask_assign2 height width zeros] in Hr, Hc.
    rewrite !get2_mask_assign2. unfold get2. cbn [pixels zeros].
    rewrite lookup_map_seq. apply Nat.ltb_lt in Hr. rewrite Hr.
    rewrite lookup_map_seq. apply Nat.ltb_lt in Hc. rewrite Hc.
    cbn [fmap option_fmap option_map].
    assert (Hbox : mask r c = true <->
                   (rmin <= Z.of_nat r < rmax)%Z /\
                   (cmin <= Z.of_nat c < cmax)%Z).
    { subst mask. cbn [height width zeros].
      rewrite andb_true_iff, !in_slice_nonneg by lia. tauto. }
    split; intros Hb.
    + rewrite (proj2 Hbox Hb). reflexivity.
    + destruct (mask r c) eqn:Hm; [|reflexivity].
      exfalso. apply Hb, Hbox. reflexivity.
Qed.

(** The cells of a bounding-box label, for arbitrary bounds. *)
Lemma create_3D_label_cells
    (rmin rmax cmin cmax zmin zmax : Z) (res num_slices : nat) :
  exists label : ndarray3 Z,
    create_3D_label rmin rmax cmin cmax zmin zmax
                    (Z.of_nat res) (Z.of_nat num_slices) = Ok label /\
    wf3 label = true /\
    shape3 label = (res, res, num_slices) /\
    forall r c z, in_shape label r c z ->
      get3 label r c z =
        Some (if in_slice rmin rmax res r && in_slice cmin cmax res c &&
                 in_slice zmin zmax num_slices z
              then 1%Z else 0%Z).
Proof.
  unfold create_3D_label, np_zeros3.
  destruct (Z.ltb_spec (Z.of_nat res) 0); [lia|].
  destruct (Z.ltb_spec (Z.of_nat num_slices) 0); [lia|]. cbn [orb].
  rewrite !Nat2Z.id. eexists. split; [reflexivity|].
  split; [apply wf3_mask_assign, wf3_tabulate3|].
  split; [reflexivity|].
  intros r c z (Hr & Hc & Hz).
  cbn [assign_slice3 mask_assign tabulate3 dim0 dim1 dim2] in Hr, Hc, Hz.
  unfold assign_slice3. rewrite get3_mask_assign, get3_tabulate3.
  cbn [dim0 dim1 dim2 tabulate3].
  apply Nat.ltb_lt in Hr, Hc, Hz. rewrite Hr, Hc, Hz. reflexivity.
Qed.

Lemma in_slice_empty (lo : Z) (n i : nat) : in_slice lo lo n i = false.
Proof.
  unfold in_slice. destruct (Nat.leb_spec (slice_bound lo n) i);
    destruct (Nat.ltb_spec i (slice_bound lo n)); try reflexivity; lia.
Qed.

(** X8. The bounding box of the label made from a non-empty box inside
    the array is that box with inclusive upper bounds:
    (rmin, rmax - 1, cmin, cmax - 1, zmin, zmax - 1). *)
Theorem bbox_of_create_3D_label
    (rmin rmax cmin cmax zmin zmax : Z) (res num_slices : nat)
    (out : list string) :
  (0 <= rmin < rmax)%Z -> (rmax <= Z.of_nat res)%Z ->
  (0 <= cmin < cmax)%Z -> (cmax <= Z.of_nat res)%Z ->
  (0 <= zmin < zmax)%Z -> (zmax <= Z.of_nat num_slices)%Z ->
  exists label,
    create_3D_label rmin rmax cmin cmax zmin zmax
                    (Z.of_nat res) (Z.of_nat num_slices) = Ok label /\
    bbox_dim_3D label out =
      (Ok (Some (rmin, rmax - 1, cmin, cmax - 1, zmin, zmax - 1)%Z), out).
Proof.
  intros Hr Hr' Hc Hc' Hz Hz'.
  destruct (create_3D_label_cells rmin rmax cmin cmax zmin zmax res num_slices)
    as (label & Hrun & Hwf & Hshape & Hcells).
  exists label. split; [exact Hrun|].
  unfold shape3 in Hshape. injection Hshape as H0 H1 H2.
  assert (Hfg : forall r c z, foreground label r c z <->
            in_shape label r c z /\
            in_box rmin rmax cmin cmax zmin zmax r c z).
  { intros r c z. split.
    - intros [v [[Hs Hget] Hv]]. split; [exact Hs|].
      rewrite (Hcells r c z Hs) in Hget.
      destruct (_ && _ && _) eqn:Hm; [|congruence].
      rewrite !andb_true_iff, !in_slice_nonneg in Hm by lia.
      unfold in_box. tauto.
    - intros [Hs Hb]. exists 1%Z. split; [split; [exact Hs|]|discriminate].
      rewrite (Hcells r c z Hs).
      replace (_ && _ && _) with true; [reflexivity|]. symmetry.
      rewrite !andb_true_iff, !in_slice_nonneg by lia.
      unfold in_box in Hb. tauto. }
  assert (Hlow : foreground label (Z.to_nat rmin) (Z.to_nat cmin)
                            (Z.to_nat zmin)).
  { apply Hfg. unfold in_shape, in_box. lia. }
  assert (Hhigh : foreground label (Z.to_nat (rmax - 1)) (Z.to_nat (cmax - 1))
                             (Z.to_nat (zmax - 1))).
  { apply Hfg. unfold in_shape, in_box. lia. }
  assert (Hl12 : any_axis12 label !! Z.to_nat rmin = Some true)
    by (apply any_axis12_lookup; eauto).
  assert (Hl02 : any_axis02 label !! Z.to_nat cmin = Some true)
    by (apply any_axis02_lookup; eauto).
  assert (Hl01 : any_axis01 label !! Z.to_nat zmin = Some true)
    by (apply any_axis01_lookup; eauto).
  assert (Hh12 : any_axis12 label !! Z.to_nat (rmax - 1) = Some true)
    by (apply any_axis12_lookup; eauto).
  assert (Hh02 : any_axis02 label !! Z.to_nat (cmax - 1) = Some true)
    by (apply any_axis02_lookup; eauto).
  assert (Hh01 : any_axis01 label !! Z.to_nat (zmax - 1) = Some true)
    by (apply any_axis01_lookup; eauto).
  destruct (bbox_dim_3D_run label out _ _ _ Hlow)
    as (r0 & r1 & c0 & c1 & z0 & z1 & Hbox &
        (Hr0 & Hr1 & Hrb) & (Hc0 & Hc1 & Hcb) & (Hz0 & Hz1 & Hzb)).
  rewrite Hbox.
  apply any_axis12_lookup in Hr0 as (? & ? & Hf1). apply Hfg in Hf1.
  apply any_axis12_lookup in Hr1 as (? & ? & Hf2). apply Hfg in Hf2.
  apply any_axis02_lookup in Hc0 as (? & ? & Hf3). apply Hfg in Hf3.
  apply any_axis02_lookup in Hc1 as (? & ? & Hf4). apply Hfg in Hf4.
  apply any_axis01_lookup in Hz0 as (? & ? & Hf5). apply Hfg in Hf5.
  apply any_axis01_lookup in Hz1 as (? & ? & Hf6). apply Hfg in Hf6.
  pose proof (Hrb _ Hl12). pose proof (Hrb _ Hh12).
  pose proof (Hcb _ Hl02). pose proof (Hcb _ Hh02).
  pose proof (Hzb _ Hl01). pose proof (Hzb _ Hh01).
  unfold in_box in *. repeat f_equal; lia.
Qed.

(** ** The bounding-box label mode of [get_item_from_index] *)

Lemma crop_and_resize_bbox_step
    (resize_scan : ndarray3 Q -> nat * nat * nat -> ndarray3 Q)
    (resize_label : ndarray3 Z -> nat * nat * nat -> ndarray3 Z)
    (self : MSD_data) (scan_id : string)
    (scan : ndarray3 Q) (label box_label : ndarray3 Z) (out : list string)
    (b0 b1 b2 b3 b4 b5 : Z) :
  label_mode self = "bbox-seg" ->
  bbox_dim_3D (staged_label self label) out =
    (Ok (Some (b0, b1, b2, b3, b4, b5)), out) ->
  create_3D_label b0 b1 b2 b3 b4 b5
    (Z.of_nat (dim1 (staged_label self label)))
    (Z.of_nat (dim2 (staged_label self label))) = Ok box_label ->
  crop_and_resize resize_scan resize_label self scan_id scan label out =
    bind (crop_volume scan box_label (crop_height self))
      (fun x : ndarray3 Q * ndarray3 Z =>
         let (cropped_scan, cropped_label) := x in
         if decide (shape3 cropped_scan = shape3 cropped_label)
         then ret (resize_scan cropped_scan (res self, res self, res_z self),
                   astype_uint8 (resize_label cropped_label
                                   (res self, res self, res_z self)))
         else throw AssertionError) out.
Proof.
  intros Hmode Hbox Hcreate. unfold crop_and_resize. rewrite Hmode.
  change (is_bbox_mode "bbox-seg") with true. cbv iota.
  fold (staged_label self label).
  unfold bind at 1. unfold bind at 1. rewrite Hbox.
  unfold bind at 1. unfold ret at 1. unfold lift. rewrite Hcreate.
  reflexivity.
Qed.

Lemma thin_foreground_staged (self : MSD_data) (label : ndarray3 Z) :
  thin_foreground label -> thin_foreground (staged_label self label).
Proof.
  unfold staged_label. destruct (mrg_labels self); [|tauto].
  intros [[r0 H] | [[c0 H] | [z0 H]]];
    [left; exists r0 | right; left; exists c0 | right; right; exists z0];
    intros r c z Hf; apply merge_labels_foreground in Hf; eauto.
Qed.

(** X9. In label mode "bbox-seg" a label whose foreground is one voxel
    thick along some axis never yields a sample: the box handed to
    [create_3D_label] has equal lower and upper bound on that axis, the
    half-open box is empty, and [crop_volume] raises TypeError on the
    all-zero box label. *)
Theorem bbox_seg_fails_on_thin_foreground
    (resize_scan : ndarray3 Q -> nat * nat * nat -> ndarray3 Q)
    (resize_label : ndarray3 Z -> nat * nat * nat -> ndarray3 Z)
    (self : MSD_data) (scan_id : string)
    (scan : ndarray3 Q) (label : ndarray3 Z) (out : list string) :
  label_mode self = "bbox-seg" ->
  thin_foreground label ->
  fst (crop_and_resize resize_scan resize_label self scan_id scan label out)
    = Raise TypeError.
Proof.
  intros Hmode Hthin.
  apply (thin_foreground_staged self) in Hthin.
  destruct (nonzero_axis0 (staged_label self label)) as [|r0 rest] eqn:Hnz.
  - (* no foreground at all *)
    pose proof (proj1 (nonzero_axis0_empty _) Hnz) as Hno.
    unfold crop_and_resize. rewrite Hmode.
    change (is_bbox_mode "bbox-seg") with true. cbv iota.
    fold (staged_label self label).
    unfold bind at 1. unfold bind at 1.
    rewrite (bbox_dim_3D_empty _ out Hno). reflexivity.
  - assert (Hin : In r0 (nonzero_axis0 (staged_label self label)))
      by (rewrite Hnz; left; reflexivity).
    apply nonzero_axis0_In in Hin as (c0 & z0 & Hf).
    destruct (bbox_dim_3D_run _ out _ _ _ Hf)
      as (rmin & rmax & cmin & cmax & zmin & zmax & Hbox &
          (Hr0 & Hr1 & _) & (Hc0 & Hc1 & _) & (Hz0 & Hz1 & _)).
    destruct (create_3D_label_cells
                (Z.of_nat rmin) (Z.of_nat rmax) (Z.of_nat cmin)
                (Z.of_nat cmax) (Z.of_nat zmin) (Z.of_nat zmax)
                (dim1 (staged_label self label))
                (dim2 (staged_label self label)))
      as (box & Hcreate & _ & _ & Hcells).
    rewrite (crop_and_resize_bbox_step _ _ self scan_id scan label box out
               _ _ _ _ _ _ Hmode Hbox Hcreate).
    assert (Hempty : forall r c z, ~ foreground box r c z).
    { intros r c z [v [[Hs Hget] Hv]]. rewrite (Hcells r c z Hs) in Hget.
      apply any_axis12_lookup in Hr0 as (? & ? & Ha0).
      apply any_axis12_lookup in Hr1 as (? & ? & Ha1).
      apply any_axis02_lookup in Hc0 as (? & ? & Hb0).
      apply any_axis02_lookup in Hc1 as (? & ? & Hb1).
      apply any_axis01_lookup in Hz0 as (? & ? & Hd0).
      apply any_axis01_lookup in Hz1 as (? & ? & Hd1).
      destruct Hthin as [[k H] | [[k H] | [k H]]].
      - rewrite (H _ _ _ Ha0), <- (H _ _ _ Ha1), in_slice_empty in Hget.
        cbn in Hget. congruence.
      - rewrite (H _ _ _ Hb0), <- (H _ _ _ Hb1), in_slice_empty in Hget.
        rewrite andb_false_r in Hget. cbn in Hget. congruence.
      - rewrite (H _ _ _ Hd0), <- (H _ _ _ Hd1), in_slice_empty in Hget.
        rewrite andb_false_r in Hget. congruence. }
    unfold bind. rewrite (crop_volume_empty scan box _ out Hempty).
    reflexivity.
Qed.

Lemma in_slice_low (lo hi n : nat) :
  lo < hi -> lo < n -> in_slice (Z.of_nat lo) (Z.of_nat hi) n lo = true.
Proof.
  intros Hlh Hn. unfold in_slice. rewrite !slice_bound_nonneg by lia.
  apply andb_true_iff. rewrite Nat.leb_le, Nat.ltb_lt. lia.
Qed.

(** The box of a label with foreground lies inside the array. *)
Lemma bbox_dim_3D_inside (img : ndarray3 Z) (out out' : list string)
    (rmin rmax cmin cmax zmin zmax : nat) :
  bbox_dim_3D img out =
    (Ok (Some (Z.of_nat rmin, Z.of_nat rmax, Z.of_nat cmin, Z.of_nat cmax,
               Z.of_nat zmin, Z.of_nat zmax)), out') ->
  rmin <= rmax < dim0 img /\ cmin <= cmax < dim1 img /\
  zmin <= zmax < dim2 img.
Proof.
  intros Hbox.
  destruct (nonzero_axis0 img) as [|r0 rest] eqn:Hnz.
  - unfold bbox_dim_3D in Hbox. rewrite Hnz in Hbox. discriminate Hbox.
  - assert (Hin : In r0 (nonzero_axis0 img)) by (rewrite Hnz; left; reflexivity).
    apply nonzero_axis0_In in Hin as (c0 & z0 & Hf).
    destruct (bbox_dim_3D_run img out _ _ _ Hf)
      as (r1 & r2 & c1 & c2 & z1 & z2 & Hrun &
          (Hr0 & Hr1 & Hrb) & (Hc0 & Hc1 & Hcb) & (Hz0 & Hz1 & Hzb)).
    rewrite Hrun in Hbox. injection Hbox as E1 E2 E3 E4 E5 E6 _.
    apply Nat2Z.inj in E1, E2, E3, E4, E5, E6. subst.
    pose proof (Hrb _ Hr0). pose proof (Hcb _ Hc0). pose proof (Hzb _ Hz0).
    apply any_axis12_lookup in Hr1 as (? & ? & Hf1).
    apply any_axis02_lookup in Hc1 as (? & ? & Hf2).
    apply any_axis01_lookup in Hz1 as (? & ? & Hf3).
    apply foreground_in_shape in Hf1, Hf2, Hf3.
    unfold in_shape in *. lia.
Qed.

Section BoxLabelMode.
Variable resize_scan : ndarray3 Q -> nat * nat * nat -> ndarray3 Q.
Variable resize_label : ndarray3 Z -> nat * nat * nat -> ndarray3 Z.
Hypothesis resize_scan_shape : forall a s, shape3 (resize_scan a s) = s.
Hypothesis resize_label_shape : forall a s, shape3 (resize_label a s) = s.

(** X10. In label mode "bbox-seg", for a scan and label of one shape whose
    (merged) label has a bounding box at least two voxels thick on every
    axis: if the first two axes have equal length the stage succeeds and
    both results have shape (res, res, res_z); if they differ (and the box
    starts within the first dim1 rows) the box label is built with shape
    (dim1, dim1, dim2) and the shape assertion fails. *)
Theorem bbox_seg_needs_square_slices (self : MSD_data) (scan_id : string)
    (scan : ndarray3 Q) (label : ndarray3 Z) (out : list string)
    (rmin rmax cmin cmax zmin zmax : nat) :
  label_mode self = "bbox-seg" ->
  shape3 scan = shape3 label ->
  bbox_dim_3D (staged_label self label) out =
    (Ok (Some (Z.of_nat rmin, Z.of_nat rmax, Z.of_nat cmin, Z.of_nat cmax,
               Z.of_nat zmin, Z.of_nat zmax)), out) ->
  rmin < rmax -> cmin < cmax -> zmin < zmax ->
  (dim0 label = dim1 label ->
   exists scan' label',
     crop_and_resize resize_scan resize_label self scan_id scan label out
       = (Ok (scan', label'), out) /\
     shape3 scan' = (res self, res self, res_z self) /\
     shape3 label' = (res self, res self, res_z self)) /\
  (dim0 label <> dim1 label -> rmin < dim1 label ->
   crop_and_resize resize_scan resize_label self scan_id scan label out
     = (Raise AssertionError, out)).
Proof using resize_scan_shape resize_label_shape.
  intros Hmode Hshape Hbox Hr Hc Hz.
  pose proof (bbox_dim_3D_inside _ _ _ _ _ _ _ _ _ Hbox)
    as (Hrin & Hcin & Hzin).
  assert (Hdims : shape3 (staged_label self label) = shape3 label)
    by (unfold staged_label; destruct (mrg_labels self); reflexivity).
  unfold shape3 in Hdims, Hshape.
  injection Hdims as Hd0 Hd1 Hd2. injection Hshape as Hs0 Hs1 Hs2.
  rewrite Hd0 in Hrin. rewrite Hd1 in Hcin. rewrite Hd2 in Hzin.
  destruct (create_3D_label_cells
              (Z.of_nat rmin) (Z.of_nat rmax) (Z.of_nat cmin)
              (Z.of_nat cmax) (Z.of_nat zmin) (Z.of_nat zmax)
              (dim1 (staged_label self label))
              (dim2 (staged_label self label)))
    as (box & Hcreate & _ & Hbshape & Hcells).
  rewrite Hd1, Hd2 in Hbshape. unfold shape3 in Hbshape.
  injection Hbshape as Hb0 Hb1 Hb2.
  rewrite (crop_and_resize_bbox_step _ _ self scan_id scan label box out
             _ _ _ _ _ _ Hmode Hbox Hcreate).
  assert (Hfg : rmin < dim1 label -> foreground box rmin cmin zmin).
  { intros Hlt. exists 1%Z. split; [split|discriminate].
    - unfold in_shape. lia.
    - rewrite Hcells by (unfold in_shape; lia).
      rewrite Hd1, Hd2, !in_slice_low by lia. reflexivity. }
  split.
  - intros Hsq. specialize (Hfg ltac:(lia)).
    destruct (crop_volume_equal_shapes scan box (crop_height self) out)
      as (cs & cl & Hcrop & Heq).
    { unfold shape3. congruence. }
    { eauto. }
    unfold bind. rewrite Hcrop.
    destruct (decide (shape3 cs = shape3 cl)); [|contradiction].
    unfold ret. do 2 eexists. split; [reflexivity|]. split.
    + apply resize_scan_shape.
    + unfold astype_uint8, map3, shape3. cbn [dim0 dim1 dim2].
      apply (resize_label_shape cl).
  - intros Hnsq Hlt. specialize (Hfg Hlt).
    destruct (bbox_dim_3D_minimal_box_aux box out _ _ _ Hfg)
      as (r0 & r1 & c0 & c1 & z0 & z1 & Hrun & _).
    destruct (crop_volume_some scan box (crop_height self) out _ Hrun)
      as (lo & hi & Hcrop).
    unfold bind. rewrite Hcrop.
    destruct (decide _) as [Heq | _]; [|reflexivity].
    exfalso. unfold shape3, slice_axis2 in Heq. cbn [dim0 dim1 dim2] in Heq.
    congruence.
Qed.
End BoxLabelMode.

(** ** The size of a crop *)

Lemma slice_bound_le (i : Z) (n : nat) : slice_bound i n <= n.
Proof.
  unfold slice_bound. destruct (Z.ltb_spec i 0); lia.
Qed.

Lemma wf3_slice_axis2 {A} (lo hi : Z) (a : ndarray3 A) :
  wf3 a = true -> wf3 (slice_axis2 lo hi a) = true.
Proof.
  intros Hwf. destruct (wf3_planes a Hwf) as [H0 Hp].
  apply wf3_of_lookups; unfold slice_axis2; cbn [cells dim0 dim1 dim2].
  - rewrite length_map. exact H0.
  - intros r plane Hr.
    change (map ?f ?l) with (f <$> l) in Hr. rewrite list_lookup_fmap in Hr.
    destruct (cells a !! r) as [p|] eqn:Hpr; [|discriminate].
    cbn in Hr. injection Hr as <-. destruct (Hp r p Hpr) as [H1 Hrows].
    split; [rewrite length_map; exact H1|].
    intros c row Hc.
    change (map ?f ?l) with (f <$> l) in Hc. rewrite list_lookup_fmap in Hc.
    destruct (p !! c) as [rw|] eqn:Hrw; [|discriminate].
    cbn in Hc. injection Hc as <-. unfold py_slice.
    rewrite length_take, length_drop, (Hrows c rw Hrw).
    unfold slice_len, slice_start.
    pose proof (slice_bound_le hi (dim2 a)). lia.
Qed.

(** X11. For a data volume and a label of one shape whose label has
    foreground, and a crop height h >= 0, the crop has at most
    2 * (h // 2) <= h slices; it has exactly that many when the window
    around the box midpoint fits into the volume, at least one when
    h >= 2, and none when h < 2.  Well-formed inputs give well-formed
    crops. *)
Theorem crop_volume_depth_bounds {A} (data : ndarray3 A) (label : ndarray3 Z)
    (h : Z) (out : list string) :
  shape3 data = shape3 label ->
  (exists r c z, foreground label r c z) ->
  (0 <= h)%Z ->
  exists (rmin rmax cmin cmax zmin zmax : nat)
         (cropped_data : ndarray3 A) (cropped_label : ndarray3 Z),
    bbox_dim_3D label out =
      (Ok (Some (Z.of_nat rmin, Z.of_nat rmax, Z.of_nat cmin, Z.of_nat cmax,
                 Z.of_nat zmin, Z.of_nat zmax)), out) /\
    crop_volume data label h out = (Ok (cropped_data, cropped_label), out) /\
    dim2 cropped_label = dim2 cropped_data /\
    (Z.of_nat (dim2 cropped_data) <= 2 * (h / 2) <= h)%Z /\
    (let zmiddle := ((Z.of_nat zmin + Z.of_nat zmax) / 2)%Z in
     (h / 2 <= zmiddle)%Z -> (zmiddle + h / 2 <= Z.of_nat (dim2 data))%Z ->
     Z.of_nat (dim2 cropped_data) = (2 * (h / 2))%Z) /\
    ((2 <= h)%Z -> 1 <= dim2 cropped_data) /\
    ((h < 2)%Z -> dim2 cropped_data = 0) /\
    (wf3 data = true -> wf3 cropped_data = true) /\
    (wf3 label = true -> wf3 cropped_label = true).
Proof.
  intros Hshape [r [c [z Hf]]] Hh.
  destruct (bbox_dim_3D_minimal_box_aux label out r c z Hf)
    as (rmin & rmax & cmin & cmax & zmin & zmax & Hrun & Hzle & Hzlt).
  assert (Hd : dim2 data = dim2 label) by (unfold shape3 in Hshape; congruence).
  destruct (crop_volume_run data label h out _ _ _ _ _ _ Hrun
              ltac:(lia) ltac:(lia) Hh Hd) as (Hcrop & Hstart & Hlen).
  exists rmin, rmax, cmin, cmax, zmin, zmax. do 2 eexists.
  split; [exact Hrun|]. split; [exact Hcrop|].
  pose proof (midpoint_between (Z.of_nat zmin) (Z.of_nat zmax) ltac:(lia))
    as Hmid.
  assert (Hh2 : (0 <= h / 2)%Z) by (apply Z.div_pos; lia).
  assert (Hhh : (2 * (h / 2) <= h)%Z) by (apply Z.mul_div_le; lia).
  assert (Hh1 : (2 <= h -> 1 <= h / 2)%Z)
    by (intros; apply Z.div_le_lower_bound; lia).
  assert (Hh0 : (h < 2 -> h / 2 = 0)%Z)
    by (intros; apply Z.div_small; lia).
  assert (Hdepth : forall lo hi,
            dim2 (slice_axis2 lo hi data) = slice_len lo hi (dim2 label))
    by (intros; unfold slice_axis2; cbn [dim2]; rewrite Hd; reflexivity).
  rewrite !Hdepth, Hlen. unfold crop_lo, crop_hi in *.
  split; [unfold slice_axis2; cbn [dim2]; exact Hlen|].
  split; [lia|]. split; [cbv zeta; lia|].
  split; [lia|]. split; [intros Hlt; rewrite (Hh0 Hlt); lia|].
  split; intros Hwf.
  - apply (wf3_slice_axis2 _ _ data Hwf).
  - apply (wf3_slice_axis2 _ _ label Hwf).
Qed.

(** ** A whole item in a segmentation label mode *)

Section WholeItem.
Context {T U : Type}.
Variable nib_load_scan : string -> result (ndarray3 Q).
Variable nib_load_label : string -> result (ndarray3 Z).
Variable resize_scan : ndarray3 Q -> nat * nat * nat -> ndarray3 Q.
Variable resize_label : ndarray3 Z -> nat * nat * nat -> ndarray3 Z.
Variable transform : scan_array -> T.
Variable target_transform : ndarray3 Z -> U.
Hypothesis resize_scan_shape : forall a s, shape3 (resize_scan a s) = s.
Hypothesis resize_label_shape : forall a s, shape3 (resize_label a s) = s.

Lemma crop_and_resize_plain (self : MSD_data) (scan_id : string)
    (scan : ndarray3 Q) (label : ndarray3 Z) (out : list string) :
  is_bbox_mode (label_mode self) = false ->
  shape3 scan = shape3 label ->
  (exists r c z, foreground (staged_label self label) r c z) ->
  exists scan' label',
    crop_and_resize resize_scan resize_label self scan_id scan label out =
      (Ok (scan', label'), out) /\
    shape3 scan' = (res self, res self, res_z self) /\
    shape3 label' = (res self, res self, res_z self).
Proof using resize_scan_shape resize_label_shape.
  intros Hmode Hshape Hfg.
  assert (Hshape' : shape3 scan = shape3 (staged_label self label)).
  { rewrite Hshape. unfold staged_label.
    destruct (mrg_labels self); reflexivity. }
  destruct (crop_volume_equal_shapes scan (staged_label self label)
              (crop_height self) out Hshape' Hfg)
    as (cs & cl & Hcrop & Heq).
  unfold crop_and_resize. rewrite Hmode. fold (staged_label self label).
  unfold bind at 1. unfold ret at 1. unfold bind. rewrite Hcrop.
  destruct (decide (shape3 cs = shape3 cl)); [|contradiction].
  unfold ret. do 2 eexists. split; [reflexivity|]. split.
  - apply resize_scan_shape.
  - unfold astype_uint8, map3, shape3. cbn [dim0 dim1 dim2].
    apply (resize_label_shape cl).
Qed.

(** X12. In a label mode without bounding boxes, once both files load as
    well-formed volumes of one shape, with a scan that is not constant
    after clipping and a label that has a foreground voxel (of value 1 or
    2 when labels are merged), [get_item_from_index] returns a sample and
    prints nothing: in mode "2D" the res_z slices of shape (res, res) of
    scan and label, otherwise the two volumes of shape (res, res, res_z). *)
Theorem get_item_from_index_seg_returns_sample (self : MSD_data) (index : Z)
    (scan_id label_file : string)
    (raw_scan : ndarray3 Q) (raw_label : ndarray3 Z) (out : list string) :
  list_getitem (scan_names self) index = Ok scan_id ->
  list_getitem (label_names self) index = Ok label_file ->
  nib_load_scan scan_id = Ok raw_scan ->
  nib_load_label label_file = Ok raw_label ->
  wf3 raw_scan = true -> wf3 raw_label = true ->
  shape3 raw_scan = shape3 raw_label ->
  (exists x y, In x (flatten3 raw_scan) /\ In y (flatten3 raw_scan) /\
               ~ (clip1 (-150 # 1) (200 # 1) x
                    == clip1 (-150 # 1) (200 # 1) y)%Q) ->
  (exists r c z v, voxel raw_label r c z v /\
     if mrg_labels self then v = 1%Z \/ v = 2%Z else v <> 0%Z) ->
  is_bbox_mode (label_mode self) = false ->
  exists scan label,
    shape3 scan = (res self, res self, res_z self) /\
    shape3 label = (res self, res self, res_z self) /\
    shape3 (convert_to_2d_single scan) = (res_z self, res self, res self) /\
    shape3 (convert_to_2d_single label) = (res_z self, res self, res self) /\
    get_item_from_index nib_load_scan nib_load_label resize_scan resize_label
      transform target_transform self index out
    = (Ok (if String.eqb (mode self) "2D"
           then (transform (Slices (convert_to_2d_single scan)),
                 target_transform (convert_to_2d_single label))
           else (transform (Volume scan), target_transform label)),
       out).
Proof using resize_scan_shape resize_label_shape.
  intros Hs Hl Hls Hll Hwfs Hwfl Hshape Hne (r & c & z & v & Hvox & Hv) Hmode.
  destruct (preprocess_scan_run raw_scan Hne) as (mn & mx & _ & _ & _ & Hrun).
  set (scan0 := fliplr (rot90 (map3 (fun x => (x - mn) / (mx - mn))%Q
                  (np_clip raw_scan (-150 # 1) (200 # 1))))) in *.
  set (label0 := rotate_label raw_label).
  unfold shape3 in Hshape. injection Hshape as H0 H1 H2.
  assert (Hshape0 : shape3 scan0 = shape3 label0).
  { unfold shape3, scan0, label0, rotate_label.
    cbn [fliplr rot90 dim0 dim1 dim2 map3 np_clip]. congruence. }
  assert (Hpre : preprocess_and_convert_to_numpy raw_scan raw_label
                 = Ok (scan0, label0)).
  { unfold preprocess_and_convert_to_numpy. rewrite Hrun.
    fold label0. destruct (decide _); [reflexivity | contradiction]. }
  assert (Hfg : exists r c z, foreground (staged_label self label0) r c z).
  { destruct Hvox as [(Hr & Hc & Hz) Hget].
    exists (dim1 raw_label - S c), (dim0 raw_label - S r), z.
    assert (Hsh : in_shape label0 (dim1 raw_label - S c)
                           (dim0 raw_label - S r) z).
    { unfold in_shape, label0, rotate_label.
      cbn [fliplr rot90 dim0 dim1 dim2]. lia. }
    assert (Hget0 : get3 label0 (dim1 raw_label - S c)
                         (dim0 raw_label - S r) z = Some v).
    { unfold label0, rotate_label.
      rewrite get3_fliplr_rot90 by (assumption || lia).
      replace (dim0 raw_label - S (dim0 raw_label - S r)) with r by lia.
      replace (dim1 raw_label - S (dim1 raw_label - S c)) with c by lia.
      exact Hget. }
    unfold staged_label. destruct (mrg_labels self).
    - exists 1%Z. split; [split; [exact Hsh|]|discriminate].
      rewrite (get3_merge_labels label0 _ _ _ Hsh). unfold cell_is.
      rewrite Hget0. destruct Hv as [-> | ->]; reflexivity.
    - exists v. split; [split; assumption | exact Hv]. }
  destruct (crop_and_resize_plain self scan_id scan0 label0 out Hmode
              Hshape0 Hfg) as (scan' & label' & Hstage & Hss & Hsl).
  exists scan', label'. split; [exact Hss|]. split; [exact Hsl|].
  unfold shape3 in Hss, Hsl. injection Hss as S0 S1 S2.
  injection Hsl as L0 L1 L2.
  split; [unfold shape3; cbn; congruence|].
  split; [unfold shape3; cbn; congruence|].
  unfold get_item_from_index, bind, lift.
  rewrite Hs, Hl, Hls, Hll, Hpre, Hstage.
  destruct (String.eqb (mode self) "2D"); reflexivity.
Qed.
End WholeItem.

(** ** Constructing and indexing [MSD_data] *)

Lemma enumerate_below_from {A} (limit : Z) (files : list A) : forall a,
  map snd
      (List.filter (fun entry : nat * A => (Z.of_nat (fst entry) <? limit)%Z)
                   (combine (seq a (length files)) files))
    = take (Z.to_nat limit - a) files.
Proof.
  induction files as [|f files IH]; intros a; cbn [length seq combine].
  - rewrite take_nil. reflexivity.
  - cbn [List.filter fst]. destruct (Z.ltb_spec (Z.of_nat a) limit).
    + cbn [map snd]. rewrite IH.
      replace (Z.to_nat limit - a) with (S (Z.to_nat limit - S a)) by lia.
      reflexivity.
    + rewrite IH. replace (Z.to_nat limit - a) with 0 by lia.
      replace (Z.to_nat limit - S a) with 0 by lia. reflexivity.
Qed.

Lemma enumerate_below_take {A} (limit : Z) (files : list A) :
  enumerate_below limit files = take (Z.to_nat limit) files.
Proof.
  unfold enumerate_below. rewrite enumerate_below_from. f_equal. lia.
Qed.

Lemma MSD_data_init_names (folders : msd_folders)
    (path : string) (r rz : nat) (limit height : Z)
    (m lmode : string) (mrg : bool) (self : MSD_data) :
  MSD_data_init folders path r rz limit height m lmode mrg = Ok self ->
  scan_names self = take (Z.to_nat limit) (imagesTr_files folders) /\
  label_names self = take (Z.to_nat limit) (labelsTr_files folders) /\
  sample_limit self = limit.
Proof.
  unfold MSD_data_init. intros Hinit.
  destruct (negb _); [discriminate|].
  destruct (String.eqb _ _); [discriminate|].
  destruct (negb _); [discriminate|].
  destruct (negb _); [discriminate|].
  injection Hinit as <-. cbn [scan_names label_names sample_limit].
  rewrite !enumerate_below_take. tauto.
Qed.

(** X13. The constructor of [MSD_data] succeeds exactly when the crop
    height is a multiple of 16, the label mode is not "bbox-coord" and both
    folders exist; the names it keeps are the first sample_limit files of
    each enumeration, so a constructed data set never has label mode
    "bbox-coord". *)
Theorem MSD_data_init_succeeds_iff (folders : msd_folders)
    (path : string) (r rz : nat) (limit height : Z)
    (m lmode : string) (mrg : bool) :
  let init := MSD_data_init folders path r rz limit height m lmode mrg in
  (is_ok init = true <->
   (height mod 16 = 0)%Z /\ lmode <> "bbox-coord" /\
   imagesTr_exists folders = true /\ labelsTr_exists folders = true) /\
  (forall self, init = Ok self ->
     scan_names self = take (Z.to_nat limit) (imagesTr_files folders) /\
     label_names self = take (Z.to_nat limit) (labelsTr_files folders) /\
     sample_limit self = limit /\ crop_height self = height /\
     label_mode self = lmode /\ label_mode self <> "bbox-coord").
Proof.
  cbv zeta. unfold MSD_data_init.
  destruct (Z.eqb_spec (height mod 16) 0) as [Hh | Hh]; cbn [negb].
  2: { split; [split; [discriminate | tauto] | discriminate]. }
  destruct (String.eqb_spec lmode "bbox-coord") as [Hm | Hm].
  { split; [split; [discriminate | tauto] | discriminate]. }
  destruct (imagesTr_exists folders); cbn [negb].
  2: { split; [split; [discriminate | intros (_ & _ & H & _); discriminate]
              | discriminate]. }
  destruct (labelsTr_exists folders); cbn [negb].
  2: { split; [split; [discriminate | intros (_ & _ & _ & H); discriminate]
              | discriminate]. }
  split; [split; [tauto | reflexivity]|].
  intros self Hself. injection Hself as <-.
  cbn [scan_names label_names sample_limit crop_height label_mode].
  rewrite !enumerate_below_take. tauto.
Qed.

(** The integer branch on an empty data set. *)
Lemma getitem_int_empty {S Sample} (len_self : result Z)
    (get_item : Z -> M S Sample) (k : Z) (s : S) :
  len_self = Ok 0%Z ->
  getitem_int len_self get_item k s = (Raise IndexError, s).
Proof.
  intros Hlen. apply (getitem_int_out_of_range len_self get_item 0 Hlen);
    lia.
Qed.

(** X14. With the default sample_limit = -1 the constructor keeps no file
    name, whatever the folders hold: the data set has length 0, every
    integer key raises IndexError and every slice with a step other than 0
    gives the empty list. *)
Theorem MSD_data_default_limit_is_empty {S Sample}
    (get_item_from_index : indexed_dataset -> Z -> M S Sample)
    (folders : msd_folders) (path : string) (r rz : nat) (height : Z)
    (m lmode : string) (mrg : bool) (self : MSD_data) :
  MSD_data_init folders path r rz (-1) height m lmode mrg = Ok self ->
  scan_names self = [] /\ label_names self = [] /\
  dataset_len (Of_MSD_data self) = Ok 0%Z /\
  (forall k s,
     dataset_getitem get_item_from_index (Of_MSD_data self) (KInt k) s
       = (Raise IndexError, s)) /\
  (forall start stop step s, step <> Some 0%Z ->
     dataset_getitem get_item_from_index (Of_MSD_data self)
                     (KSlice start stop step) s
       = (Ok (inr []), s)).
Proof.
  intros Hinit.
  destruct (MSD_data_init_names folders path r rz (-1) height m lmode mrg
              self Hinit) as (Hs & Hl & Hlim).
  cbn in Hs, Hl.
  assert (Hlen : dataset_len (Of_MSD_data self) = Ok 0%Z).
  { cbn [dataset_len]. rewrite Hlim, Hs. reflexivity. }
  split; [exact Hs|]. split; [exact Hl|]. split; [exact Hlen|]. split.
  - intros k s. unfold dataset_getitem, getitem, bind.
    rewrite (getitem_int_empty _ _ k s Hlen). reflexivity.
  - intros start stop step s Hstep. unfold dataset_getitem.
    destruct (getitem_slice (converts_numpy_integer_keys (Of_MSD_data self))
                _ (get_item_from_index (Of_MSD_data self)) 0 Hlen
                ltac:(lia) start stop step s Hstep)
      as (a & b & c & _ & Hrange & Hrun).
    rewrite Hrun. destruct (py_range a b c) as [|i rest]; [reflexivity|].
    inversion Hrange; subst. lia.
Qed.

(** X15. With a sample_limit >= 0 the length of a constructed [MSD_data]
    is sample_limit itself, also when the folder holds fewer files; the
    kept names are min(sample_limit, number of files) many, and an index
    between the two passes the range check of [__getitem__] and raises
    IndexError inside [get_item_from_index], before anything is loaded or
    printed. *)
Theorem MSD_data_len_is_sample_limit {T U}
    (nib_load_scan : string -> result (ndarray3 Q))
    (nib_load_label : string -> result (ndarray3 Z))
    (resize_scan : ndarray3 Q -> nat * nat * nat -> ndarray3 Q)
    (resize_label : ndarray3 Z -> nat * nat * nat -> ndarray3 Z)
    (transform : scan_array -> T) (target_transform : ndarray3 Z -> U)
    (folders : msd_folders) (path : string) (r rz : nat) (limit height : Z)
    (m lmode : string) (mrg : bool) (self : MSD_data) :
  MSD_data_init folders path r rz limit height m lmode mrg = Ok self ->
  (0 <= limit)%Z ->
  dataset_len (Of_MSD_data self) = Ok limit /\
  length (scan_names self)
    = Nat.min (Z.to_nat limit) (length (imagesTr_files folders)) /\
  forall k out,
    (Z.of_nat (length (imagesTr_files folders)) <= k < limit)%Z ->
    MSD_data_getitem nib_load_scan nib_load_label resize_scan resize_label
                     transform target_transform self (KInt k) out
      = (Raise IndexError, out).
Proof.
  intros Hinit Hlimit.
  destruct (MSD_data_init_names folders path r rz limit height m lmode mrg
              self Hinit) as (Hs & Hl & Hlim).
  assert (Hlen : dataset_len (Of_MSD_data self) = Ok limit).
  { cbn [dataset_len]. rewrite Hlim. unfold py_len.
    destruct (Z.eqb_spec limit (-1)); [lia|].
    destruct (Z.ltb_spec limit 0); [lia | reflexivity]. }
  split; [exact Hlen|]. split; [rewrite Hs; apply length_take|].
  intros k out Hk. unfold MSD_data_getitem, getitem, bind at 1.
  rewrite (getitem_int_in_range _ _ limit Hlen k out) by lia.
  unfold get_item_from_index, bind at 1, lift at 1.
  assert (Hidx : list_getitem (scan_names self) k = Raise IndexError).
  { unfold list_getitem. destruct (Z.ltb_spec k 0); [lia|].
    destruct (Z.ltb_spec k 0); [lia|].
    rewrite lookup_ge_None_2; [reflexivity|].
    rewrite Hs, length_take. lia. }
  rewrite Hidx. reflexivity.
Qed.

Lemma py_range_forward (n : Z) :
  (0 <= n)%Z -> py_range 0 n 1 = map Z.of_nat (seq 0 (Z.to_nat n)).
Proof.
  intros Hn. unfold py_range, range_len. cbn [Z.ltb Z.compare].
  replace (Z.to_nat (if (0 <? n)%Z then 1 + (n - 1 - 0) / 1 else 0))
    with (Z.to_nat n).
  - apply map_ext. intros i. lia.
  - destruct (Z.ltb_spec 0 n); [rewrite Z.div_1_r|]; lia.
Qed.

Lemma py_range_backward (n : Z) :
  (0 <= n)%Z ->
  py_range (n - 1) (-1) (-1)
    = map (fun i => (n - 1 - Z.of_nat i)%Z) (seq 0 (Z.to_nat n)).
Proof.
  intros Hn.
  assert (Hlen : range_len (n - 1) (-1) (-1) = Z.to_nat n).
  { unfold range_len. change (0 <? -1)%Z with false. cbv iota.
    change (- (-1))%Z with 1%Z.
    destruct (Z.ltb_spec (-1) (n - 1)); [rewrite Z.div_1_r|]; lia. }
  unfold py_range. rewrite Hlen. apply map_ext. intros i. lia.
Qed.

Lemma dataset_len_nonneg (D : indexed_dataset) (n : Z) :
  dataset_len D = Ok n -> (0 <= n)%Z.
Proof.
  intros Hlen. destruct D; cbn [dataset_len] in Hlen; unfold py_len in Hlen;
    match type of Hlen with
    | (if (?x <? 0)%Z then _ else _) = _ =>
        destruct (Z.ltb_spec x 0); [discriminate | injection Hlen as <-; lia]
    end.
Qed.

(** X16. For a data set of any of the three classes with length n, the
    slice [:] gives the samples of the indices 0, 1, ..., n - 1 in this
    order, the slice [::-1] gives them in the opposite order, and a slice
    with step 0 raises ValueError without loading anything. *)
Theorem dataset_getitem_whole_slices {S Sample}
    (get_item_from_index : indexed_dataset -> Z -> M S Sample)
    (D : indexed_dataset) (n : Z) :
  dataset_len D = Ok n ->
  (forall s,
     dataset_getitem get_item_from_index D (KSlice None None None) s =
       bind (mapM (get_item_from_index D)
                  (map Z.of_nat (seq 0 (Z.to_nat n))))
            (fun samples => ret (inr samples)) s) /\
  (forall s,
     dataset_getitem get_item_from_index D
                     (KSlice None None (Some (-1)%Z)) s =
       bind (mapM (get_item_from_index D)
                  (map (fun i => (n - 1 - Z.of_nat i)%Z)
                       (seq 0 (Z.to_nat n))))
            (fun samples => ret (inr samples)) s) /\
  (forall start stop s,
     dataset_getitem get_item_from_index D
                     (KSlice start stop (Some 0%Z)) s
       = (Raise ValueError, s)).
Proof.
  intros Hlen. pose proof (dataset_len_nonneg D n Hlen) as Hn.
  unfold dataset_getitem. split; [|split].
  - intros s.
    destruct (getitem_slice (converts_numpy_integer_keys D) _
                (get_item_from_index D) n Hlen Hn None None None s
                ltac:(discriminate)) as (a & b & c & Hidx & _ & Hrun).
    rewrite Hrun. cbn in Hidx. injection Hidx as <- <- <-.
    rewrite py_range_forward by exact Hn. reflexivity.
  - intros s.
    destruct (getitem_slice (converts_numpy_integer_keys D) _
                (get_item_from_index D) n Hlen Hn None None (Some (-1)%Z) s
                ltac:(discriminate)) as (a & b & c & Hidx & _ & Hrun).
    rewrite Hrun. cbn in Hidx. injection Hidx as <- <- <-.
    rewrite py_range_backward by exact Hn. reflexivity.
  - intros start stop s. unfold getitem, bind, lift. rewrite Hlen.
    reflexivity.
Qed.

(** X17. An [MSD_data] whose sample_limit is below -1 reports a negative
    length, which [len] rejects: every integer key and every slice raises
    ValueError. *)
Theorem MSD_data_negative_limit_is_unusable {S Sample}
    (get_item_from_index : indexed_dataset -> Z -> M S Sample)
    (self : MSD_data) :
  (sample_limit self < -1)%Z ->
  dataset_len (Of_MSD_data self) = Raise ValueError /\
  (forall k s,
     dataset_getitem get_item_from_index (Of_MSD_data self) (KInt k) s
       = (Raise ValueError, s)) /\
  (forall start stop step s,
     dataset_getitem get_item_from_index (Of_MSD_data self)
                     (KSlice start stop step) s
       = (Raise ValueError, s)).
Proof.
  intros Hlim.
  assert (Hlen : dataset_len (Of_MSD_data self) = Raise ValueError).
  { cbn [dataset_len]. unfold py_len.
    destruct (Z.eqb_spec (sample_limit self) (-1)); [lia|].
    destruct (Z.ltb_spec (sample_limit self) 0); [reflexivity | lia]. }
  split; [exact Hlen|]. unfold dataset_getitem. split.
  - intros k s. unfold getitem, getitem_int, bind, lift, ret. rewrite Hlen.
    destruct (Z.ltb_spec k 0); [reflexivity|]. cbn beta iota.
    destruct (Z.ltb_spec k 0); [lia | reflexivity].
  - intros start stop step s. unfold getitem, bind, lift. rewrite Hlen.
    reflexivity.
Qed.

(** ** More on [l1_sensitivity] and [calc_mean_std] *)

Lemma fold_right_max_nonneg (l : list Z) : (0 <= fold_right Z.max 0 l)%Z.
Proof. induction l as [|x l IH]; cbn [fold_right]; lia. Qed.

Lemma fold_right_max_In (l : list Z) :
  fold_right Z.max 0%Z l = 0%Z \/ In (fold_right Z.max 0%Z l) l.
Proof.
  induction l as [|x l IH]; cbn [fold_right]; [left; reflexivity|].
  destruct (Z.max_spec x (fold_right Z.max 0%Z l)) as [[_ ->] | [_ ->]].
  - destruct IH as [-> | IH]; [left; reflexivity | right; right; exact IH].
  - right. left. reflexivity.
Qed.

Lemma fold_right_max_upper (l : list Z) (x : Z) :
  In x l -> (x <= fold_right Z.max 0 l)%Z.
Proof.
  induction l as [|y l IH]; intros Hx; [destruct Hx|].
  cbn [fold_right]. destruct Hx as [-> | Hx]; [lia|].
  specialize (IH Hx). lia.
Qed.

(** X18. On integer data with at least two samples [l1_sensitivity]
    returns the greatest of 0 and the query values on the data with one
    sample removed: the result is never negative, bounds every
    leave-one-out query value, and is 0 or one of these values.  With
    fewer than two samples it raises ValueError. *)
Theorem l1_sensitivity_Z_is_largest_leave_one_out_value
    (query : list Z -> Z) (d : list Z) :
  (length d <= 1 -> l1_sensitivity_Z query d = Raise ValueError) /\
  (2 <= length d ->
   exists sensitivity,
     l1_sensitivity_Z query d = Ok sensitivity /\
     (0 <= sensitivity)%Z /\
     (forall i, i < length d ->
        (query (without_sample i d) <= sensitivity)%Z) /\
     (sensitivity = 0%Z \/
      exists i, i < length d /\ sensitivity = query (without_sample i d))).
Proof.
  split.
  - intros Hlen. unfold l1_sensitivity_Z, l1_sensitivity, leave_one_out_split.
    destruct (Nat.leb_spec (length d) 1); [reflexivity | lia].
  - intros Hlen. rewrite (l1_sensitivity_Z_value query d Hlen).
    eexists. split; [reflexivity|].
    split; [apply fold_right_max_nonneg|]. split.
    + intros i Hi. apply fold_right_max_upper. apply in_map_iff.
      exists i. split; [reflexivity | apply in_seq; lia].
    + destruct (fold_right_max_In
                  (map (fun i => query (without_sample i d))
                       (seq 0 (length d)))) as [H0 | Hin];
        [left; exact H0 | right].
      apply in_map_iff in Hin as (i & Hi & Hin). apply in_seq in Hin.
      exists i. split; [lia | symmetry; exact Hi].
Qed.

Section MeanStdMore.
Context {F G : Type}.
Variable torch_mean : @tensor F -> F.
Variable torch_std : @tensor F -> F.
Variable std_mean : @tensor F -> list nat -> @tensor F * @tensor F.
Variable add_scalar : @tensor F -> F -> @tensor F.
Variable F_zero : F.
Variable F_gtb : F -> F -> bool.
Variable F_div : F -> F -> F.
Variable F_truthy : F -> bool.
Variable laplace_rsample : F -> G -> F * G.

(** X19. What [calc_mean_std] rejects, always leaving generator and files
    untouched: an iterable that is neither a Dataset nor a DataLoader
    (NotImplementedError, after all items were read), a Dataset without
    samples (RuntimeError from stacking), samples of different shapes
    (RuntimeError), and samples without any axis, for which the stacked
    data has no second axis (IndexError).  A falsy epsilon such as 0
    behaves as no epsilon. *)
Theorem calc_mean_std_rejections (ds : @dataset F)
    (ts : list (@tensor F)) (save_folder : option string)
    (epsilon : option F) (w : @world F G) :
  mapM_result unwrap (items ds) = Ok ts ->
  (kind ds = OtherIterable ->
   calc_mean_std torch_mean torch_std std_mean add_scalar F_zero F_gtb
     F_div F_truthy laplace_rsample ds save_folder epsilon w = (Raise NotImplementedError, w)) /\
  (kind ds = Dataset -> ts = [] ->
   calc_mean_std torch_mean torch_std std_mean add_scalar F_zero F_gtb
     F_div F_truthy laplace_rsample ds save_folder epsilon w = (Raise RuntimeError, w)) /\
  (kind ds = Dataset ->
   (exists t rest u, ts = t :: rest /\ In u rest /\ tshape u <> tshape t) ->
   calc_mean_std torch_mean torch_std std_mean add_scalar F_zero F_gtb
     F_div F_truthy laplace_rsample ds save_folder epsilon w = (Raise RuntimeError, w)) /\
  (kind ds = Dataset -> ts <> [] ->
   Forall (fun t => tshape t = []) ts ->
   calc_mean_std torch_mean torch_std std_mean add_scalar F_zero F_gtb
     F_div F_truthy laplace_rsample ds save_folder epsilon w = (Raise IndexError, w)) /\
  (forall eps, epsilon = Some eps -> F_truthy eps = false ->
   calc_mean_std torch_mean torch_std std_mean add_scalar F_zero F_gtb
     F_div F_truthy laplace_rsample ds save_folder epsilon w = calc_mean_std torch_mean torch_std std_mean add_scalar F_zero F_gtb
     F_div F_truthy laplace_rsample ds save_folder None w).
Proof using Type.
  intros Hitems. unfold calc_mean_std, bind, lift, throw.
  rewrite Hitems. split; [|split; [|split; [|split]]].
  - intros ->. reflexivity.
  - intros -> ->. reflexivity.
  - intros -> (t & rest & u & -> & Hu & Hne). unfold stack.
    replace (forallb (fun u0 => shape_eqb (tshape u0) (tshape t)) rest)
      with false; [reflexivity|].
    symmetry. apply not_true_is_false. intros Hall.
    rewrite forallb_forall in Hall. specialize (Hall u Hu).
    unfold shape_eqb in Hall. apply bool_decide_eq_true in Hall.
    contradiction.
  - intros -> Hne Hall. rewrite (stack_same_shape ts [] Hne Hall).
    reflexivity.
  - intros eps -> Hfalsy. rewrite Hfalsy. reflexivity.
Qed.

Lemma l1_sensitivity_ok {D T} (n_samples : D -> nat)
    (take_rows : D -> list nat -> D) (zero : T) (gtb : T -> T -> bool)
    (query : D -> T) (d : D) :
  2 <= n_samples d ->
  exists v, l1_sensitivity n_samples take_rows zero gtb query d = Ok v.
Proof using Type.
  intros Hn. unfold l1_sensitivity, leave_one_out_split.
  destruct (Nat.leb_spec (n_samples d) 1); [lia|]. eauto.
Qed.


End MeanStdMore.

(** ** The colour map, pixel by pixel *)

Lemma imap2_ext {P P'} (f g : nat -> nat -> P -> P') (pix : list (list P)) :
  (forall r c row px, pix !! r = Some row -> row !! c = Some px ->
     f r c px = g r c px) ->
  imap2 f pix = imap2 g pix.
Proof.
  intros Hfg. unfold imap2. apply imap_ext. intros r row Hr. cbn beta.
  apply imap_ext. intros c px Hc. eauto.
Qed.

Lemma imap2_imap2 {P P' P''} (f : nat -> nat -> P' -> P'')
    (g : nat -> nat -> P -> P') (pix : list (list P)) :
  imap2 f (imap2 g pix) = imap2 (fun r c px => f r c (g r c px)) pix.
Proof.
  unfold imap2. apply list_eq. intros r. rewrite !list_lookup_imap.
  destruct (pix !! r) as [row|]; [|reflexivity]. cbn. f_equal.
  apply list_eq. intros c. rewrite !list_lookup_imap.
  destruct (row !! c); reflexivity.
Qed.

Lemma imap2_const {P P'} (f : P -> P') (pix : list (list P)) :
  imap2 (fun _ _ px => f px) pix = map (map f) pix.
Proof.
  unfold imap2. apply list_eq. intros r.
  change (map (map f) pix) with (map f <$> pix).
  rewrite list_lookup_imap, list_lookup_fmap.
  destruct (pix !! r) as [row|]; [|reflexivity]. cbn. f_equal.
  apply list_eq. intros c. change (map f row) with (f <$> row).
  rewrite list_lookup_imap, list_lookup_fmap. reflexivity.
Qed.

Lemma fold_mask_assign2 {P E} (mask : E -> nat -> nat -> bool) (val : E -> P)
    (es : list E) : forall img : image P,
  fold_left (fun acc e => mask_assign2 (mask e) (val e) acc) es img
    = Image (height img) (width img)
        (imap2 (fun r c px =>
                  fold_left (fun p e => if mask e r c then val e else p) es px)
               (pixels img)).
Proof.
  induction es as [|e es IH]; intros img; cbn [fold_left].
  - destruct img as [h w pix]. cbn [height width pixels]. f_equal.
    rewrite (imap2_const (fun px => px)). rewrite <- (map_id pix) at 1.
    apply map_ext. intros row. symmetry. apply map_id.
  - rewrite IH. unfold mask_assign2 at 1 2 3. cbn [height width pixels].
    f_equal. apply (imap2_imap2
      (fun r c px => fold_left (fun p e0 => if mask e0 r c then val e0 else p)
                               es px)
      (fun r c px => if mask e r c then val e else px)).
Qed.

Lemma fold_filter_same {P} (v : Z) (keep : seg_label -> bool)
    (val : seg_label -> P) (table : list seg_label) : forall x : P,
  (forall l, In l table -> (v =? label_id l)%Z = true -> keep l = true) ->
  fold_left (fun p l => if (v =? label_id l)%Z then val l else p)
            (List.filter keep table) x
    = fold_left (fun p l => if (v =? label_id l)%Z then val l else p)
                table x.
Proof.
  induction table as [|l table IH]; intros x Hkeep;
    [reflexivity|].
  cbn [List.filter fold_left].
  destruct (keep l) eqn:Hk.
  - cbn [fold_left]. apply IH. intros l' Hl'. apply Hkeep. right. exact Hl'.
  - destruct (v =? label_id l)%Z eqn:Hv.
    + rewrite (Hkeep l (or_introl eq_refl) Hv) in Hk. discriminate.
    + apply IH. intros l' Hl'. apply Hkeep. right. exact Hl'.
Qed.

(** [label_img_to_rgb] maps every pixel on its own. *)
Lemma label_img_to_rgb_pixelwise (label_img : image Z) :
  height label_img <> 1 -> width label_img <> 1 ->
  label_img_to_rgb label_img = Ok (map_image id_to_rgb label_img).
Proof.
  intros Hh Hw. unfold label_img_to_rgb.
  destruct (Nat.eqb_spec (height label_img) 1); [contradiction|].
  destruct (Nat.eqb_spec (width label_img) 1); [contradiction|].
  cbn [orb negb]. f_equal.
  rewrite (fold_mask_assign2
             (fun l r c => match get2 label_img r c with
                           | Some v => (v =? label_id l)%Z
                           | None => false
                           end) rgb_values).
  unfold map_image. cbn [height width pixels]. f_equal.
  rewrite <- (imap2_const (fun v : Z => (v, v, v))).
  rewrite imap2_imap2. rewrite <- (imap2_const rgb_uint8).
  rewrite imap2_imap2. rewrite <- (imap2_const id_to_rgb).
  apply imap2_ext. intros r c row v Hr Hc. unfold id_to_rgb. f_equal.
  assert (Hget : get2 label_img r c = Some v)
    by (unfold get2; rewrite Hr; exact Hc).
  rewrite Hget.
  apply (fold_filter_same v _ rgb_values SEG_LABELS_LIST).
  intros l _ Hv. apply existsb_exists. exists v. split.
  - apply np_unique_In, in_concat. exists row.
    split; apply list_elem_of_In, list_elem_of_lookup; eauto.
  - apply Z.eqb_eq in Hv. apply Z.eqb_eq. congruence.
Qed.

Lemma id_to_rgb_known :
  List.Forall (fun l => id_to_rgb (label_id l) = rgb_values l)
              SEG_LABELS_LIST.
Proof. repeat constructor. Qed.

Lemma id_to_rgb_unknown (v : Z) :
  ~ known_id v -> id_to_rgb v = rgb_uint8 (v, v, v).
Proof.
  intros Hun. unfold id_to_rgb. f_equal.
  assert (Hno : forall l, In l SEG_LABELS_LIST -> label_id l <> v)
    by (intros l Hl Heq; apply Hun; exists l; tauto).
  revert Hno. generalize (v, v, v) as x.
  induction SEG_LABELS_LIST as [|l table IH]; intros x Hno; [reflexivity|].
  cbn [fold_left]. destruct (Z.eqb_spec v (label_id l)) as [He | _].
  - exfalso. apply (Hno l (or_introl eq_refl)). congruence.
  - apply IH. intros l' Hl'. apply Hno. right. exact Hl'.
Qed.

Lemma relabel_pixel_other (l : seg_label) (px : rgb) :
  px <> rgb_values l -> relabel_pixel l px = px.
Proof.
  intros Hne. unfold relabel_pixel. destruct px as [[r g] b].
  rewrite bool_decide_eq_false_2 by exact Hne. reflexivity.
Qed.

Lemma rgb_to_id_unknown (px : rgb) :
  ~ known_rgb px -> rgb_to_id px = fst (fst px).
Proof.
  intros Hun. unfold rgb_to_id. f_equal. f_equal.
  assert (Hno : forall l, In l SEG_LABELS_LIST -> px <> rgb_values l)
    by (intros l Hl Heq; apply Hun; exists l; split; [exact Hl | congruence]).
  revert Hno.
  induction SEG_LABELS_LIST as [|l table IH]; intros Hno; [reflexivity|].
  cbn [fold_left]. rewrite relabel_pixel_other by (apply Hno; left; reflexivity).
  apply IH. intros l' Hl'. apply Hno. right. exact Hl'.
Qed.

Lemma map_image_map_image {P P' P''} (f : P -> P') (g : P' -> P'')
    (img : image P) :
  map_image g (map_image f img) = map_image (fun px => g (f px)) img.
Proof.
  unfold map_image. cbn [height width pixels]. f_equal.
  rewrite map_map. apply map_ext. intros row. apply map_map.
Qed.

Lemma target_labels_of_pixelwise (target : image rgb) :
  target_labels_of target = map_image rgb_to_id target.
Proof.
  unfold target_labels_of. rewrite (fold_left_map_image relabel_pixel).
  rewrite map_image_map_image. unfold rgb_to_id. reflexivity.
Qed.

Lemma get2_map_image {P P'} (f : P -> P') (img : image P) (r c : nat) :
  get2 (map_image f img) r c = f <$> get2 img r c.
Proof.
  unfold get2, map_image. cbn [pixels].
  change (map (map f) (pixels img)) with (map f <$> pixels img).
  rewrite list_lookup_fmap.
  destruct (pixels img !! r) as [row|]; [|reflexivity]. cbn.
  change (map f row) with (f <$> row). apply list_lookup_fmap.
Qed.

Lemma map_image_id_on {P} (f : P -> P) (img : image P) :
  Forall (Forall (fun px => f px = px)) (pixels img) ->
  map_image f img = img.
Proof.
  intros Hall. destruct img as [h w pix]. unfold map_image.
  cbn [height width pixels] in *. f_equal.
  rewrite <- (map_id pix) at 2. apply map_ext_in. intros row Hrow.
  rewrite List.Forall_forall in Hall. specialize (Hall row Hrow).
  rewrite <- (map_id row) at 2. apply map_ext_in. intros px Hpx.
  rewrite List.Forall_forall in Hall. apply Hall, Hpx.
Qed.

(** X21. On an image whose height and width both differ from 1,
    [label_img_to_rgb] returns an image of the same size in which every
    pixel depends on its own id only: an id of the table becomes the colour
    of its entry, and any other value v becomes the grey (v, v, v) reduced
    modulo 256. *)
Theorem label_img_to_rgb_per_pixel (label_img : image Z) :
  height label_img <> 1 -> width label_img <> 1 ->
  exists out,
    label_img_to_rgb label_img = Ok out /\
    height out = height label_img /\ width out = width label_img /\
    forall r c,
      (get2 label_img r c = None -> get2 out r c = None) /\
      (forall v, get2 label_img r c = Some v ->
         (forall l, In l SEG_LABELS_LIST -> label_id l = v ->
            get2 out r c = Some (rgb_values l)) /\
         (~ known_id v ->
            get2 out r c = Some ((v mod 256)%Z, (v mod 256)%Z, (v mod 256)%Z))).
Proof.
  intros Hh Hw. exists (map_image id_to_rgb label_img).
  split; [apply label_img_to_rgb_pixelwise; assumption|].
  split; [reflexivity|]. split; [reflexivity|].
  intros r c. rewrite get2_map_image. split.
  - intros ->. reflexivity.
  - intros v ->. cbn. split.
    + intros l Hl <-. f_equal.
      pose proof id_to_rgb_known as Hk. rewrite List.Forall_forall in Hk.
      apply Hk, Hl.
    + intros Hun. rewrite (id_to_rgb_unknown v Hun). reflexivity.
Qed.

(** X22. The masking loop of [SegmentationData.get_item_from_index] gives
    every pixel whose colour is in the table the id of its entry, and
    leaves every other pixel with its own red channel as label. *)
Theorem target_labels_per_pixel (target : image rgb) :
  height (target_labels_of target) = height target /\
  width (target_labels_of target) = width target /\
  forall r c,
    (get2 target r c = None -> get2 (target_labels_of target) r c = None) /\
    (forall px, get2 target r c = Some px ->
       (forall l, In l SEG_LABELS_LIST -> rgb_values l = px ->
          get2 (target_labels_of target) r c = Some (label_id l)) /\
       (~ known_rgb px ->
          get2 (target_labels_of target) r c = Some (fst (fst px)))).
Proof.
  rewrite target_labels_of_pixelwise.
  split; [reflexivity|]. split; [reflexivity|].
  intros r c. rewrite get2_map_image. split.
  - intros ->. reflexivity.
  - intros px ->. cbn. split.
    + intros l Hl <-. f_equal.
      pose proof SEG_LABELS_LIST_relabel as Hk.
      rewrite List.Forall_forall in Hk. apply Hk, Hl.
    + intros Hun. rewrite (rgb_to_id_unknown px Hun). reflexivity.
Qed.

(** X23. Round trip from ids: an id image whose ids are all in the table,
    and whose height and width differ from 1, is recovered by converting
    it to colours and running the masking loop on the result. *)
Theorem ids_to_rgb_and_back (label_img : image Z) :
  height label_img <> 1 -> width label_img <> 1 ->
  Forall (Forall known_id) (pixels label_img) ->
  exists colours,
    label_img_to_rgb label_img = Ok colours /\
    target_labels_of colours = label_img.
Proof.
  intros Hh Hw Hknown. exists (map_image id_to_rgb label_img).
  split; [apply label_img_to_rgb_pixelwise; assumption|].
  rewrite target_labels_of_pixelwise, map_image_map_image.
  apply map_image_id_on.
  eapply List.Forall_impl; [|exact Hknown]. intros row Hrow.
  eapply List.Forall_impl; [|exact Hrow]. intros v (l & Hl & <-).
  pose proof id_to_rgb_known as Hk. rewrite List.Forall_forall in Hk.
  rewrite (Hk l Hl).
  pose proof SEG_LABELS_LIST_relabel as Hr.
  rewrite List.Forall_forall in Hr. apply Hr, Hl.
Qed.

(** X24. Round trip from colours: an RGB image whose colours are all in
    the table, and whose height and width differ from 1, is recovered by
    running the masking loop and converting the ids back to colours. *)
Theorem rgb_to_ids_and_back (target : image rgb) :
  height target <> 1 -> width target <> 1 ->
  Forall (Forall known_rgb) (pixels target) ->
  label_img_to_rgb (target_labels_of target) = Ok target.
Proof.
  intros Hh Hw Hknown. rewrite target_labels_of_pixelwise.
  rewrite label_img_to_rgb_pixelwise by assumption.
  rewrite map_image_map_image. f_equal. apply map_image_id_on.
  eapply List.Forall_impl; [|exact Hknown]. intros row Hrow.
  eapply List.Forall_impl; [|exact Hrow]. intros px (l & Hl & <-).
  pose proof SEG_LABELS_LIST_relabel as Hr.
  rewrite List.Forall_forall in Hr. unfold rgb_to_id. rewrite (Hr l Hl).
  pose proof id_to_rgb_known as Hk. rewrite List.Forall_forall in Hk.
  apply Hk, Hl.
Qed.

(** ** [random_split], [Subset] and [LabelMNIST] *)

Lemma py_slice_inside {A} (lo hi : Z) (l : list A) :
  (0 <= lo <= hi)%Z -> (hi <= Z.of_nat (length l))%Z ->
  py_slice lo hi (length l) l
    = take (Z.to_nat (hi - lo)) (drop (Z.to_nat lo) l).
Proof.
  intros Hlo Hhi. unfold py_slice, slice_len, slice_start.
  rewrite !slice_bound_nonneg by lia. f_equal; [lia | f_equal; lia].
Qed.

Lemma Zsum_nonneg (lengths : list Z) :
  Forall (fun x => (0 <= x)%Z) lengths -> (0 <= Zsum lengths)%Z.
Proof.
  induction 1 as [|x l Hx _ IH]; cbn [Zsum fold_right]; [lia|].
  unfold Zsum in IH. lia.
Qed.

Lemma split_slices {A} (indices : list A) (lengths : list Z) :
  Forall (fun x => (0 <= x)%Z) lengths ->
  forall total,
    (0 <= total)%Z ->
    (total + Zsum lengths <= Z.of_nat (length indices))%Z ->
    let slices :=
      map (fun '(offset, length) =>
             py_slice (offset - length) offset (List.length indices) indices)
          (combine (accumulate_from total lengths) lengths) in
    concat slices
      = take (Z.to_nat (Zsum lengths)) (drop (Z.to_nat total) indices) /\
    map (@length A) slices = map Z.to_nat lengths.
Proof.
  induction 1 as [|x rest Hx Hrest IH]; intros total Htotal Hsum; cbv zeta.
  - split; reflexivity.
  - cbn [accumulate_from combine map concat].
    pose proof (Zsum_nonneg rest Hrest) as Hnn.
    change (Zsum (x :: rest)) with (x + Zsum rest)%Z in *.
    destruct (IH (total + x)%Z ltac:(lia) ltac:(lia)) as [Hcat Hlen].
    cbv zeta in Hcat, Hlen. rewrite Hcat, Hlen.
    rewrite py_slice_inside by lia.
    replace (total + x - x)%Z with total by lia.
    replace (total + x - total)%Z with x by lia. split.
    + replace (Z.to_nat (total + x)) with (Z.to_nat total + Z.to_nat x) by lia.
      rewrite <- drop_drop, take_take_drop. f_equal. lia.
    + f_equal. rewrite length_take, length_drop. lia.
Qed.

Section RandomSplitFacts.
Context {G D : Type}.
Variable randperm : Z -> G -> list Z * G.

(** X25. [random_split] raises ValueError, without drawing a permutation,
    when the lengths do not add up to the length of the data set.  When
    they do and no length is negative, it draws one permutation and cuts
    it into consecutive pieces: the index lists of the subsets,
    concatenated in order, are the permutation, subset i has lengths[i]
    indices, and every subset holds the given data set. *)
Theorem random_split_cuts_the_permutation (dataset : D) (len_dataset : Z)
    (lengths : list Z) (generator : G) :
  (Zsum lengths <> len_dataset ->
   random_split randperm dataset len_dataset lengths generator
     = (Raise ValueError, generator)) /\
  (Zsum lengths = len_dataset ->
   Forall (fun x => (0 <= x)%Z) lengths ->
   Z.of_nat (length (fst (randperm len_dataset generator))) = len_dataset ->
   exists subsets,
     random_split randperm dataset len_dataset lengths generator
       = (Ok subsets, snd (randperm len_dataset generator)) /\
     concat (map subset_indices subsets)
       = fst (randperm len_dataset generator) /\
     map (fun s => length (subset_indices s)) subsets
       = map Z.to_nat lengths /\
     length subsets = length lengths /\
     Forall (fun s => subset_dataset s = dataset) subsets).
Proof using Type.
  unfold random_split. split.
  - intros Hne. destruct (Z.eqb_spec (Zsum lengths) len_dataset);
      [contradiction | reflexivity].
  - intros Hsum Hnn Hperm.
    destruct (Z.eqb_spec (Zsum lengths) len_dataset); [|contradiction].
    cbn [negb]. rewrite Hsum.
    destruct (randperm len_dataset generator) as [indices g'].
    cbn [fst snd] in *. eexists. split; [reflexivity|].
    destruct (split_slices indices lengths Hnn 0 ltac:(lia) ltac:(lia))
      as [Hcat Hlen]. cbv zeta in Hcat, Hlen.
    fold (accumulate lengths) in Hcat, Hlen.
    assert (Hidx :
      map subset_indices
          (map (fun '(offset, length) =>
                  {| subset_dataset := dataset;
                     subset_indices :=
                       py_slice (offset - length) offset
                                (List.length indices) indices |})
               (combine (accumulate lengths) lengths))
        = map (fun '(offset, length) =>
                 py_slice (offset - length) offset
                          (List.length indices) indices)
              (combine (accumulate lengths) lengths)).
    { rewrite map_map. apply map_ext. intros [offset len]. reflexivity. }
    split; [|split; [|split]].
    + rewrite Hidx, Hcat, drop_0. apply take_ge. lia.
    + rewrite <- (map_map subset_indices (@length Z)), Hidx. exact Hlen.
    + rewrite length_map, length_combine.
      assert (Hacc : forall t l, length (accumulate_from t l) = length l).
      { intros t l. revert t. induction l as [|y l IHl]; intros t;
          cbn [accumulate_from length]; [reflexivity|]. rewrite IHl.
        reflexivity. }
      unfold accumulate. rewrite Hacc. lia.
    + apply List.Forall_forall. intros s Hs.
      apply in_map_iff in Hs as ([offset len] & <- & _). reflexivity.
Qed.
End RandomSplitFacts.

(** X26. Indexing a [Subset]: a position in range gives the sample of the
    wrapped data set at the stored index, a negative position counts from
    the end, and a position out of range raises IndexError without
    touching the wrapped data set. *)
Theorem Subset_getitem_follows_indices {S D Sample}
    (dataset_getitem : D -> Z -> M S Sample) (self : Subset D) (s : S) :
  let n := Subset_len self in
  (forall idx i, (0 <= idx < n)%Z ->
     subset_indices self !! Z.to_nat idx = Some i ->
     Subset_getitem dataset_getitem self idx s
       = dataset_getitem (subset_dataset self) i s) /\
  (forall idx, (- n <= idx < 0)%Z ->
     Subset_getitem dataset_getitem self idx s
       = Subset_getitem dataset_getitem self (idx + n)%Z s) /\
  (forall idx, (n <= idx \/ idx < - n)%Z ->
     Subset_getitem dataset_getitem self idx s = (Raise IndexError, s)).
Proof.
  cbv zeta. unfold Subset_len, Subset_getitem, bind, lift, list_getitem.
  split; [|split].
  - intros idx i Hidx Hi. destruct (Z.ltb_spec idx 0); [lia|].
    destruct (Z.ltb_spec idx 0); [lia|]. rewrite Hi. reflexivity.
  - intros idx Hidx. destruct (Z.ltb_spec idx 0); [|lia].
    destruct (Z.ltb_spec (idx + Z.of_nat (length (subset_indices self))) 0);
      [lia|].
    destruct (Z.ltb_spec (idx + Z.of_nat (length (subset_indices self))) 0);
      [lia | reflexivity].
  - intros idx Hidx. destruct (Z.ltb_spec idx 0).
    + destruct (Z.ltb_spec (idx + Z.of_nat (length (subset_indices self))) 0);
        [reflexivity | lia].
    + destruct (Z.ltb_spec idx 0); [lia|].
      rewrite lookup_ge_None_2 by lia. reflexivity.
Qed.

Lemma mask_select_pairs {A} (keep : Z -> bool) (targets : list Z) :
  forall data : list A,
    length data = length targets ->
    combine (mask_select data (map keep targets))
            (mask_select targets (map keep targets))
      = List.filter (fun p => keep (snd p)) (combine data targets) /\
    length (mask_select data (map keep targets))
      = length (mask_select targets (map keep targets)) /\
    mask_select targets (map keep targets) = List.filter keep targets.
Proof.
  induction targets as [|t targets IH]; intros data Hlen.
  - destruct data; [|discriminate]. repeat split; reflexivity.
  - destruct data as [|x data]; [discriminate|].
    injection Hlen as Hlen. destruct (IH data Hlen) as (Hc & Hl & Hf).
    cbn [map mask_select combine List.filter snd].
    destruct (keep t); cbn [combine length]; rewrite Hc, Hl, Hf;
      repeat split; reflexivity.
Qed.

(** X27. [LabelMNIST] keeps exactly the samples whose target is one of the
    requested labels: images and targets stay paired and in their order,
    the remaining targets are the requested ones among the old targets,
    and every remaining target is a requested label. *)
Theorem LabelMNIST_keeps_requested_labels {A} (labels : list Z)
    (data : list A) (targets : list Z) :
  length data = length targets ->
  exists data' targets',
    LabelMNIST_init labels data targets = Ok (data', targets') /\
    combine data' targets'
      = List.filter (fun p => existsb (Z.eqb (snd p)) labels)
                    (combine data targets) /\
    length data' = length targets' /\
    targets' = List.filter (fun t => existsb (Z.eqb t) labels) targets /\
    Forall (fun t => In t labels) targets'.
Proof.
  unfold LabelMNIST_init, bool_index. rewrite !length_map.
  intros Hlen. rewrite Hlen, Nat.eqb_refl.
  destruct (mask_select_pairs (fun t => existsb (Z.eqb t) labels)
              targets data Hlen) as (Hc & Hl & Hf).
  do 2 eexists. split; [reflexivity|]. split; [exact Hc|].
  split; [exact Hl|]. split; [exact Hf|].
  rewrite Hf. apply List.Forall_forall. intros t Ht.
  apply filter_In in Ht as [_ Ht]. apply existsb_exists in Ht as (x & Hx & He).
  apply Z.eqb_eq in He. subst x. exact Hx.
Qed.

(** ** The further properties at concrete inputs *)

Lemma demo_label_single_column :
  forall r c z, foreground demo_label r c z -> c = 1.
Proof.
  intros r c z (v & [Hin Hget] & Hv). unfold in_shape in Hin. cbn in Hin.
  destruct r as [|[|r]]; [| |lia];
    (destruct c as [|[|[|c]]]; [| reflexivity | |lia]);
    (destruct z as [|[|[|[|z]]]]; [| | | |lia]);
    cbn in Hget; injection Hget as <-; congruence.
Defined.

Lemma demo_scan_not_constant :
  exists x y, In x (flatten3 demo_scan) /\ In y (flatten3 demo_scan) /\
              ~ (clip1 (-150 # 1) (200 # 1) x
                   == clip1 (-150 # 1) (200 # 1) y)%Q.
Proof.
  exists (-300 # 1)%Q, 0%Q. split; [left; reflexivity|].
  split; [right; left; reflexivity|]. intros H. discriminate H.
Defined.

Lemma known_id_b (v : Z) :
  existsb (fun l => (label_id l =? v)%Z) SEG_LABELS_LIST = true -> known_id v.
Proof.
  intros H. apply existsb_exists in H as (l & Hl & He).
  exists l. split; [exact Hl | apply Z.eqb_eq, He].
Defined.

Lemma known_rgb_b (px : rgb) :
  existsb (fun l => let '(r, g, b) := rgb_values l in
                    let '(r', g', b') := px in
                    (r =? r')%Z && (g =? g')%Z && (b =? b')%Z)
          SEG_LABELS_LIST = true ->
  known_rgb px.
Proof.
  intros H. apply existsb_exists in H as (l & Hl & He).
  exists l. split; [exact Hl|].
  destruct (rgb_values l) as [[r g] b], px as [[r' g'] b'].
  apply andb_true_iff in He as [He Hb]. apply andb_true_iff in He as [Hr Hg].
  apply Z.eqb_eq in Hr, Hg, Hb. congruence.
Defined.

Lemma merge_labels_is_indicator_of_1_and_2_witness :
  wf3 demo_label = true /\
  wf3 (merge_labels demo_label) = true /\
  shape3 (merge_labels demo_label) = shape3 demo_label /\
  exists v, get3 demo_label 1 1 2 = Some v /\
            ((v = 1%Z \/ v = 2%Z) ->
             get3 (merge_labels demo_label) 1 1 2 = Some 1%Z).
Proof.
  split; [reflexivity|].
  destruct (merge_labels_is_indicator_of_1_and_2 demo_label eq_refl)
    as (Hwf & Hshape & Hcells).
  split; [exact Hwf|]. split; [exact Hshape|].
  assert (Hin : in_shape demo_label 1 1 2) by (unfold in_shape; cbn; lia).
  destruct (Hcells 1 1 2 Hin) as (v & Hv & H12 & _).
  exists v. split; [exact Hv | exact H12].
Defined.




Lemma preprocess_scan_rejects_flat_scans_witness :
  flatten3 demo_flat_scan <> [] /\
  (forall x, In x (flatten3 demo_flat_scan) -> (x <= -150 # 1)%Q) /\
  preprocess_scan demo_flat_scan = Raise AssertionError.
Proof.
  assert (Hne : flatten3 demo_flat_scan <> []) by discriminate.
  assert (Hlow : forall x, In x (flatten3 demo_flat_scan) ->
                           (x <= -150 # 1)%Q).
  { intros x [<-|[<-|[]]]; unfold Qle; cbn; lia. }
  split; [exact Hne|]. split; [exact Hlow|].
  exact (preprocess_scan_rejects_flat_scans demo_flat_scan Hne
           (or_introl Hlow)).
Defined.

Lemma create_2D_label_half_open_box_witness :
  (0 <= 1 <= 4)%Z /\ (0 <= 3 <= 4)%Z /\ (0 <= 0 <= 4)%Z /\ (0 <= 2 <= 4)%Z /\
  exists label : image Z,
    create_2D_label 1 3 0 2 4 = Ok label /\
    (Z.of_nat (height label), Z.of_nat (width label)) = (4, 4)%Z /\
    get2 label 1 1 = Some 1%Z /\ get2 label 3 1 = Some 0%Z.
Proof.
  split; [lia|]. split; [lia|]. split; [lia|]. split; [lia|].
  destruct (create_2D_label_half_open_box 1 3 0 2 4
              ltac:(lia) ltac:(lia) ltac:(lia) ltac:(lia))
    as (label & Hrun & Hshape & _ & _ & Hcells).
  exists label. split; [exact Hrun|]. split; [exact Hshape|].
  injection Hshape as Hh Hw.
  split.
  - apply (Hcells 1 1); cbn; lia.
  - apply (Hcells 3 1); cbn; lia.
Defined.

Lemma bbox_of_create_3D_label_witness :
  (0 <= 0 < 2)%Z /\ (2 <= Z.of_nat 4)%Z /\
  (0 <= 1 < 3)%Z /\ (3 <= Z.of_nat 4)%Z /\
  (0 <= 0 < 1)%Z /\ (1 <= Z.of_nat 2)%Z /\
  exists label,
    create_3D_label 0 2 1 3 0 1 4 2 = Ok label /\
    bbox_dim_3D label [] = (Ok (Some (0, 1, 1, 2, 0, 0)%Z), []).
Proof.
  repeat (split; [lia|]).
  exact (bbox_of_create_3D_label 0 2 1 3 0 1 4 2 []
           ltac:(lia) ltac:(lia) ltac:(lia) ltac:(lia) ltac:(lia) ltac:(lia)).
Defined.

Lemma bbox_seg_fails_on_thin_foreground_witness :
  label_mode demo_msd = "bbox-seg" /\
  thin_foreground demo_label /\
  fst (crop_and_resize (resize_nearest 0%Q) (resize_nearest 0%Z) demo_msd
         "pancreas_001.nii.gz" demo_scan demo_label [])
    = Raise TypeError.
Proof.
  assert (Hthin : thin_foreground demo_label).
  { right. left. exists 1. exact demo_label_single_column. }
  split; [reflexivity|]. split; [exact Hthin|].
  exact (bbox_seg_fails_on_thin_foreground
           (resize_nearest 0%Q) (resize_nearest 0%Z) demo_msd
           "pancreas_001.nii.gz" demo_scan demo_label [] eq_refl Hthin).
Defined.

Lemma bbox_seg_needs_square_slices_witness :
  label_mode demo_msd = "bbox-seg" /\
  shape3 demo_cube_scan = shape3 demo_thick_label /\
  bbox_dim_3D (staged_label demo_msd demo_thick_label) [] =
    (Ok (Some (0, 1, 0, 1, 0, 1)%Z), []) /\
  exists scan' label',
    crop_and_resize (resize_nearest 0%Q) (resize_nearest 0%Z) demo_msd
                    "pancreas_001.nii.gz" demo_cube_scan demo_thick_label []
      = (Ok (scan', label'), []) /\
    shape3 scan' = (2, 2, 2) /\ shape3 label' = (2, 2, 2).
Proof.
  split; [reflexivity|]. split; [reflexivity|]. split; [reflexivity|].
  exact (proj1 (bbox_seg_needs_square_slices
                  (resize_nearest 0%Q) (resize_nearest 0%Z)
                  (resize_nearest_shape 0%Q) (resize_nearest_shape 0%Z)
                  demo_msd "pancreas_001.nii.gz" demo_cube_scan
                  demo_thick_label [] 0 1 0 1 0 1
                  eq_refl eq_refl eq_refl ltac:(lia) ltac:(lia) ltac:(lia))
               eq_refl).
Defined.

Lemma crop_volume_depth_bounds_witness :
  shape3 demo_scan = shape3 demo_label /\
  (exists r c z, foreground demo_label r c z) /\
  (0 <= 16)%Z /\
  exists cropped_data cropped_label,
    crop_volume demo_scan demo_label 16 [] =
      (Ok (cropped_data, cropped_label), []) /\
    dim2 cropped_label = dim2 cropped_data /\
    (Z.of_nat (dim2 cropped_data) <= 16)%Z /\
    1 <= dim2 cropped_data.
Proof.
  assert (H : exists r c z, foreground demo_label r c z)
    by (exists 0, 1, 1; exact demo_label_foreground).
  split; [reflexivity|]. split; [exact H|]. split; [lia|].
  destruct (crop_volume_depth_bounds demo_scan demo_label 16 []
              eq_refl H ltac:(lia))
    as (rmin & rmax & cmin & cmax & zmin & zmax & cd & cl & _ & Hrun & Heq &
        Hle & _ & Hge & _).
  exists cd, cl. split; [exact Hrun|]. split; [exact Heq|].
  split; [lia | apply Hge; lia].
Defined.

Lemma get_item_from_index_seg_returns_sample_witness :
  list_getitem (scan_names demo_msd_seg) 0 = Ok "pancreas_001.nii.gz" /\
  wf3 demo_scan = true /\ wf3 demo_label = true /\
  shape3 demo_scan = shape3 demo_label /\
  is_bbox_mode (label_mode demo_msd_seg) = false /\
  exists scan label,
    shape3 (convert_to_2d_single scan) = (2, 2, 2) /\
    shape3 (convert_to_2d_single label) = (2, 2, 2) /\
    get_item_from_index (fun _ => Ok demo_scan) (fun _ => Ok demo_label)
      (resize_nearest 0%Q) (resize_nearest 0%Z)
      (fun s : scan_array => s) (fun l : ndarray3 Z => l) demo_msd_seg 0 []
    = (Ok (Slices (convert_to_2d_single scan), convert_to_2d_single label),
       []).
Proof.
  split; [reflexivity|]. split; [reflexivity|]. split; [reflexivity|].
  split; [reflexivity|]. split; [reflexivity|].
  assert (Hfg : exists r c z v, voxel demo_label r c z v /\
                  if mrg_labels demo_msd_seg then v = 1%Z \/ v = 2%Z
                  else v <> 0%Z).
  { exists 0, 1, 1, 1%Z. split; [|left; reflexivity].
    split; [unfold in_shape; cbn; lia | reflexivity]. }
  destruct (get_item_from_index_seg_returns_sample
              (fun _ => Ok demo_scan) (fun _ => Ok demo_label)
              (resize_nearest 0%Q) (resize_nearest 0%Z)
              (fun s : scan_array => s) (fun l : ndarray3 Z => l)
              (resize_nearest_shape 0%Q) (resize_nearest_shape 0%Z)
              demo_msd_seg 0 "pancreas_001.nii.gz" "pancreas_001.nii.gz"
              demo_scan demo_label []
              eq_refl eq_refl eq_refl eq_refl eq_refl eq_refl eq_refl
              demo_scan_not_constant Hfg eq_refl)
    as (scan & label & _ & _ & Hs & Hl & Hrun).
  exists scan, label. split; [exact Hs|]. split; [exact Hl|]. exact Hrun.
Defined.

Lemma MSD_data_init_succeeds_iff_witness :
  is_ok (MSD_data_init demo_folders "data" 2 2 1 16 "3D" "seg" true) = true /\
  is_ok (MSD_data_init demo_folders "data" 2 2 1 24 "3D" "seg" true) = false.
Proof.
  pose proof (MSD_data_init_succeeds_iff demo_folders "data" 2 2 1 16
                "3D" "seg" true) as [Hok _].
  pose proof (MSD_data_init_succeeds_iff demo_folders "data" 2 2 1 24
                "3D" "seg" true) as [Hbad _].
  cbv zeta in Hok, Hbad. split.
  - apply Hok. repeat split; try reflexivity. discriminate.
  - destruct (is_ok _) eqn:E in |- *; [|reflexivity].
    apply Hbad in E as [E _]. discriminate E.
Defined.

Lemma MSD_data_default_limit_is_empty_witness :
  exists self,
    MSD_data_init demo_folders "data" 2 2 (-1) 16 "3D" "seg" true = Ok self /\
    scan_names self = [] /\
    dataset_len (Of_MSD_data self) = Ok 0%Z /\
    dataset_getitem demo_get_item (Of_MSD_data self) (KInt 0) tt
      = (Raise IndexError, tt).
Proof.
  eexists. split; [reflexivity|].
  destruct (MSD_data_default_limit_is_empty demo_get_item demo_folders
              "data" 2 2 16 "3D" "seg" true _ eq_refl)
    as (Hnames & _ & Hlen & Hint & _).
  split; [exact Hnames|]. split; [exact Hlen | exact (Hint 0%Z tt)].
Defined.

Lemma MSD_data_len_is_sample_limit_witness :
  (0 <= 5)%Z /\
  exists self,
    MSD_data_init demo_folders "data" 2 2 5 16 "3D" "seg" true = Ok self /\
    dataset_len (Of_MSD_data self) = Ok 5%Z /\
    length (scan_names self) = 2 /\
    MSD_data_getitem (fun _ => Ok demo_scan) (fun _ => Ok demo_label)
      (resize_nearest 0%Q) (resize_nearest 0%Z)
      (fun s : scan_array => s) (fun l : ndarray3 Z => l) self (KInt 3) []
    = (Raise IndexError, []).
Proof.
  split; [lia|]. eexists. split; [reflexivity|].
  destruct (MSD_data_len_is_sample_limit
              (fun _ => Ok demo_scan) (fun _ => Ok demo_label)
              (resize_nearest 0%Q) (resize_nearest 0%Z)
              (fun s : scan_array => s) (fun l : ndarray3 Z => l)
              demo_folders "data" 2 2 5 16 "3D" "seg" true _ eq_refl
              ltac:(lia))
    as (Hlen & Hnames & Hget).
  split; [exact Hlen|]. split; [exact Hnames|].
  apply Hget. cbn. lia.
Defined.

Lemma dataset_getitem_whole_slices_witness :
  dataset_len (Of_MSD_data_images demo_images) = Ok 2%Z /\
  dataset_getitem demo_get_item (Of_MSD_data_images demo_images)
                  (KSlice None None None) tt
    = (Ok (inr [0; 1]%Z), tt) /\
  dataset_getitem demo_get_item (Of_MSD_data_images demo_images)
                  (KSlice None None (Some (-1)%Z)) tt
    = (Ok (inr [1; 0]%Z), tt).
Proof.
  split; [reflexivity|].
  destruct (dataset_getitem_whole_slices demo_get_item
              (Of_MSD_data_images demo_images) 2 eq_refl)
    as (Hfwd & Hbwd & _).
  split; [exact (Hfwd tt) | exact (Hbwd tt)].
Defined.

Lemma MSD_data_negative_limit_is_unusable_witness :
  (sample_limit demo_msd_negative < -1)%Z /\
  dataset_len (Of_MSD_data demo_msd_negative) = Raise ValueError /\
  dataset_getitem demo_get_item (Of_MSD_data demo_msd_negative) (KInt 0) tt
    = (Raise ValueError, tt).
Proof.
  assert (H : (sample_limit demo_msd_negative < -1)%Z) by (cbn; lia).
  split; [exact H|].
  destruct (MSD_data_negative_limit_is_unusable demo_get_item
              demo_msd_negative H) as (Hlen & Hint & _).
  split; [exact Hlen | exact (Hint 0%Z tt)].
Defined.

Lemma l1_sensitivity_Z_is_largest_leave_one_out_value_witness :
  2 <= length [1; 5; 2]%Z /\
  exists sensitivity,
    l1_sensitivity_Z Zsum [1; 5; 2]%Z = Ok sensitivity /\
    (0 <= sensitivity)%Z /\
    (Zsum (without_sample 1 [1; 5; 2]%Z) <= sensitivity)%Z.
Proof.
  assert (H : 2 <= length [1; 5; 2]%Z) by (cbn; lia).
  split; [exact H|].
  destruct (proj2 (l1_sensitivity_Z_is_largest_leave_one_out_value
                     Zsum [1; 5; 2]%Z) H)
    as (sens & Hrun & Hnn & Hub & _).
  exists sens. split; [exact Hrun|]. split; [exact Hnn|].
  apply Hub. cbn. lia.
Defined.

Lemma calc_mean_std_rejections_witness :
  mapM_result unwrap (items demo_dataset) = Ok demo_tensors /\
  calc_mean_std (fun _ => 0%Z) (fun _ => 0%Z) demo_std_mean
    (fun t _ => t) 0%Z Z.gtb Z.div (fun x => negb (x =? 0)%Z)
    (fun scale (g : nat) => (scale, S g)) demo_dataset None (Some 0%Z)
    (World 0 [])
  = calc_mean_std (fun _ => 0%Z) (fun _ => 0%Z) demo_std_mean
      (fun t _ => t) 0%Z Z.gtb Z.div (fun x => negb (x =? 0)%Z)
      (fun scale (g : nat) => (scale, S g)) demo_dataset None None
      (World 0 []).
Proof.
  split; [reflexivity|].
  destruct (calc_mean_std_rejections
              (fun _ => 0%Z) (fun _ => 0%Z) demo_std_mean
              (fun t _ => t) 0%Z Z.gtb Z.div (fun x => negb (x =? 0)%Z)
              (fun scale (g : nat) => (scale, S g))
              demo_dataset demo_tensors None (Some 0%Z) (World 0 [])
              eq_refl)
    as (_ & _ & _ & _ & Hfalsy).
  exact (Hfalsy 0%Z eq_refl eq_refl).
Defined.


Lemma label_img_to_rgb_per_pixel_witness :
  height demo_id_img <> 1 /\ width demo_id_img <> 1 /\
  exists out,
    label_img_to_rgb demo_id_img = Ok out /\
    get2 out 1 0 = Some (192, 64, 0)%Z /\
    get2 out 1 1 = Some (44, 44, 44)%Z.
Proof.
  assert (Hh : height demo_id_img <> 1) by discriminate.
  assert (Hw : width demo_id_img <> 1) by discriminate.
  split; [exact Hh|]. split; [exact Hw|].
  destruct (label_img_to_rgb_per_pixel demo_id_img Hh Hw)
    as (out & Hrun & _ & _ & Hpix).
  exists out. split; [exact Hrun|]. split.
  - destruct (Hpix 1 0) as [_ H]. destruct (H 22%Z eq_refl) as [Hknown _].
    apply (Hknown (SegLabel 22 "boat" (192, 64, 0)%Z)); [|reflexivity].
    do 22 right. left. reflexivity.
  - destruct (Hpix 1 1) as [_ H]. destruct (H 300%Z eq_refl) as [_ Hother].
    apply Hother. intros (l & Hl & He). cbn in Hl.
    repeat (destruct Hl as [<-|Hl]; [discriminate He|]). exact Hl.
Defined.

Lemma ids_to_rgb_and_back_witness :
  height demo_known_id_img <> 1 /\ width demo_known_id_img <> 1 /\
  Forall (Forall known_id) (pixels demo_known_id_img) /\
  exists colours,
    label_img_to_rgb demo_known_id_img = Ok colours /\
    target_labels_of colours = demo_known_id_img.
Proof.
  assert (Hh : height demo_known_id_img <> 1) by discriminate.
  assert (Hw : width demo_known_id_img <> 1) by discriminate.
  assert (Hk : Forall (Forall known_id) (pixels demo_known_id_img))
    by (repeat constructor; apply known_id_b; reflexivity).
  split; [exact Hh|]. split; [exact Hw|]. split; [exact Hk|].
  exact (ids_to_rgb_and_back demo_known_id_img Hh Hw Hk).
Defined.

Lemma rgb_to_ids_and_back_witness :
  height demo_rgb_img <> 1 /\ width demo_rgb_img <> 1 /\
  Forall (Forall known_rgb) (pixels demo_rgb_img) /\
  label_img_to_rgb (target_labels_of demo_rgb_img) = Ok demo_rgb_img.
Proof.
  assert (Hh : height demo_rgb_img <> 1) by discriminate.
  assert (Hw : width demo_rgb_img <> 1) by discriminate.
  assert (Hk : Forall (Forall known_rgb) (pixels demo_rgb_img))
    by (repeat constructor; apply known_rgb_b; reflexivity).
  split; [exact Hh|]. split; [exact Hw|]. split; [exact Hk|].
  exact (rgb_to_ids_and_back demo_rgb_img Hh Hw Hk).
Defined.

Lemma random_split_cuts_the_permutation_witness :
  Zsum [2; 3]%Z = 5%Z /\
  Forall (fun x => (0 <= x)%Z) [2; 3]%Z /\
  Z.of_nat (length (fst (demo_randperm 5 0))) = 5%Z /\
  (exists subsets,
     random_split demo_randperm (Of_SegmentationData demo_segmentation)
                  5 [2; 3]%Z 0
       = (Ok subsets, 1) /\
     map subset_indices subsets = [[4; 3]; [2; 1; 0]]%Z) /\
  random_split demo_randperm (Of_SegmentationData demo_segmentation)
               5 [2; 2]%Z 0
    = (Raise ValueError, 0).
Proof.
  assert (Hnn : Forall (fun x => (0 <= x)%Z) [2; 3]%Z)
    by (repeat constructor; lia).
  split; [reflexivity|]. split; [exact Hnn|]. split; [reflexivity|].
  split.
  - destruct (proj2 (random_split_cuts_the_permutation demo_randperm
                       (Of_SegmentationData demo_segmentation) 5 [2; 3]%Z 0)
                    eq_refl Hnn eq_refl)
      as (subsets & Hrun & _).
    exists subsets. split; [exact Hrun|].
    injection Hrun as <-. reflexivity.
  - apply (proj1 (random_split_cuts_the_permutation demo_randperm
                    (Of_SegmentationData demo_segmentation) 5 [2; 2]%Z 0)).
    discriminate.
Defined.

Lemma Subset_getitem_follows_indices_witness :
  Subset_getitem demo_get_item demo_subset (-1) tt
    = Subset_getitem demo_get_item demo_subset 1 tt /\
  Subset_getitem demo_get_item demo_subset 0 tt = (Ok 1%Z, tt) /\
  Subset_getitem demo_get_item demo_subset 2 tt = (Raise IndexError, tt).
Proof.
  destruct (Subset_getitem_follows_indices demo_get_item demo_subset tt)
    as (Hin & Hneg & Hout).
  split; [|split].
  - apply (Hneg (-1)%Z). unfold Subset_len, demo_subset. cbn. lia.
  - apply (Hin 0%Z 1%Z); [unfold Subset_len, demo_subset; cbn; lia|].
    reflexivity.
  - apply Hout. unfold Subset_len, demo_subset. cbn. lia.
Defined.

Lemma LabelMNIST_keeps_requested_labels_witness :
  length ["a"; "b"; "c"; "d"]%string = length [3; 5; 7; 3]%Z /\
  exists data' targets',
    LabelMNIST_init [3; 7]%Z ["a"; "b"; "c"; "d"]%string [3; 5; 7; 3]%Z
      = Ok (data', targets') /\
    combine data' targets' = [("a", 3); ("c", 7); ("d", 3)]%Z.
Proof.
  split; [reflexivity|].
  destruct (LabelMNIST_keeps_requested_labels [3; 7]%Z
              ["a"; "b"; "c"; "d"]%string [3; 5; 7; 3]%Z eq_refl)
    as (data' & targets' & Hrun & Hpairs & _).
  exists data', targets'. split; [exact Hrun | exact Hpairs].
Defined.
